(** * vibe-track: the activity-to-session engine, embedded and verified

    A shallow embedding of the classifier ([database.js],
    [projects.js]), the session reconstruction
    ([WorkTrackerDB.calculateWorkTimeForDate]), the daily-summary upsert,
    and the aggregations of [main.js] (hourly histogram, streak).

    Conventions of the embedding:
    - a JavaScript string is the list of its UTF-16 code units;
    - a [Date] is its epoch value in milliseconds (an integer);
    - a JavaScript number that the code obtains by dividing a difference
      of epoch values is an exact rational (the code computes in binary
      floating point; the model does not round);
    - [null]/[undefined] are [None]. *)

From Stdlib Require Import String Ascii DecimalString.
From Stdlib Require Import ZArith NArith QArith Qround Bool List Lia.
From Stdlib Require Import Sorting.Sorted.
Import ListNotations.

Open Scope Z_scope.

(* ================================================================= *)
(** * The program *)

(* ================================================================= *)
(** ** JavaScript strings *)

(** The sequence of UTF-16 code units of a string value. *)
Definition jsstring := list N.

(** A literal written in the source (all literals of the modelled code are
    ASCII). *)
Definition str (s : string) : jsstring :=
  List.map N_of_ascii (list_ascii_of_string s).

Fixpoint jseqb (s t : jsstring) : bool :=
  match s, t with
  | [], [] => true
  | c :: s', d :: t' => N.eqb c d && jseqb s' t'
  | _, _ => false
  end.

(** [startsWith s sub]: [sub] is a prefix of [s]. *)
Fixpoint startsWith (s sub : jsstring) : bool :=
  match sub, s with
  | [], _ => true
  | c :: sub', d :: s' => N.eqb c d && startsWith s' sub'
  | _ :: _, [] => false
  end.

(** [String.prototype.includes]: [sub] occurs in [s] at some position. *)
Fixpoint includes (s sub : jsstring) : bool :=
  startsWith s sub ||
  match s with
  | [] => false
  | _ :: s' => includes s' sub
  end.

(** The mathematical reading of "[s] contains [sub] as a substring". *)
Definition contains (s sub : jsstring) : Prop :=
  exists pre post, s = pre ++ sub ++ post.

(** Truthiness of a string-or-null value: [null], [undefined] and the empty
    string are falsy. *)
Definition truthy (v : option jsstring) : bool :=
  match v with
  | Some (_ :: _) => true
  | _ => false
  end.

(** [v || ''] *)
Definition orEmpty (v : option jsstring) : jsstring :=
  match v with
  | Some s => s
  | None => []
  end.

(* ================================================================= *)
(** ** The productivity classifier ([database.js], isProductiveActivity) *)

Definition browsers : list jsstring :=
  [str "Safari"; str "Google Chrome"; str "Firefox"; str "Chrome";
   str "Edge"; str "Brave"].

Definition isProductiveActivity
    (appName windowTitle : option jsstring)
    (productiveApps productiveWebsites : list jsstring) : bool :=
  if negb (truthy appName) then false
  else
    let appName := orEmpty appName in
    if existsb (fun app => includes appName app) productiveApps then true
    else if existsb (fun browser => includes appName browser) browsers then
      if truthy windowTitle then
        let windowTitle := orEmpty windowTitle in
        existsb (fun site => includes windowTitle site) productiveWebsites
      else false
    else false.

(* ================================================================= *)
(** ** Dates *)

(** [n] written with [width] decimal digits, zero padded
    (for [0 <= n < 10 ^ width]). *)
Fixpoint digits (width : nat) (n : Z) : jsstring :=
  match width with
  | O => []
  | S w => digits w (n / 10) ++ [Z.to_N (48 + n mod 10)]
  end.

(** Year, month and day of the proleptic Gregorian calendar (UTC) for a day
    number counted from 1970-01-01. *)
Definition civil_from_days (day : Z) : Z * Z * Z :=
  let z := day + 719468 in
  let era := z / 146097 in
  let doe := z - era * 146097 in
  let yoe := (doe - doe / 1460 + doe / 36524 - doe / 146096) / 365 in
  let doy := doe - (365 * yoe + yoe / 4 - yoe / 100) in
  let mp := (5 * doy + 2) / 153 in
  let d := doy - (153 * mp + 2) / 5 + 1 in
  let m := if mp <? 10 then mp + 3 else mp - 9 in
  let y := yoe + era * 400 + (if m <=? 2 then 1 else 0) in
  (y, m, d).

Definition msPerDay : Z := 86400000.

(** [new Date(ms).toISOString().split('T')[0]]: the UTC calendar date,
    [YYYY-MM-DD] (years outside 0..9999 are written with a sign and six
    digits, as [toISOString] does). *)
Definition toISODate (ms : Z) : jsstring :=
  let '(y, m, d) := civil_from_days (ms / msPerDay) in
  let year :=
    if (0 <=? y) && (y <=? 9999) then digits 4 y
    else if y <? 0 then str "-" ++ digits 6 (- y)
    else str "+" ++ digits 6 y in
  year ++ str "-" ++ digits 2 m ++ str "-" ++ digits 2 d.

(* ================================================================= *)
(** ** The event log ([database.js], table activity_log) *)

(** One row of [activity_log]. [timestamp] is the epoch value of
    [new Date(activity.timestamp)]; [is_afk] is the truthiness of the
    integer column. *)
Record Activity := mkActivity {
  timestamp : Z;
  app_name : option jsstring;
  window_title : option jsstring;
  is_afk : bool;
  afk_type : option jsstring;
  project : option jsstring
}.

(** [activity.afk_type === lit] *)
Definition afk_type_is (activity : Activity) (lit : string) : bool :=
  match afk_type activity with
  | Some t => jseqb t (str lit)
  | None => false
  end.

(** One row of [daily_summary] (the bookkeeping columns [id], [created_at]
    and [updated_at] are left out).  Numeric columns hold what the
    JavaScript caller binds: a number, or NULL. *)
Record DailySummary := mkDailySummary {
  date : jsstring;
  total_work_seconds : option Q;
  goal_seconds : option Q;
  sessions_count : option Q;
  productive_seconds : option Q;
  projects_json : option jsstring
}.

(** The state of the [WorkTrackerDB] singleton that the modelled code
    observes.  [Database] is whether [better-sqlite3] could be loaded,
    [init_ok] whether opening the database file would succeed. *)
Record WorkTrackerDB := mkDB {
  Database : bool;
  initialized : bool;
  init_ok : bool;
  activity_log : list Activity;
  daily_summary : list DailySummary
}.

Definition isAvailable (db : WorkTrackerDB) : bool := Database db.

(** The value returned by [init()]. *)
Definition init (db : WorkTrackerDB) : bool :=
  if initialized db then true
  else if negb (Database db) then false
  else init_ok db.

(** The guard [if (!this.initialized && !this.init()) return ...] lets the
    method proceed exactly when [ready] holds. *)
Definition ready (db : WorkTrackerDB) : bool :=
  negb (negb (initialized db) && negb (init db)).

(** [ORDER BY timestamp ASC]: rows of equal timestamp keep insertion
    order. *)
Fixpoint insertByTimestamp (a : Activity) (l : list Activity) : list Activity :=
  match l with
  | [] => [a]
  | b :: l' =>
      if timestamp a <=? timestamp b then a :: b :: l'
      else b :: insertByTimestamp a l'
  end.

Definition orderByTimestamp (l : list Activity) : list Activity :=
  fold_right insertByTimestamp [] l.

(** [SELECT * FROM activity_log WHERE date(timestamp) = ? ORDER BY
    timestamp ASC]: the stored timestamps are the strings written by
    [toISOString], whose SQL [date] is the UTC date and whose order as text
    is the order in time (for the years 0000 to 9999). *)
Definition getActivityForDate (db : WorkTrackerDB) (date : jsstring)
  : list Activity :=
  if negb (ready db) then []
  else
    orderByTimestamp
      (filter (fun a => jseqb (toISODate (timestamp a)) date)
              (activity_log db)).

(* ================================================================= *)
(** ** Session reconstruction ([database.js], calculateWorkTimeForDate) *)

Record Session := mkSession {
  start : Z;
  end_ : Z;
  duration : Q
}.

Record WorkTime := mkWorkTime {
  totalWorkSeconds : Q;
  sessions : list Session;
  sessionsCount : nat
}.

(** The variables of the loop ([lastWasProductive] is written and never
    read; it is left out). *)
Record Vars := mkVars {
  total : Q;
  isAfk : bool;
  lastTimestamp : option Z;
  sessionStart : option Z;
  recorded : list Session
}.

Definition initialVars : Vars := mkVars 0 false None None [].

(** The block
    [const duration = (endT - sessionStart) / 1000;
     if (duration > 0) { sessions.push(...); totalWorkSeconds += duration; }] *)
Definition pushSession (v : Vars) (startT endT : Z) : Vars :=
  let duration := ((endT - startT) # 1000)%Q in
  if Qlt_le_dec 0 duration then
    mkVars (total v + duration)%Q (isAfk v) (lastTimestamp v)
           (sessionStart v)
           (recorded v ++ [mkSession startT endT duration])
  else v.

Definition setSessionStart (v : Vars) (s : option Z) : Vars :=
  mkVars (total v) (isAfk v) (lastTimestamp v) s (recorded v).

Definition setIsAfk (v : Vars) (b : bool) : Vars :=
  mkVars (total v) b (lastTimestamp v) (sessionStart v) (recorded v).

Definition setLastTimestamp (v : Vars) (t : Z) : Vars :=
  mkVars (total v) (isAfk v) (Some t) (sessionStart v) (recorded v).

(** One iteration of [for (const activity of activities)]. *)
Definition step (productiveApps productiveWebsites : list jsstring)
    (v : Vars) (activity : Activity) : Vars :=
  let timestamp := timestamp activity in
  if is_afk activity then
    let v :=
      if afk_type_is activity "start" then
        let v :=
          match sessionStart v with
          | Some s =>
              if negb (isAfk v)
              then setSessionStart (pushSession v s timestamp) None
              else v
          | None => v
          end in
        setIsAfk v true
      else if afk_type_is activity "end" then setIsAfk v false
      else v in
    setLastTimestamp v timestamp
  else if isAfk v then v
  else
    let isProductive :=
      isProductiveActivity (app_name activity) (window_title activity)
                           productiveApps productiveWebsites in
    let v :=
      if isProductive then
        match sessionStart v with
        | None => setSessionStart v (Some timestamp)
        | Some _ => v
        end
      else
        match sessionStart v with
        | Some s => setSessionStart (pushSession v s timestamp) None
        | None => v
        end in
    setLastTimestamp v timestamp.

(** The block after the loop, "Handle ongoing session". *)
Definition closeOngoing (date : jsstring) (now : Z) (v : Vars) : Vars :=
  match sessionStart v with
  | Some s =>
      if negb (isAfk v) then
        let todayStr := toISODate now in
        if jseqb date todayStr then pushSession v s now
        else
          match lastTimestamp v with
          | Some l => pushSession v s l
          | None => v
          end
      else v
  | None => v
  end.

(** The body of [calculateWorkTimeForDate] from the declaration of the
    loop variables to the returned object, for the rows [activities]
    returned by the query. *)
Definition reconstruct (activities : list Activity) (date : jsstring)
    (now : Z) (productiveApps productiveWebsites : list jsstring) : WorkTime :=
  let v := fold_left (step productiveApps productiveWebsites)
                     activities initialVars in
  let v := closeOngoing date now v in
  mkWorkTime (total v) (recorded v) (length (recorded v)).

(** [calculateWorkTimeForDate(date, productiveApps, productiveWebsites)]
    evaluated at the instant [now]; [None] is the returned [null]. *)
Definition calculateWorkTimeForDate (db : WorkTrackerDB) (now : Z)
    (date : jsstring) (productiveApps productiveWebsites : list jsstring)
  : option WorkTime :=
  if negb (ready db) then None
  else
    let activities := getActivityForDate db date in
    if (length activities =? 0)%nat then None
    else Some (reconstruct activities date now
                           productiveApps productiveWebsites).

(* ================================================================= *)
(** ** Configuration ([config.js], the object returned by getAll) *)

Record Config := mkConfig {
  productiveApps : list jsstring;
  productiveWebsites : list jsstring;
  dailyGoalMinutes : Q;
  (** the entries of [projectKeywords], in the order of [Object.entries] *)
  projectKeywords : list (jsstring * list jsstring)
}.

(* ================================================================= *)
(** ** The daily analysis ([workTracker.js]) *)

Module WorkTrackerJs.

(** The fields of the object returned by the database layer (the result
    record below reuses their names). *)
Definition dbSessions (r : WorkTime) : list Session := sessions r.
Definition dbSessionsCount (r : WorkTime) : nat := sessionsCount r.

Record TotalWorkTime := mkTotalWorkTime {
  hours : Z;
  minutes : Z;
  seconds : Z;
  totalSeconds : Q
}.

Record Analysis := mkAnalysis {
  date : jsstring;
  totalWorkTime : TotalWorkTime;
  formattedWorkTime : jsstring;
  shortFormattedWorkTime : jsstring;
  sessionsCount : nat;
  sessions : list Session
}.

(** [Number.prototype.toString] of an integer. *)
Definition toString (n : Z) : jsstring :=
  str (NilZero.string_of_int (Z.to_int n)).

(** [s.padStart(2, '0')] *)
Definition padStart2 (s : jsstring) : jsstring :=
  List.repeat 48%N (2 - length s) ++ s.

(** [x % m] for [x >= 0] and [m > 0]. *)
Definition remainder (x : Q) (m : Z) : Q :=
  (x - inject_Z (m * Qfloor (x / inject_Z m)))%Q.

(** [cfg.productiveApps || []] (an array, also an empty one, is truthy) *)
Definition getProductiveApps (cfg : Config) : list jsstring :=
  productiveApps cfg.

(** [cfg.productiveWebsites || []] *)
Definition getProductiveWebsites (cfg : Config) : list jsstring :=
  productiveWebsites cfg.

Definition createEmptyResult (date : jsstring) : Analysis :=
  mkAnalysis date (mkTotalWorkTime 0 0 0 0) (str "00:00:00") (str "0h 0m")
             0 [].

(** [analyzeWorkTime(logFilePath, targetDate)] evaluated at the instant
    [now] (the database-only version of the module). *)
Definition analyzeWorkTime (db : WorkTrackerDB) (cfg : Config) (now : Z)
    (targetDate : option jsstring) : Analysis :=
  let date := if truthy targetDate then orEmpty targetDate
              else toISODate now in
  let productiveApps := getProductiveApps cfg in
  let productiveWebsites := getProductiveWebsites cfg in
  if negb (isAvailable db) then createEmptyResult date
  else if negb (initialized db) && negb (init db) then createEmptyResult date
  else
    match calculateWorkTimeForDate db now date
            productiveApps productiveWebsites with
    | None => createEmptyResult date
    | Some dbResult =>
        let total := totalWorkSeconds dbResult in
        let hours := Qfloor (total / 3600) in
        let minutes := Qfloor (remainder total 3600 / 60) in
        let seconds := Qfloor (remainder total 60) in
        mkAnalysis date
          (mkTotalWorkTime hours minutes seconds total)
          (padStart2 (toString hours) ++ str ":" ++
           padStart2 (toString minutes) ++ str ":" ++
           padStart2 (toString seconds))
          (toString hours ++ str "h " ++ toString minutes ++ str "m")
          (dbSessionsCount dbResult)
          (dbSessions dbResult)
    end.

End WorkTrackerJs.

(* ================================================================= *)
(** ** Daily summaries ([database.js], table daily_summary) *)

(** SQL [COALESCE(x, y)] *)
Definition coalesce {A : Type} (x y : option A) : option A :=
  match x with
  | Some _ => x
  | None => y
  end.

(** [INSERT ... ON CONFLICT(date) DO UPDATE SET ...] on the rows of the
    table: the row of the same date is updated in place, otherwise the new
    row is added. *)
Fixpoint upsert (rows : list DailySummary) (excluded : DailySummary)
  : list DailySummary :=
  match rows with
  | [] => [excluded]
  | row :: rest =>
      if jseqb (date row) (date excluded) then
        mkDailySummary (date row)
          (total_work_seconds excluded)
          (goal_seconds excluded)
          (sessions_count excluded)
          (coalesce (productive_seconds excluded) (productive_seconds row))
          (coalesce (projects_json excluded) (projects_json row))
        :: rest
      else row :: upsert rest excluded
  end.

(** [updateDailySummary(date, totalWorkSeconds, goalSeconds, sessionsCount,
    productiveSeconds, projectsJson)]: the returned boolean and the
    database afterwards. *)
Definition updateDailySummary (db : WorkTrackerDB) (date : jsstring)
    (totalWorkSeconds goalSeconds sessionsCount productiveSeconds : option Q)
    (projectsJson : option jsstring) : bool * WorkTrackerDB :=
  if negb (ready db) then (false, db)
  else
    (true,
     mkDB (Database db) true (init_ok db) (activity_log db)
          (upsert (daily_summary db)
                  (mkDailySummary date totalWorkSeconds goalSeconds
                                  sessionsCount productiveSeconds
                                  projectsJson))).

(** [SELECT * FROM daily_summary WHERE date = ?], first row. *)
Definition getDailySummary (db : WorkTrackerDB) (d : jsstring)
  : option DailySummary :=
  if negb (ready db) then None
  else find (fun row => jseqb (date row) d) (daily_summary db).

(* ================================================================= *)
(** ** The streak ([main.js], calculateStreak) *)

(** [x || 0] for a numeric column. *)
Definition orZero (x : option Q) : Q :=
  match x with
  | Some q => q
  | None => 0%Q
  end.

(** The loop [while (true) { ... }] of [calculateStreak], run for at most
    [fuel] iterations; [None] when the fuel does not suffice.  One
    [date.setDate(date.getDate() - 1)] is one day of 24 hours. *)
Fixpoint streakLoop (fuel : nat) (db : WorkTrackerDB) (goalSeconds : Q)
    (streak : Z) (date : Z) : option Z :=
  match fuel with
  | O => None
  | S fuel =>
      let dateStr := toISODate date in
      match getDailySummary db dateStr with
      | Some summary =>
          if Qle_bool goalSeconds (orZero (total_work_seconds summary)) then
            let streak := streak + 1 in
            let date := date - msPerDay in
            if 365 <? streak then Some streak
            else streakLoop fuel db goalSeconds streak date
          else Some streak
      | None => Some streak
      end
  end.

(** [calculateStreak()] evaluated at the instant [now]. *)
Definition calculateStreak (db : WorkTrackerDB) (cfg : Config) (now : Z) : Z :=
  if negb (isAvailable db) || negb (initialized db) then 0
  else
    let goalSeconds := (dailyGoalMinutes cfg * 60)%Q in
    match streakLoop 367 db goalSeconds 0 now with
    | Some streak => streak
    | None => 0
    end.

(* ================================================================= *)
(** ** The hourly histogram ([main.js], get-hourly-stats) *)

Definition msPerHour : Z := 3600000.

(** Local time is UTC plus the offset [tz] (milliseconds), taken constant
    over the interval looked at. *)

(** [new Date(t).getHours()] *)
Definition getHours (tz t : Z) : Z := ((t + tz) / msPerHour) mod 24.

(** The epoch value after [endOfHour.setMinutes(59, 59, 999)]. *)
Definition endOfHourOf (tz t : Z) : Z :=
  (t + tz) / msPerHour * msPerHour + 3599999 - tz.

(** [Math.round]: the nearest integer, halves upwards. *)
Definition mathRound (q : Q) : Z := Qfloor (q + (1 # 2)).

(** [hourlyMinutes[hour] += v] on the 24-element array ([hour] is always
    below 24). *)
Fixpoint addAt (hourlyMinutes : list Z) (hour : nat) (v : Z) : list Z :=
  match hourlyMinutes, hour with
  | [], _ => []
  | x :: l, O => (x + v) :: l
  | x :: l, S h => x :: addAt l h v
  end.

(** The loop [while (current < end)] of [addTimeToHours], for at most
    [fuel] iterations. *)
Fixpoint addTimeLoop (fuel : nat) (tz : Z) (hourlyMinutes : list Z)
    (current endT : Z) : list Z :=
  match fuel with
  | O => hourlyMinutes
  | S fuel =>
      if current <? endT then
        let hour := getHours tz current in
        let endOfHour := endOfHourOf tz current in
        let segmentEnd := if endOfHour <? endT then endOfHour else endT in
        let minutes := ((segmentEnd - current) # 60000)%Q in
        let hourlyMinutes :=
          addAt hourlyMinutes (Z.to_nat hour) (mathRound minutes) in
        addTimeLoop fuel tz hourlyMinutes (endOfHour + 1) endT
      else hourlyMinutes
  end.

(** The number of clock hours that the interval from [current] to [endT]
    touches: the iterations the loop makes. *)
Definition hoursTouched (tz current endT : Z) : nat :=
  Z.to_nat ((endT - 1 + tz) / msPerHour - (current + tz) / msPerHour + 1).

(** [addTimeToHours(hourlyMinutes, start, end)] *)
Definition addTimeToHours (tz : Z) (hourlyMinutes : list Z) (startT endT : Z)
  : list Z :=
  addTimeLoop (hoursTouched tz startT endT) tz hourlyMinutes startT endT.

Record HourlyVars := mkHourlyVars {
  hourlyMinutes : list Z;
  hIsAfk : bool;
  hSessionStart : option Z
}.

(** One iteration of the handler's loop over the rows. *)
Definition hourlyStep (tz : Z) (productiveApps productiveWebsites : list jsstring)
    (v : HourlyVars) (activity : Activity) : HourlyVars :=
  let timestamp := timestamp activity in
  if is_afk activity then
    if afk_type_is activity "start" then
      let hm :=
        match hSessionStart v with
        | Some s =>
            if negb (hIsAfk v)
            then addTimeToHours tz (hourlyMinutes v) s timestamp
            else hourlyMinutes v
        | None => hourlyMinutes v
        end in
      mkHourlyVars hm true None
    else if afk_type_is activity "end" then
      mkHourlyVars (hourlyMinutes v) false (hSessionStart v)
    else v
  else if hIsAfk v then v
  else
    let isProductive :=
      isProductiveActivity (app_name activity) (window_title activity)
                           productiveApps productiveWebsites in
    if isProductive then
      match hSessionStart v with
      | None => mkHourlyVars (hourlyMinutes v) (hIsAfk v) (Some timestamp)
      | Some _ => v
      end
    else
      match hSessionStart v with
      | Some s =>
          mkHourlyVars (addTimeToHours tz (hourlyMinutes v) s timestamp)
                       (hIsAfk v) None
      | None => v
      end.

(** The handler of [get-hourly-stats] for [{ date }], evaluated at the
    instant [now]. *)
Definition getHourlyStats (db : WorkTrackerDB) (cfg : Config) (tz now : Z)
    (date : jsstring) : list Z :=
  let hourlyMinutes0 := List.repeat 0 24 in
  if negb (isAvailable db) || negb (initialized db) then hourlyMinutes0
  else
    let activities := getActivityForDate db date in
    if (length activities =? 0)%nat then hourlyMinutes0
    else
      let v := fold_left
                 (hourlyStep tz (productiveApps cfg) (productiveWebsites cfg))
                 activities (mkHourlyVars hourlyMinutes0 false None) in
      match hSessionStart v with
      | Some s =>
          if negb (hIsAfk v) then
            let todayStr := toISODate now in
            if jseqb date todayStr
            then addTimeToHours tz (hourlyMinutes v) s now
            else hourlyMinutes v
          else hourlyMinutes v
      | None => hourlyMinutes v
      end.

(* ================================================================= *)
(** ** Regular expressions *)

(** The fragment of the regular expressions of JavaScript that
    [projects.js] uses, with one capture group (which never stands under a
    repetition).  [r+] is [Seq r (Star r)], [r?] is [Alt r Empty]. *)
Inductive Regex : Type :=
| Empty : Regex
| Chars : (N -> bool) -> Regex
| Seq : Regex -> Regex -> Regex
| Alt : Regex -> Regex -> Regex
| Star : Regex -> Regex
| Group : Regex -> Regex
| Bol : Regex.

Definition Plus (r : Regex) : Regex := Seq r (Star r).
Definition Opt (r : Regex) : Regex := Alt r Empty.

(** What remains to be matched: a function of the position reached, of
    the rest of the subject there and of the capture so far. *)
Definition Cont : Type :=
  nat -> jsstring -> option jsstring -> option (option jsstring).

(** The greedy repetition of the matcher [m], followed by [k].  An
    iteration that consumes nothing is refused, so that [S (length s)]
    iterations are never exhausted on the subject [s]. *)
Fixpoint starLoop (m : nat -> jsstring -> option jsstring -> Cont ->
                       option (option jsstring))
    (k : Cont) (fuel : nat) (pos : nat) (s : jsstring) (cap : option jsstring)
    {struct fuel} : option (option jsstring) :=
  match fuel with
  | O => k pos s cap
  | S fuel' =>
      match
        m pos s cap
          (fun pos' s' cap' =>
             if (length s' <? length s)%nat
             then starLoop m k fuel' pos' s' cap'
             else None)
      with
      | Some found => Some found
      | None => k pos s cap
      end
  end.

(** The backtracking matcher, in continuation-passing style: [pos] is the
    index of the first code unit of [s] in the subject, [cap] the capture
    so far, [k] what remains to be matched.  Alternatives are tried left
    to right and [Star] is greedy. *)
Fixpoint matchRe (r : Regex) (pos : nat) (s : jsstring) (cap : option jsstring)
    (k : Cont) {struct r} : option (option jsstring) :=
  match r with
  | Empty => k pos s cap
  | Chars p =>
      match s with
      | c :: s' => if p c then k (S pos) s' cap else None
      | [] => None
      end
  | Seq r1 r2 =>
      matchRe r1 pos s cap (fun pos' s' cap' => matchRe r2 pos' s' cap' k)
  | Alt r1 r2 =>
      match matchRe r1 pos s cap k with
      | Some found => Some found
      | None => matchRe r2 pos s cap k
      end
  | Star r1 => starLoop (matchRe r1) k (S (length s)) pos s cap
  | Group r1 =>
      matchRe r1 pos s cap
        (fun pos' s' _ => k pos' s' (Some (firstn (pos' - pos) s)))
  | Bol => if (pos =? 0)%nat then k pos s cap else None
  end.

(** The leftmost match at or after [pos]. *)
Fixpoint search (r : Regex) (pos : nat) (s : jsstring)
  : option (option jsstring) :=
  match matchRe r pos s None (fun _ _ cap => Some cap) with
  | Some cap => Some cap
  | None =>
      match s with
      | [] => None
      | _ :: s' => search r (S pos) s'
      end
  end.

(** [s.match(r)] for a regular expression without the [g] flag: [None] is
    [null], [Some cap] a match whose first capture group is [cap]. *)
Definition exec (r : Regex) (s : jsstring) : option (option jsstring) :=
  search r 0 s.

Definition chr (c : ascii) : N := N_of_ascii c.

Definition inRange (lo hi c : N) : bool := (lo <=? c)%N && (c <=? hi)%N.

Definition isUpper (c : N) : bool := inRange (chr "A") (chr "Z") c.
Definition isLower (c : N) : bool := inRange (chr "a") (chr "z") c.
Definition isDigit (c : N) : bool := inRange (chr "0") (chr "9") c.

(** [\w] *)
Definition isWord (c : N) : bool :=
  isUpper c || isLower c || isDigit c || (c =? chr "_")%N.

(** [\s], which is also what [trim] strips: white space and line
    terminators. *)
Definition isSpace (c : N) : bool :=
  inRange 9 13 c || (c =? 32)%N || (c =? 160)%N || (c =? 5760)%N ||
  inRange 8192 8202 c || (c =? 8232)%N || (c =? 8233)%N || (c =? 8239)%N ||
  (c =? 8287)%N || (c =? 12288)%N || (c =? 65279)%N.

(** A literal code unit, and a literal code unit under the [i] flag. *)
Definition Lit (c : N) : Regex := Chars (fun d => (d =? c)%N).

Definition upperOf (c : N) : N := if isLower c then (c - 32)%N else c.

Definition LitI (c : N) : Regex :=
  Chars (fun d => (upperOf d =? upperOf c)%N).

Definition Word (lit : string) : Regex :=
  fold_right (fun c r => Seq (Lit c) r) Empty (str lit).

Definition WordI (lit : string) : Regex :=
  fold_right (fun c r => Seq (LitI c) r) Empty (str lit).

(** [s.trim()] *)
Fixpoint trimStart (s : jsstring) : jsstring :=
  match s with
  | c :: s' => if isSpace c then trimStart s' else s
  | [] => []
  end.

Definition trim (s : jsstring) : jsstring :=
  rev (trimStart (rev (trimStart s))).

(** [s.split('-')[0]] *)
Fixpoint beforeDash (s : jsstring) : jsstring :=
  match s with
  | c :: s' => if (c =? chr "-")%N then [] else c :: beforeDash s'
  | [] => []
  end.

(* ================================================================= *)
(** ** Project detection ([projects.js]) *)

(** [/^([^-]+)\s*[-—]\s*Visual Studio Code/i] *)
Definition vsCodeRe : Regex :=
  Seq Bol
   (Seq (Group (Plus (Chars (fun c => negb (c =? chr "-")%N))))
   (Seq (Star (Chars isSpace))
   (Seq (Chars (fun c => (c =? chr "-")%N || (c =? 8212)%N))
   (Seq (Star (Chars isSpace))
        (WordI "Visual Studio Code"))))).

(** [/(?:~|\/\w+)(?:\/[\w.-]+)*\/([^/\s]+)/] *)
Definition pathRe : Regex :=
  Seq (Alt (Lit (chr "~")) (Seq (Lit (chr "/")) (Plus (Chars isWord))))
   (Seq (Star (Seq (Lit (chr "/"))
                   (Plus (Chars (fun c => isWord c || (c =? chr ".")%N
                                          || (c =? chr "-")%N)))))
   (Seq (Lit (chr "/"))
        (Group (Plus (Chars (fun c => negb ((c =? chr "/")%N
                                            || isSpace c))))))).

(** [/(?:GitHub|GitLab|Bitbucket)\s*[-:]\s*[\w-]+\/([^/\s-]+)/i] *)
Definition githubRe : Regex :=
  Seq (Alt (WordI "GitHub") (Alt (WordI "GitLab") (WordI "Bitbucket")))
   (Seq (Star (Chars isSpace))
   (Seq (Chars (fun c => (c =? chr "-")%N || (c =? chr ":")%N))
   (Seq (Star (Chars isSpace))
   (Seq (Plus (Chars (fun c => isWord c || (c =? chr "-")%N)))
   (Seq (Lit (chr "/"))
        (Group (Plus (Chars (fun c => negb ((c =? chr "/")%N || isSpace c
                                            || (c =? chr "-")%N)))))))))).

(** [/\[?([A-Z]+-\d+)\]?/] *)
Definition ticketRe : Regex :=
  Seq (Opt (Lit (chr "[")))
   (Seq (Group (Seq (Plus (Chars isUpper))
               (Seq (Lit (chr "-")) (Plus (Chars isDigit)))))
        (Opt (Lit (chr "]")))).

(** [detectFromPatterns(windowTitle, appName)] *)
Definition detectFromPatterns (windowTitle appName : option jsstring)
  : jsstring :=
  if negb (truthy windowTitle) then str "Uncategorized"
  else
    let windowTitle := orEmpty windowTitle in
    let vsCodeMatch := exec vsCodeRe windowTitle in
    let accepted :=
      match vsCodeMatch with
      | Some cap =>
          let folderName := trim (orEmpty cap) in
          if truthy (Some folderName)
             && negb (includes folderName (str "."))
             && (length folderName <? 50)%nat
          then Some folderName
          else None
      | None => None
      end in
    match accepted with
    | Some folderName => folderName
    | None =>
        match exec pathRe windowTitle with
        | Some cap => orEmpty cap
        | None =>
            match exec githubRe windowTitle with
            | Some cap => orEmpty cap
            | None =>
                match exec ticketRe windowTitle with
                | Some cap => beforeDash (orEmpty cap)
                | None => str "Uncategorized"
                end
            end
        end
    end.

(** The loop over [Object.entries(keywords)] with its early [return]:
    the first project one of whose keywords occurs in [searchText]. *)
Fixpoint searchKeywords (toLowerCase : jsstring -> jsstring)
    (searchText : jsstring) (entries : list (jsstring * list jsstring))
  : option jsstring :=
  match entries with
  | [] => None
  | (projectName, projectKeywords) :: rest =>
      if existsb (fun keyword => includes searchText (toLowerCase keyword))
                 projectKeywords
      then Some projectName
      else searchKeywords toLowerCase searchText rest
  end.

(** [detectProject(windowTitle, appName)], for the keyword map [keywords]
    returned by [getKeywords()] (its entries in the order of
    [Object.entries], each value an array of strings).  [toLowerCase] is
    [String.prototype.toLowerCase]. *)
Definition detectProject (toLowerCase : jsstring -> jsstring)
    (keywords : list (jsstring * list jsstring))
    (windowTitle appName : option jsstring) : jsstring :=
  if negb (truthy windowTitle) && negb (truthy appName)
  then str "Uncategorized"
  else
    let searchText :=
      toLowerCase (orEmpty windowTitle ++ str " " ++ orEmpty appName) in
    match searchKeywords toLowerCase searchText keywords with
    | Some projectName => projectName
    | None => detectFromPatterns windowTitle appName
    end.

(** [toLowerCase] on strings of ASCII code units. *)
Definition asciiToLowerCase (s : jsstring) : jsstring :=
  map (fun c => if isUpper c then (c + 32)%N else c) s.

(* ================================================================= *)
(** * The vocabulary of the statements *)

(** What follows is not code of the repository: the notions the theorems
    are stated with, the relations their proofs maintain, the properties
    as the specification words them, and sample data. *)

(** ** Sample data *)

(** Rows as the tracker and the tests write them: an application sample,
    and the two AFK markers
    ([logActivity(timestamp, null, null, true, 'start', null)]). *)
Definition sample (t : Z) (app title : string) : Activity :=
  mkActivity t (Some (str app)) (Some (str title)) false None None.

Definition afkStart (t : Z) : Activity :=
  mkActivity t None None true (Some (str "start")) None.

Definition afkEnd (t : Z) : Activity :=
  mkActivity t None None true (Some (str "end")) None.

(** An initialised database holding the given log. *)
Definition dbOf (log : list Activity) : WorkTrackerDB :=
  mkDB true true true log [].

(** The instant [hh:mm] (UTC) of 2024-03-15. *)
Definition at_ (hh mm : Z) : Z := 1710460800000 + (hh * 60 + mm) * 60000.

(** The scenario of the specification: editor samples at 09:30 and 11:00,
    without and with the AFK pair 10:00 / 10:30 between them. *)
Definition scenarioPlain : list Activity :=
  [sample (at_ 9 30) "VSCode" "test.js"; sample (at_ 11 0) "VSCode" "test.js"].

Definition scenarioAfk : list Activity :=
  [sample (at_ 9 30) "VSCode" "test.js"; afkStart (at_ 10 0);
   afkEnd (at_ 10 30); sample (at_ 11 0) "VSCode" "test.js"].

(** ** The classifier *)

(** The classifier as the specification words it, with "absent" read as
    [null]/[undefined]. *)
Definition classifier_as_specified : Prop :=
  forall (appName windowTitle : option jsstring)
         (productiveApps productiveWebsites : list jsstring),
    let r := isProductiveActivity appName windowTitle
                                  productiveApps productiveWebsites in
    (appName = None -> r = false) /\
    (forall a, appName = Some a ->
       ((exists p, In p productiveApps /\ contains a p) -> r = true) /\
       (~ (exists p, In p productiveApps /\ contains a p) ->
        (exists b, In b browsers /\ contains a b) ->
        (r = true <->
         exists w, windowTitle = Some w /\
                   exists s, In s productiveWebsites /\ contains w s)) /\
       (~ (exists p, In p productiveApps /\ contains a p) ->
        ~ (exists b, In b browsers /\ contains a b) ->
        r = false)).

(** ** Session reconstruction *)

(** The sum of the durations of a list of sessions. *)
Definition sumDurations (l : list Session) : Q :=
  fold_right (fun s acc => (duration s + acc)%Q) 0%Q l.

(** A recorded session carries the duration computed from its end points,
    in seconds, and that duration is positive. *)
Definition wellFormedSession (s : Session) : Prop :=
  duration s = ((end_ s - start s) # 1000)%Q /\ (0 < duration s)%Q.

(** Rows in non-decreasing timestamp order. *)
Definition byTimestamp (a b : Activity) : Prop := timestamp a <= timestamp b.

(** A row that is not an AFK marker and that the classifier accepts. *)
Definition productiveSample (productiveApps productiveWebsites : list jsstring)
    (a : Activity) : Prop :=
  is_afk a = false /\
  isProductiveActivity (app_name a) (window_title a)
                       productiveApps productiveWebsites = true.

(** The accumulated total is the sum of the recorded sessions, each of
    which is well formed. *)
Definition tally (v : Vars) : Prop :=
  Forall wellFormedSession (recorded v) /\
  (total v == sumDurations (recorded v))%Q.

(** The session object pushed for the interval from [s] to [e]. *)
Definition session (s e : Z) : Session := mkSession s e ((e - s) # 1000).

(** What closing the interval from [s] to [e] records. *)
Definition sessionIfPositive (s e : Z) : list Session :=
  if s <? e then [session s e] else [].

(** Rows that are AFK markers. *)
Definition isAfkStart (x : Activity) : Prop :=
  is_afk x = true /\ afk_type x = Some (str "start").

Definition isAfkEnd (x : Activity) : Prop :=
  is_afk x = true /\ afk_type x = Some (str "end").

(** After the rows [l], the user is not AFK and a session that started at
    [s] is open: the next row falls inside a productive run. *)
Definition sessionOpenAfter (productiveApps productiveWebsites : list jsstring)
    (l : list Activity) (s : Z) : Prop :=
  let v := fold_left (step productiveApps productiveWebsites) l initialVars in
  isAfk v = false /\ sessionStart v = Some s.

(** The loop on the original rows ([vo]) against the loop on the rows with
    an AFK pair inserted ([vn]), while the run that was split is still
    open: the session opened at [s] in the original, closed at [a] and
    re-opened at [tr] in the other. *)
Definition splitOpen (s a tr : Z) (vo vn : Vars) : Prop :=
  isAfk vo = false /\ isAfk vn = false /\
  sessionStart vo = Some s /\ sessionStart vn = Some tr /\
  lastTimestamp vn = lastTimestamp vo /\
  (exists l, lastTimestamp vo = Some l /\ tr <= l) /\
  recorded vn = recorded vo ++ [session s a] /\
  (total vn == total vo + ((a - s) # 1000))%Q.

(** What the two loops have recorded once the run has been closed, at
    [e]. *)
Definition splitLog (s a tr : Z) (vo vn : Vars) : Prop :=
  exists front rest e,
    tr <= e /\
    recorded vo = front ++ session s e :: rest /\
    recorded vn = front ++ session s a :: sessionIfPositive tr e ++ rest /\
    (total vn == total vo - ((tr - a) # 1000))%Q.

(** The two loops after the run has been closed: they agree on the control
    variables. *)
Definition splitClosed (s a tr : Z) (vo vn : Vars) : Prop :=
  isAfk vn = isAfk vo /\
  sessionStart vn = sessionStart vo /\
  lastTimestamp vn = lastTimestamp vo /\
  splitLog s a tr vo vn.

(** The effect of an inserted AFK pair as the specification words it: the
    run's session is replaced by two sessions whose durations add up to
    the original duration minus the AFK gap. *)
Definition afk_split_as_specified : Prop :=
  forall (db db' : WorkTrackerDB) (now : Z) (d : jsstring)
         (apps sites : list jsstring)
         (l1 l2 : list Activity) (x y r : Activity) (s : Z),
    getActivityForDate db d = l1 ++ r :: l2 ->
    getActivityForDate db' d = l1 ++ x :: y :: r :: l2 ->
    isAfkStart x -> isAfkEnd y ->
    sessionOpenAfter apps sites l1 s ->
    productiveSample apps sites r ->
    s < timestamp x ->
    (d = toISODate now -> timestamp r <= now) ->
    exists ro rn front rest so s1 s2,
      calculateWorkTimeForDate db now d apps sites = Some ro /\
      calculateWorkTimeForDate db' now d apps sites = Some rn /\
      sessions ro = front ++ so :: rest /\
      sessions rn = front ++ s1 :: s2 :: rest /\
      (duration s1 + duration s2
       == duration so - ((timestamp y - timestamp x) # 1000))%Q.

(** ** Daily summaries and the streak *)

(** The constraint [date TEXT UNIQUE NOT NULL]. *)
Definition uniqueDates (db : WorkTrackerDB) : Prop :=
  NoDup (map date (daily_summary db)).

(** A database holding, for each of the [n] days ending with the day of
    [now], a summary of [total] seconds computed against [goal]. *)
Definition summariesBack (n : nat) (now : Z) (total goal : Q)
  : WorkTrackerDB :=
  mkDB true true true []
       (map (fun k => mkDailySummary
                        (toISODate (now - Z.of_nat k * msPerDay))
                        (Some total) (Some goal) (Some 1%Q) None None)
            (seq 0 n)).

(** The same database with the stored goal snapshots rewritten. *)
Definition withGoalSnapshots (f : DailySummary -> option Q)
    (db : WorkTrackerDB) : WorkTrackerDB :=
  mkDB (Database db) (initialized db) (init_ok db) (activity_log db)
       (map (fun row =>
               mkDailySummary (date row) (total_work_seconds row) (f row)
                              (sessions_count row) (productive_seconds row)
                              (projects_json row))
            (daily_summary db)).

(** The test of the loop for the day of [date]: a summary is stored and
    its total reaches the goal. *)
Definition goalReached (db : WorkTrackerDB) (goalSeconds : Q) (date : Z) : bool :=
  match getDailySummary db (toISODate date) with
  | Some summary => Qle_bool goalSeconds (orZero (total_work_seconds summary))
  | None => false
  end.

(** ** The hourly histogram *)

(** The histogram computed from a list of sessions, as the specification
    words it: each session is distributed over the clock hours it
    overlaps. *)
Definition histogramOfSessions (tz : Z) (l : list Session) : list Z :=
  fold_left (fun hm s => addTimeToHours tz hm (start s) (end_ s))
            l (List.repeat 0 24).

(** The histogram as the specification words it: the event walk and the
    histogram of the reconstructed sessions agree on every bucket. *)
Definition histogram_as_specified : Prop :=
  forall (db : WorkTrackerDB) (cfg : Config) (tz now : Z) (d : jsstring)
         (r : WorkTime),
    isAvailable db = true -> initialized db = true ->
    calculateWorkTimeForDate db now d
      (productiveApps cfg) (productiveWebsites cfg) = Some r ->
    getHourlyStats db cfg tz now d = histogramOfSessions tz (sessions r).

(** The loop of the reconstruction and the loop of the handler, side by
    side. *)
Definition hourlySim (tz : Z) (v : Vars) (h : HourlyVars) : Prop :=
  hourlyMinutes h = histogramOfSessions tz (recorded v) /\
  hIsAfk h = isAfk v /\
  hSessionStart h = sessionStart v /\
  (isAfk v = true -> sessionStart v = None).

(** ** Project detection *)

(** The four extractions of the specification, each from the window
    title. *)

(** a. The name before [- <EditorApp>], trimmed; accepted when it is not
    empty, holds no ['.'] and is shorter than 50. *)
Definition editorTitleName (windowTitle : jsstring) : option jsstring :=
  match exec vsCodeRe windowTitle with
  | Some cap =>
      let name := trim (orEmpty cap) in
      match name with
      | [] => None
      | _ :: _ =>
          if includes name (str ".") then None
          else if (length name <? 50)%nat then Some name
          else None
      end
  | None => None
  end.

(** b. The last segment of a path. *)
Definition pathSegment (windowTitle : jsstring) : option jsstring :=
  option_map orEmpty (exec pathRe windowTitle).

(** c. The repository of [<Service> - owner/repo]. *)
Definition hostingRepo (windowTitle : jsstring) : option jsstring :=
  option_map orEmpty (exec githubRe windowTitle).

(** d. The prefix of a ticket [PREFIX-number]. *)
Definition ticketPrefix (windowTitle : jsstring) : option jsstring :=
  option_map (fun cap => beforeDash (orEmpty cap)) (exec ticketRe windowTitle).

(** The first extraction of a list that succeeds. *)
Fixpoint firstSuccess (l : list (option jsstring)) (default : jsstring)
  : jsstring :=
  match l with
  | [] => default
  | Some x :: _ => x
  | None :: l' => firstSuccess l' default
  end.

(** The string searched for keywords. *)
Definition searchTextOf (toLowerCase : jsstring -> jsstring)
    (windowTitle appName : option jsstring) : jsstring :=
  toLowerCase (orEmpty windowTitle ++ str " " ++ orEmpty appName).

(** No keyword of the entries [l] occurs in [searchText]. *)
Definition noKeywordIn (toLowerCase : jsstring -> jsstring)
    (searchText : jsstring) (l : list (jsstring * list jsstring)) : Prop :=
  forall q ks k, In (q, ks) l -> In k ks ->
                 ~ contains searchText (toLowerCase k).

(** The keyword step as the specification words it, for every window title
    and application name: the first configured project with a keyword in
    the search string is returned. *)
Definition detect_as_specified : Prop :=
  forall (toLowerCase : jsstring -> jsstring)
         (keywords before after : list (jsstring * list jsstring))
         (windowTitle appName : option jsstring)
         (p : jsstring) (kws : list jsstring),
    keywords = before ++ (p, kws) :: after ->
    noKeywordIn toLowerCase
      (searchTextOf toLowerCase windowTitle appName) before ->
    (exists k, In k kws /\
       contains (searchTextOf toLowerCase windowTitle appName)
                (toLowerCase k)) ->
    detectProject toLowerCase keywords windowTitle appName = p.

(* ================================================================= *)
(** * More of the program *)

(** ** Goal progress and the stored summary ([workTracker.js]) *)

Record GoalProgress := mkGoalProgress {
  percentage : Z;
  goalMinutes : Q;
  remainingSeconds : Q;
  remainingFormatted : jsstring;
  isComplete : bool
}.

(** [x || d] for a number: zero is falsy. *)
Definition orNumber (x d : Q) : Q := if Qeq_bool x 0 then d else x.

(** [Math.max(0, x)] *)
Definition mathMax0 (x : Q) : Q := if Qle_bool 0 x then x else 0%Q.

(** [getDailyGoalProgress(totalWorkSeconds)] under the configuration
    [cfg].  As everywhere, the numbers are exact: the code rounds the
    quotient and the product under [Math.round] to binary floating point,
    which can move a value lying within that rounding of a half to the
    other side of it. *)
Definition getDailyGoalProgress (cfg : Config) (totalWorkSeconds : Q)
  : GoalProgress :=
  let goalMinutes := orNumber (dailyGoalMinutes cfg) 480 in
  let goalSeconds := (goalMinutes * 60)%Q in
  let percentage :=
    Z.min 100 (mathRound (totalWorkSeconds / goalSeconds * 100)) in
  let remainingSeconds := mathMax0 (goalSeconds - totalWorkSeconds) in
  let remainingHours := Qfloor (remainingSeconds / 3600) in
  let remainingMinutes :=
    Qfloor (WorkTrackerJs.remainder remainingSeconds 3600 / 60) in
  mkGoalProgress percentage goalMinutes remainingSeconds
    (if 0 <? remainingHours
     then WorkTrackerJs.toString remainingHours ++ str "h " ++
          WorkTrackerJs.toString remainingMinutes ++ str "m"
     else WorkTrackerJs.toString remainingMinutes ++ str "m")
    (Qle_bool goalSeconds totalWorkSeconds).

(** [updateDailySummaryInDB(date, totalWorkSeconds, sessionsCount)]: the
    database afterwards. *)
Definition updateDailySummaryInDB (db : WorkTrackerDB) (cfg : Config)
    (date : jsstring) (totalWorkSeconds : Q) (sessionsCount : nat)
  : WorkTrackerDB :=
  if negb (isAvailable db) || negb (initialized db) then db
  else
    let goalSeconds := (dailyGoalMinutes cfg * 60)%Q in
    snd (updateDailySummary db date (Some totalWorkSeconds)
           (Some goalSeconds) (Some (inject_Z (Z.of_nat sessionsCount)))
           None None).

(** ** The periodic refresh ([work-tracker-menubar.js], updateWorkTime) *)

(** The singleton after a method whose guard
    [if (!this.initialized && !this.init()) return ...] was evaluated: a
    successful [init()] has set [initialized]. *)
Definition afterGuard (db : WorkTrackerDB) : WorkTrackerDB :=
  if initialized db then db
  else if init db
       then mkDB (Database db) true (init_ok db) (activity_log db)
                 (daily_summary db)
       else db.

(** What one run of [updateWorkTime()] leaves behind and works with: the
    database afterwards, the analysis shown and the goal progress (whose
    [isComplete] triggers the goal notification).  The clock reads of one
    run are taken at the one instant [now]. *)
Definition updateWorkTime (db : WorkTrackerDB) (cfg : Config) (now : Z)
  : WorkTrackerDB * WorkTrackerJs.Analysis * GoalProgress :=
  let result := WorkTrackerJs.analyzeWorkTime db cfg now None in
  let db := if isAvailable db then afterGuard db else db in
  let today := toISODate now in
  let totalSeconds :=
    WorkTrackerJs.totalSeconds (WorkTrackerJs.totalWorkTime result) in
  let db := updateDailySummaryInDB db cfg today totalSeconds
              (WorkTrackerJs.sessionsCount result) in
  let goalProgress := getDailyGoalProgress cfg totalSeconds in
  (db, result, goalProgress).

(* ================================================================= *)
(** ** The system time zone ([main.js], addTimeToHours and calculateStreak) *)

(** What the three local-time operations of the code give in the time
    zone of the system, as functions of the epoch value of the [Date]
    they are applied to: [getHours()] (between 0 and 23), the epoch value
    after [setMinutes(59, 59, 999)], and the epoch value after
    [setDate(getDate() - 1)].  Daylight-saving changes are part of these
    functions. *)
Record SystemZone := mkSystemZone {
  getHoursAt : Z -> Z;
  setMinutes_59_59_999 : Z -> Z;
  setDate_previous : Z -> Z
}.

(** The code of [main.js] in a given system zone.  A loop that has not
    left after [fuel] rounds gives [None]. *)
Module InZone.

(** The loop [while (current < end)] of [addTimeToHours]. *)
Fixpoint addTimeLoop (zone : SystemZone) (fuel : nat)
    (hourlyMinutes : list Z) (current endT : Z) : option (list Z) :=
  match fuel with
  | O => None
  | S fuel =>
      if current <? endT then
        let hour := getHoursAt zone current in
        let endOfHour := setMinutes_59_59_999 zone current in
        let segmentEnd := if endOfHour <? endT then endOfHour else endT in
        let minutes := ((segmentEnd - current) # 60000)%Q in
        let hourlyMinutes :=
          addAt hourlyMinutes (Z.to_nat hour) (mathRound minutes) in
        addTimeLoop zone fuel hourlyMinutes (endOfHour + 1) endT
      else Some hourlyMinutes
  end.

(** [addTimeToHours(hourlyMinutes, start, end)] *)
Definition addTimeToHours (zone : SystemZone) (fuel : nat)
    (hourlyMinutes : list Z) (startT endT : Z) : option (list Z) :=
  addTimeLoop zone fuel hourlyMinutes startT endT.

(** One iteration of the loop over the rows of the [get-hourly-stats]
    handler. *)
Definition hourlyStep (zone : SystemZone) (fuel : nat)
    (productiveApps productiveWebsites : list jsstring)
    (v : HourlyVars) (activity : Activity) : option HourlyVars :=
  let timestamp := timestamp activity in
  if is_afk activity then
    if afk_type_is activity "start" then
      match hSessionStart v with
      | Some s =>
          if negb (hIsAfk v) then
            match addTimeToHours zone fuel (hourlyMinutes v) s timestamp with
            | Some hm => Some (mkHourlyVars hm true None)
            | None => None
            end
          else Some (mkHourlyVars (hourlyMinutes v) true None)
      | None => Some (mkHourlyVars (hourlyMinutes v) true None)
      end
    else if afk_type_is activity "end" then
      Some (mkHourlyVars (hourlyMinutes v) false (hSessionStart v))
    else Some v
  else if hIsAfk v then Some v
  else
    let isProductive :=
      isProductiveActivity (app_name activity) (window_title activity)
                           productiveApps productiveWebsites in
    if isProductive then
      match hSessionStart v with
      | None =>
          Some (mkHourlyVars (hourlyMinutes v) (hIsAfk v) (Some timestamp))
      | Some _ => Some v
      end
    else
      match hSessionStart v with
      | Some s =>
          match addTimeToHours zone fuel (hourlyMinutes v) s timestamp with
          | Some hm => Some (mkHourlyVars hm (hIsAfk v) None)
          | None => None
          end
      | None => Some v
      end.

(** The loop [for (const activity of activities)]. *)
Fixpoint hourlyLoop (zone : SystemZone) (fuel : nat)
    (productiveApps productiveWebsites : list jsstring)
    (activities : list Activity) (v : HourlyVars) : option HourlyVars :=
  match activities with
  | [] => Some v
  | activity :: activities =>
      match hourlyStep zone fuel productiveApps productiveWebsites
                       v activity with
      | Some v =>
          hourlyLoop zone fuel productiveApps productiveWebsites activities v
      | None => None
      end
  end.

(** The handler of [get-hourly-stats] for [{ date }], evaluated at the
    instant [now]. *)
Definition getHourlyStats (zone : SystemZone) (fuel : nat)
    (db : WorkTrackerDB) (cfg : Config) (now : Z) (date : jsstring)
  : option (list Z) :=
  let hourlyMinutes0 := List.repeat 0 24 in
  if negb (isAvailable db) || negb (initialized db) then Some hourlyMinutes0
  else
    let activities := getActivityForDate db date in
    if (length activities =? 0)%nat then Some hourlyMinutes0
    else
      match hourlyLoop zone fuel (productiveApps cfg) (productiveWebsites cfg)
                       activities (mkHourlyVars hourlyMinutes0 false None) with
      | None => None
      | Some v =>
          match hSessionStart v with
          | Some s =>
              if negb (hIsAfk v) then
                let todayStr := toISODate now in
                if jseqb date todayStr
                then addTimeToHours zone fuel (hourlyMinutes v) s now
                else Some (hourlyMinutes v)
              else Some (hourlyMinutes v)
          | None => Some (hourlyMinutes v)
          end
      end.

(** The loop [while (true)] of [calculateStreak]. *)
Fixpoint streakLoop (zone : SystemZone) (fuel : nat) (db : WorkTrackerDB)
    (goalSeconds : Q) (streak : Z) (date : Z) : option Z :=
  match fuel with
  | O => None
  | S fuel =>
      let dateStr := toISODate date in
      match getDailySummary db dateStr with
      | Some summary =>
          if Qle_bool goalSeconds (orZero (total_work_seconds summary)) then
            let streak := streak + 1 in
            let date := setDate_previous zone date in
            if 365 <? streak then Some streak
            else streakLoop zone fuel db goalSeconds streak date
          else Some streak
      | None => Some streak
      end
  end.

(** [calculateStreak()] evaluated at the instant [now]; 367 rounds always
    suffice. *)
Definition calculateStreak (zone : SystemZone) (db : WorkTrackerDB)
    (cfg : Config) (now : Z) : Z :=
  if negb (isAvailable db) || negb (initialized db) then 0
  else
    let goalSeconds := (dailyGoalMinutes cfg * 60)%Q in
    match streakLoop zone 367 db goalSeconds 0 now with
    | Some streak => streak
    | None => 0
    end.

End InZone.

(* ================================================================= *)
(** ** The configuration store ([config.js]) *)

(** Arrays are objects: [{ ...DEFAULT_CONFIG }] and [{ ...this.config }]
    copy the references to them, not the arrays.  A location names an
    array object; the heap gives its current elements. *)
Definition Loc := nat.
Definition Heap := Loc -> list jsstring.

Definition writeHeap (h : Heap) (l : Loc) (v : list jsstring) : Heap :=
  fun l' => if Nat.eqb l' l then v else h l'.

(** The two array-valued fields of a configuration object. *)
Record ConfigObject := mkConfigObject {
  productiveAppsRef : Loc;
  productiveWebsitesRef : Loc
}.

(** What [JSON.parse] of the configuration file yields: for each of the
    two keys the array stored under it, if the key is present. *)
Record LoadedConfig := mkLoadedConfig {
  loadedProductiveApps : option (list jsstring);
  loadedProductiveWebsites : option (list jsstring)
}.

Inductive ConfigFile :=
| NoFile : ConfigFile
| Unparsable : ConfigFile
| Parsed : LoadedConfig -> ConfigFile.

(** The module state: the heap, the next unused location, the constant
    [DEFAULT_CONFIG], the field [this.config] of the singleton ([None] is
    [null]) and the configuration file. *)
Record ConfigStore := mkConfigStore {
  heap : Heap;
  nextLoc : Loc;
  DEFAULT_CONFIG : ConfigObject;
  config : option ConfigObject;
  configFile : ConfigFile
}.

(** The module as [require] leaves it: the literal arrays of
    [DEFAULT_CONFIG] at the locations 0 and 1, [this.config = null]. *)
Definition newConfigStore (defaultApps defaultWebsites : list jsstring)
    (f : ConfigFile) : ConfigStore :=
  mkConfigStore
    (writeHeap (writeHeap (fun _ => []) 0%nat defaultApps) 1%nat defaultWebsites)
    2%nat (mkConfigObject 0%nat 1%nat) None f.

(** [save()]: [JSON.stringify] takes a snapshot of the arrays ([null] is
    written as a file without keys); [writable] is whether
    [fs.writeFileSync] succeeds. *)
Definition save (writable : bool) (st : ConfigStore) : bool * ConfigStore :=
  match config st with
  | Some c =>
      if writable then
        (true,
         mkConfigStore (heap st) (nextLoc st) (DEFAULT_CONFIG st) (config st)
           (Parsed (mkLoadedConfig
                      (Some (heap st (productiveAppsRef c)))
                      (Some (heap st (productiveWebsitesRef c))))))
      else (false, st)
  | None =>
      if writable then
        (true,
         mkConfigStore (heap st) (nextLoc st) (DEFAULT_CONFIG st) (config st)
           (Parsed (mkLoadedConfig None None)))
      else (false, st)
  end.

(** [mergeWithDefaults(loaded)]: [merged = { ...DEFAULT_CONFIG }], then
    every key of [loaded] is assigned; an array read from the file is a
    new object. *)
Definition mergeWithDefaults (st : ConfigStore) (loaded : LoadedConfig)
  : ConfigObject * ConfigStore :=
  let merged := DEFAULT_CONFIG st in
  let '(appsRef, h, n) :=
    match loadedProductiveApps loaded with
    | Some l => (nextLoc st, writeHeap (heap st) (nextLoc st) l, S (nextLoc st))
    | None => (productiveAppsRef merged, heap st, nextLoc st)
    end in
  let '(sitesRef, h, n) :=
    match loadedProductiveWebsites loaded with
    | Some l => (n, writeHeap h n l, S n)
    | None => (productiveWebsitesRef merged, h, n)
    end in
  (mkConfigObject appsRef sitesRef,
   mkConfigStore h n (DEFAULT_CONFIG st) (config st) (configFile st)).

Definition setConfig (st : ConfigStore) (c : ConfigObject) : ConfigStore :=
  mkConfigStore (heap st) (nextLoc st) (DEFAULT_CONFIG st) (Some c)
                (configFile st).

(** [load()] *)
Definition load (writable : bool) (st : ConfigStore) : ConfigStore :=
  match configFile st with
  | Parsed loaded =>
      let '(merged, st) := mergeWithDefaults st loaded in
      setConfig st merged
  | NoFile => snd (save writable (setConfig st (DEFAULT_CONFIG st)))
  | Unparsable => setConfig st (DEFAULT_CONFIG st)
  end.

(** [if (!this.config) { this.load(); }] *)
Definition ensureLoaded (writable : bool) (st : ConfigStore) : ConfigStore :=
  match config st with
  | Some _ => st
  | None => load writable st
  end.

(** [reset()] *)
Definition reset (writable : bool) (st : ConfigStore) : bool * ConfigStore :=
  save writable (setConfig st (DEFAULT_CONFIG st)).

(** [array.includes(x)] for strings. *)
Definition arrayIncludes (l : list jsstring) (x : jsstring) : bool :=
  existsb (jseqb x) l.

(** [array.splice(array.indexOf(x), 1)] when [x] occurs. *)
Fixpoint removeFirst (l : list jsstring) (x : jsstring) : list jsstring :=
  match l with
  | [] => []
  | y :: l' => if jseqb y x then l' else y :: removeFirst l' x
  end.

Definition setHeap (st : ConfigStore) (h : Heap) : ConfigStore :=
  mkConfigStore h (nextLoc st) (DEFAULT_CONFIG st) (config st) (configFile st).

(** [addProductiveApp(appName)] *)
Definition addProductiveApp (writable : bool) (appName : jsstring)
    (st : ConfigStore) : bool * ConfigStore :=
  let st := ensureLoaded writable st in
  match config st with
  | Some c =>
      let arr := heap st (productiveAppsRef c) in
      if negb (arrayIncludes arr appName) then
        save writable
          (setHeap st (writeHeap (heap st) (productiveAppsRef c)
                                 (arr ++ [appName])))
      else (true, st)
  | None => (true, st)
  end.

(** [removeProductiveApp(appName)] *)
Definition removeProductiveApp (writable : bool) (appName : jsstring)
    (st : ConfigStore) : bool * ConfigStore :=
  let st := ensureLoaded writable st in
  match config st with
  | Some c =>
      let arr := heap st (productiveAppsRef c) in
      if arrayIncludes arr appName then
        save writable
          (setHeap st (writeHeap (heap st) (productiveAppsRef c)
                                 (removeFirst arr appName)))
      else (true, st)
  | None => (true, st)
  end.

(* ================================================================= *)
(** ** Writing the log ([database.js], logActivity) *)

(** [logActivity(timestamp, appName, windowTitle, isAfk, afkType,
    project)]: the database afterwards (the returned row id is left
    out). *)
Definition logActivity (db : WorkTrackerDB) (timestamp : Z)
    (appName windowTitle : option jsstring) (isAfk : bool)
    (afkType project : option jsstring) : WorkTrackerDB :=
  if negb (ready db) then db
  else
    mkDB (Database db) true (init_ok db)
         (activity_log db ++
          [mkActivity timestamp appName windowTitle isAfk afkType project])
         (daily_summary db).

(* ================================================================= *)
(** ** The tracker ([activityTracker.js]) *)

Module ActivityTracker.

(** What one run of [logActivity()] obtains from outside: the idle time,
    the active application and the title of its window ([None] when the
    promise is rejected), and the two clock reads, for an AFK marker and
    for the sample. *)
Record Observation := mkObservation {
  idleTimeSeconds : option Q;
  markerTimestamp : Z;
  activeApp : option jsstring;
  windowTitleOf : option jsstring;
  sampleTimestamp : Z
}.

(** The module variable [isAFK] and the database singleton. *)
Record State := mkState {
  isAFK : bool;
  db : WorkTrackerDB
}.

(** [logActivity()], one run from start to end, under the configured
    [afkThresholdSeconds] and with the keywords that [getKeywords()]
    returns. *)
Definition logActivity (toLowerCase : jsstring -> jsstring)
    (keywords : list (jsstring * list jsstring)) (afkThresholdSeconds : Q)
    (st : State) (o : Observation) : State :=
  if negb (isAvailable (db st)) then st
  else if negb (initialized (db st)) && negb (init (db st)) then st
  else
    let db0 := afterGuard (db st) in
    match idleTimeSeconds o with
    | None => mkState (isAFK st) db0
    | Some idleTimeSeconds =>
        let idleThreshold := orNumber afkThresholdSeconds 180 in
        if negb (Qle_bool idleTimeSeconds idleThreshold) then
          if negb (isAFK st) then
            mkState true
              (logActivity db0 (markerTimestamp o) None None true
                 (Some (str "start")) None)
          else mkState (isAFK st) db0
        else
          let st :=
            if isAFK st then
              mkState false
                (logActivity db0 (markerTimestamp o) None None true
                   (Some (str "end")) None)
            else mkState (isAFK st) db0 in
          match activeApp o with
          | None => st
          | Some appName =>
              let windowTitle :=
                if truthy (Some appName)
                   && negb (includes appName (str "Finder"))
                   && negb (includes appName (str "Dock"))
                then match windowTitleOf o with
                     | Some title => title
                     | None => str "Unknown Window"
                     end
                else str "Unknown Window" in
              let project :=
                detectProject toLowerCase keywords
                              (Some windowTitle) (Some appName) in
              mkState (isAFK st)
                (logActivity (db st) (sampleTimestamp o) (Some appName)
                   (Some windowTitle) false None (Some project))
          end
    end.

End ActivityTracker.

(* ================================================================= *)
(** ** Notifications ([notifications.js]) *)

Module Notifications.

(** The fields of the [NotificationManager] singleton that the modelled
    methods read and write. *)
Record NotificationManager := mkNotificationManager {
  lastBreakReminder : option Z;
  lastWorkStart : option Z;
  continuousWorkMinutes : Q;
  goalNotifiedToday : bool;
  lastNotificationDate : option jsstring
}.

(** [new NotificationManager()] *)
Definition newNotificationManager : NotificationManager :=
  mkNotificationManager None None 0 false None.

(** [trackWorkActivity(isWorking)] under the settings
    [notifications.breakReminders] and [breakReminderMinutes]; [t1] and
    [t2] are its two clock reads.  The boolean tells whether
    [showBreakReminder()] was called. *)
Definition trackWorkActivity (breakReminders : bool)
    (breakReminderMinutes : Q) (isWorking : bool) (t1 t2 : Z)
    (m : NotificationManager) : NotificationManager * bool :=
  if negb breakReminders then (m, false)
  else
    let breakReminderMinutes := orNumber breakReminderMinutes 60 in
    if isWorking then
      let lastWorkStart :=
        match lastWorkStart m with
        | Some s => s
        | None => t1
        end in
      let now := t2 in
      let continuousWorkMinutes := ((now - lastWorkStart) # 60000)%Q in
      let m := mkNotificationManager (lastBreakReminder m)
                 (Some lastWorkStart) continuousWorkMinutes
                 (goalNotifiedToday m) (lastNotificationDate m) in
      if Qle_bool breakReminderMinutes continuousWorkMinutes then
        let reminderInterval := (breakReminderMinutes * 60 * 1000)%Q in
        let due :=
          match lastBreakReminder m with
          | Some l => Qle_bool reminderInterval (inject_Z (now - l))
          | None => true
          end in
        if due then
          (mkNotificationManager (Some now) (Notifications.lastWorkStart m)
             (Notifications.continuousWorkMinutes m) (goalNotifiedToday m)
             (lastNotificationDate m), true)
        else (m, false)
      else (m, false)
    else
      (mkNotificationManager (lastBreakReminder m) None 0
         (goalNotifiedToday m) (lastNotificationDate m), false).

(** [resetDailyFlags()] at the instant [now] (the timer it sets is left
    out). *)
Definition resetDailyFlags (now : Z) (m : NotificationManager)
  : NotificationManager :=
  let today := toISODate now in
  match lastNotificationDate m with
  | Some d =>
      if jseqb d today then m
      else mkNotificationManager (lastBreakReminder m) (lastWorkStart m)
             (continuousWorkMinutes m) false (Some today)
  | None =>
      mkNotificationManager (lastBreakReminder m) (lastWorkStart m)
        (continuousWorkMinutes m) false (Some today)
  end.

(** [showGoalReached(...)] under the setting [notifications.goalReached];
    the boolean tells whether the notification was issued. *)
Definition showGoalReached (goalReached : bool) (m : NotificationManager)
  : NotificationManager * bool :=
  if negb goalReached then (m, false)
  else if goalNotifiedToday m then (m, false)
  else
    (mkNotificationManager (lastBreakReminder m) (lastWorkStart m)
       (continuousWorkMinutes m) true (lastNotificationDate m), true).

End Notifications.

(* ================================================================= *)
(** ** The CSV export ([exporter.js]) *)

Definition comma : N := 44.
Definition quote : N := 34.
Definition newline : N := 10.

(** [str.replace] of every quote character by two of them. *)
Definition doubleQuotes (s : jsstring) : jsstring :=
  flat_map (fun c => if N.eqb c quote then [quote; quote] else [c]) s.

(** [escapeCSV(field)] for a string or [null]. *)
Definition escapeCSV (field : option jsstring) : jsstring :=
  match field with
  | None => []
  | Some s =>
      if includes s [comma] || includes s [quote] || includes s [newline]
      then [quote] ++ doubleQuotes s ++ [quote]
      else s
  end.

(* ================================================================= *)
(** ** The keyword cache ([projects.js]) *)

Record ProjectManager := mkProjectManager {
  cachedKeywords : option (list (jsstring * list jsstring));
  lastKeywordsLoad : option Z
}.

(** [new ProjectManager()] *)
Definition newProjectManager : ProjectManager := mkProjectManager None None.

(** Truthiness of a number or [null]: zero is falsy. *)
Definition truthyNumber (x : option Z) : bool :=
  match x with
  | Some t => negb (t =? 0)
  | None => false
  end.

(** [getKeywords()] at the instant [now], when [config.getProjectKeywords()]
    would return [configured] (an object, also an empty one, is truthy). *)
Definition getKeywords (configured : list (jsstring * list jsstring))
    (now : Z) (pm : ProjectManager)
  : list (jsstring * list jsstring) * ProjectManager :=
  match cachedKeywords pm, lastKeywordsLoad pm with
  | Some cached, Some last =>
      if negb (truthyNumber (Some last)) || (30000 <? now - last)
      then (configured, mkProjectManager (Some configured) (Some now))
      else (cached, pm)
  | _, _ => (configured, mkProjectManager (Some configured) (Some now))
  end.

(** [invalidateCache()] *)
Definition invalidateCache (pm : ProjectManager) : ProjectManager :=
  mkProjectManager None None.

(* ================================================================= *)
(** * The vocabulary of the further properties *)

(** As before, what follows is not code of the repository: the notions
    that the further theorems are stated with, and the relations that
    their proofs maintain. *)

(** ** Session reconstruction: order and extent of the sessions *)

(** Sessions that follow one another from [lo] on: each starts no earlier
    than the one before it ends (than [lo] for the first) and ends after
    it starts. *)
Fixpoint chained (lo : Z) (l : list Session) : Prop :=
  match l with
  | [] => True
  | s :: l' => lo <= start s /\ start s < end_ s /\ chained (end_ s) l'
  end.

(** The end of the last session of [l], or [lo] when there is none. *)
Definition lastEnd (lo : Z) (l : list Session) : Z :=
  fold_left (fun _ s => end_ s) l lo.

(** The milliseconds covered by the sessions of [l]. *)
Definition coveredMs (l : list Session) : Z :=
  fold_right (fun s acc => (end_ s - start s) + acc) 0 l.

(** The loop variables after rows that begin at [t0] and reach [t]: the
    recorded sessions are chained from [t0], they end by [t], and an open
    session starts after them, by [t]. *)
Definition inOrder (t0 t : Z) (v : Vars) : Prop :=
  chained t0 (recorded v) /\
  Forall wellFormedSession (recorded v) /\
  t0 <= t /\
  lastEnd t0 (recorded v) <= t /\
  (forall s, sessionStart v = Some s -> lastEnd t0 (recorded v) <= s <= t) /\
  (forall l, lastTimestamp v = Some l -> l <= t).

(** A row that opens or continues no session: an AFK marker, or a sample
    that the classifier rejects. *)
Definition unproductiveRow (productiveApps productiveWebsites : list jsstring)
    (a : Activity) : Prop :=
  is_afk a = true \/
  isProductiveActivity (app_name a) (window_title a)
                       productiveApps productiveWebsites = false.

(** The loop state before any productive sample was seen. *)
Definition idle (v : Vars) : Prop :=
  sessionStart v = None /\ recorded v = [] /\ total v = 0%Q.

(** ** Time zones *)

(** A zone whose local time is UTC plus the constant offset [tz]
    (milliseconds): no daylight-saving change, so the end of the clock
    hour is the one of the constant-offset reading and the day before is
    24 hours earlier. *)
Definition fixedOffset (tz : Z) (zone : SystemZone) : Prop :=
  forall t,
    getHoursAt zone t = getHours tz t /\
    setMinutes_59_59_999 zone t = endOfHourOf tz t /\
    setDate_previous zone t = t - msPerDay.

Definition fixedOffsetZone (tz : Z) : SystemZone :=
  mkSystemZone (getHours tz) (endOfHourOf tz) (fun t => t - msPerDay).

(** A sample zone with one change back from summer time at the instant
    [change]: the offset is [summer] before it and [summer - msPerHour]
    from it on.  A local time that occurs twice is taken at its first
    occurrence, as the language prescribes. *)
Definition fallBackZone (summer change : Z) : SystemZone :=
  let offsetAt (t : Z) := if t <? change then summer else summer - msPerHour in
  let toUTC (local : Z) :=
    if local - summer <? change then local - summer
    else local - (summer - msPerHour) in
  mkSystemZone
    (fun t => ((t + offsetAt t) / msPerHour) mod 24)
    (fun t => toUTC ((t + offsetAt t) / msPerHour * msPerHour + 3599999))
    (fun t => toUTC (t + offsetAt t - msPerDay)).

(** The instant of the [k]-th round of [calculateStreak]: [k] times the
    day before, from [now]. *)
Fixpoint dayAsked (zone : SystemZone) (now : Z) (k : nat) : Z :=
  match k with
  | O => now
  | S k => dayAsked zone (setDate_previous zone now) k
  end.

(** The instants whose timestamp text SQLite's [date()] reads: the years
    0000 to 9999. *)
Definition sqlDateRange (t : Z) : Prop :=
  -62167219200000 <= t <= 253402300799999.

(** ** The hourly histogram: what the buckets add up to *)

(** The minutes of all buckets together. *)
Definition sumMinutes (hourlyMinutes : list Z) : Z :=
  fold_right Z.add 0 hourlyMinutes.

(** A histogram as the handler returns it: 24 buckets, none negative. *)
Definition wellFormedHistogram (hourlyMinutes : list Z) : Prop :=
  length hourlyMinutes = 24%nat /\ Forall (fun m => 0 <= m) hourlyMinutes.

(** The clock hours touched by the sessions of a list, counted with
    multiplicity. *)
Definition sessionHours (tz : Z) (l : list Session) : Z :=
  fold_right (fun s acc => Z.of_nat (hoursTouched tz (start s) (end_ s)) + acc)
             0 l.

(** ** The configuration store *)

(** The array that [this.config.productiveApps] refers to. *)
Definition currentProductiveApps (st : ConfigStore) : list jsstring :=
  match config st with
  | Some c => heap st (productiveAppsRef c)
  | None => []
  end.

(** [this.config.productiveApps] is the array of [DEFAULT_CONFIG] itself. *)
Definition aliasesDefaults (st : ConfigStore) : Prop :=
  exists c, config st = Some c /\
            productiveAppsRef c = productiveAppsRef (DEFAULT_CONFIG st).

(** The process ends and the module is loaded again: the heap is new, the
    file stays. *)
Definition restart (defaultApps defaultWebsites : list jsstring)
    (st : ConfigStore) : ConfigStore :=
  newConfigStore defaultApps defaultWebsites (configFile st).

(** ** The rows a tracker writes *)

(** The rows a tracker writes, read against its AFK flag: from the flag
    on the left the rows lead to the flag on the right; samples and AFK
    starts are written only while the flag is off, AFK ends only while it
    is on. *)
Inductive alternates : bool -> list Activity -> bool -> Prop :=
| alternates_nil (b : bool) : alternates b [] b
| alternates_sample (a : Activity) (l : list Activity) (b : bool) :
    is_afk a = false -> alternates false l b -> alternates false (a :: l) b
| alternates_start (a : Activity) (l : list Activity) (b : bool) :
    isAfkStart a -> alternates true l b -> alternates false (a :: l) b
| alternates_end (a : Activity) (l : list Activity) (b : bool) :
    isAfkEnd a -> alternates false l b -> alternates true (a :: l) b.

(** ** Sequences of notification calls *)

(** A call of [trackWorkActivity]: its argument and its two clock reads. *)
Record WorkCall := mkWorkCall {
  isWorking : bool;
  startRead : Z;
  nowRead : Z
}.

(** The instants at which a sequence of calls issues a break reminder,
    and the manager after them. *)
Fixpoint breakReminders (enabled : bool) (breakReminderMinutes : Q)
    (calls : list WorkCall) (m : Notifications.NotificationManager)
  : list Z * Notifications.NotificationManager :=
  match calls with
  | [] => ([], m)
  | c :: calls =>
      let '(m, shown) :=
        Notifications.trackWorkActivity enabled breakReminderMinutes
          (isWorking c) (startRead c) (nowRead c) m in
      let '(l, m') := breakReminders enabled breakReminderMinutes calls m in
      (if shown then nowRead c :: l else l, m')
  end.

(** Instants each at least [gap] milliseconds after the one before it,
    the first after [last]. *)
Fixpoint spaced (gap : Q) (last : option Z) (l : list Z) : Prop :=
  match l with
  | [] => True
  | t :: l' =>
      match last with
      | Some p => (gap <= inject_Z (t - p))%Q
      | None => True
      end /\ spaced gap (Some t) l'
  end.

(** What happens to the goal notification: a request to show it, or the
    daily reset run at an instant. *)
Inductive GoalEvent :=
| ShowGoalReached : bool -> GoalEvent
| ResetDailyFlags : Z -> GoalEvent.

(** The number of goal notifications a sequence of events issues. *)
Fixpoint goalNotifications (events : list GoalEvent)
    (m : Notifications.NotificationManager) : nat :=
  match events with
  | [] => 0
  | ShowGoalReached enabled :: events =>
      let '(m, shown) := Notifications.showGoalReached enabled m in
      ((if shown then 1 else 0) + goalNotifications events m)%nat
  | ResetDailyFlags now :: events =>
      goalNotifications events (Notifications.resetDailyFlags now m)
  end.

(** ** Reading CSV *)

Definition carriageReturn : N := 13.

(** How a reader of CSV takes a field off the front of a text: a field
    that opens with a quote runs to the first quote that is not doubled,
    and doubled quotes stand for one; any other field runs to the next
    comma or line break (a line feed or a carriage return).  The result is
    the field and the text after it. *)
Fixpoint readQuoted (t : jsstring) : jsstring * jsstring :=
  match t with
  | [] => ([], [])
  | c :: t' =>
      if N.eqb c quote then
        match t' with
        | c' :: t'' =>
            if N.eqb c' quote
            then let '(f, r) := readQuoted t'' in (quote :: f, r)
            else ([], t')
        | [] => ([], [])
        end
      else let '(f, r) := readQuoted t' in (c :: f, r)
  end.

Fixpoint readPlain (t : jsstring) : jsstring * jsstring :=
  match t with
  | [] => ([], [])
  | c :: t' =>
      if N.eqb c comma || N.eqb c newline || N.eqb c carriageReturn
      then ([], t)
      else let '(f, r) := readPlain t' in (c :: f, r)
  end.

Definition readField (t : jsstring) : jsstring * jsstring :=
  match t with
  | c :: t' => if N.eqb c quote then readQuoted t' else readPlain t
  | [] => ([], [])
  end.

(** The text after a field: nothing, or a comma or a line break first. *)
Definition endsField (rest : jsstring) : Prop :=
  match rest with
  | [] => True
  | c :: _ => c = comma \/ c = newline \/ c = carriageReturn
  end.

(** ** Sequences of keyword lookups *)

(** The manager after a sequence of calls of [getKeywords()], each given
    by the keywords configured at the time and by its instant. *)
Definition afterKeywordCalls
    (calls : list (list (jsstring * list jsstring) * Z))
    (pm : ProjectManager) : ProjectManager :=
  fold_left (fun pm call => snd (getKeywords (fst call) (snd call) pm))
            calls pm.

(** The cache holds nothing, or keywords that an earlier call of the
    history loaded, with the instant of that call. *)
Definition cacheFrom (history : list (list (jsstring * list jsstring) * Z))
    (pm : ProjectManager) : Prop :=
  cachedKeywords pm = None \/
  exists K t, cachedKeywords pm = Some K /\ lastKeywordsLoad pm = Some t /\
              In (K, t) history.


(* ================================================================= *)
(** * Properties *)

(** ** Strings *)

Lemma jseqb_eq (s t : jsstring) : jseqb s t = true <-> s = t.
Proof.
  revert t; induction s as [|c s IH]; intros [|d t]; simpl;
    try (split; [discriminate | congruence]); try tauto.
  rewrite andb_true_iff, N.eqb_eq, IH. split.
  - intros [-> ->]; reflexivity.
  - intros E; injection E; auto.
Qed.

Lemma jseqb_refl (s : jsstring) : jseqb s s = true.
Proof. apply jseqb_eq; reflexivity. Qed.

Lemma jseqb_neq (s t : jsstring) : jseqb s t = false <-> s <> t.
Proof.
  rewrite <- jseqb_eq. destruct (jseqb s t); split; congruence.
Qed.

Lemma startsWith_spec (s sub : jsstring) :
  startsWith s sub = true <-> exists post, s = sub ++ post.
Proof.
  revert s; induction sub as [|c sub IH]; intros s.
  - split; [intros _; exists s; reflexivity | destruct s; reflexivity].
  - destruct s as [|d s]; simpl.
    + split; [discriminate | intros [post E]; discriminate].
    + rewrite andb_true_iff, N.eqb_eq, IH. split.
      * intros [-> [post ->]]. exists post; reflexivity.
      * intros [post E]. injection E as -> ->. split; [reflexivity | eauto].
Qed.

Lemma includes_spec (s sub : jsstring) :
  includes s sub = true <-> contains s sub.
Proof.
  unfold contains. induction s as [|d s IH].
  - cbn [includes]. rewrite orb_false_r, startsWith_spec. split.
    + intros [post E]. exists [], post. exact E.
    + intros [pre [post E]]. destruct pre as [|x pre]; [|discriminate].
      exists post. exact E.
  - cbn [includes]. rewrite orb_true_iff, startsWith_spec, IH. split.
    + intros [[post E] | [pre [post E]]].
      * exists [], post. exact E.
      * exists (d :: pre), post. simpl. rewrite E. reflexivity.
    + intros [[|x pre] [post E]].
      * left. exists post. exact E.
      * right. simpl in E. injection E as _ E. exists pre, post. exact E.
Qed.

Lemma existsb_includes (s : jsstring) (l : list jsstring) :
  existsb (fun x => includes s x) l = true <->
  exists x, In x l /\ contains s x.
Proof.
  rewrite existsb_exists. split; intros [x [Hin H]]; exists x; split; auto;
    apply includes_spec; exact H.
Qed.


(* ----------------------------------------------------------------- *)
(** ** The productivity classifier *)

Lemma truthy_true (v : option jsstring) :
  truthy v = true <-> exists s, v = Some s /\ s <> [].
Proof.
  destruct v as [[|c s]|]; simpl; split; try discriminate.
  - intros [s [E H]]. injection E as <-. contradiction.
  - intros _. exists (c :: s). split; [reflexivity | discriminate].
  - reflexivity.
  - intros [s [E _]]. discriminate.
Qed.

Lemma truthy_false (v : option jsstring) :
  truthy v = false <-> v = None \/ v = Some [].
Proof.
  destruct v as [[|c s]|]; simpl; split; auto; try discriminate.
  intros [E | E]; discriminate.
Qed.

(** C3, as the specification words it, fails: an empty application name is
    present and contains the empty entry of the allow-list, yet the guard
    [if (!appName) return false] rejects it. *)
Lemma classifier_as_specified_fails : ~ classifier_as_specified.
Proof.
  intros H.
  destruct (H (Some []) None [[]] []) as [_ H1].
  destruct (H1 [] eq_refl) as [H2 _].
  assert (E : isProductiveActivity (Some []) None [[]] [] = true).
  { apply H2. exists []. split; [left; reflexivity | exists [], []; reflexivity]. }
  discriminate E.
Qed.

(** C3 (amended): the classifier returns false when [appName] is absent or
    empty; true when [appName] contains an entry of [productiveApps];
    otherwise, when [appName] contains a recognised browser name, true
    exactly when [windowTitle] is present, not empty and contains an entry
    of [productiveWebsites]; and false in every other case. *)
Theorem isProductiveActivity_cases
    (appName windowTitle : option jsstring)
    (productiveApps productiveWebsites : list jsstring) :
  let r := isProductiveActivity appName windowTitle
                                productiveApps productiveWebsites in
  (appName = None \/ appName = Some [] -> r = false) /\
  (forall a, appName = Some a -> a <> [] ->
     ((exists p, In p productiveApps /\ contains a p) -> r = true) /\
     (~ (exists p, In p productiveApps /\ contains a p) ->
      (exists b, In b browsers /\ contains a b) ->
      (r = true <->
       exists w, windowTitle = Some w /\ w <> [] /\
                 exists s, In s productiveWebsites /\ contains w s)) /\
     (~ (exists p, In p productiveApps /\ contains a p) ->
      ~ (exists b, In b browsers /\ contains a b) ->
      r = false)).
Proof.
  cbv zeta. unfold isProductiveActivity. split.
  - intros H. apply truthy_false in H. rewrite H. reflexivity.
  - intros a -> Ha.
    assert (T : truthy (Some a) = true).
    { apply truthy_true. exists a. split; [reflexivity | exact Ha]. }
    rewrite T. cbn [negb orEmpty].
    destruct (existsb (fun app => includes a app) productiveApps) eqn:EA.
    + apply existsb_includes in EA.
      repeat split; auto; intros N; contradiction.
    + assert (NA : ~ exists p, In p productiveApps /\ contains a p).
      { intros C. apply existsb_includes in C. congruence. }
      split; [intros C; contradiction|].
      destruct (existsb (fun browser => includes a browser) browsers) eqn:EB.
      * split; [|intros _ NB; exfalso; apply NB; apply existsb_includes; exact EB].
        intros _ _.
        destruct (truthy windowTitle) eqn:TW.
        -- apply truthy_true in TW. destruct TW as [w [-> Hw]].
           cbn [orEmpty]. rewrite existsb_includes. split.
           ++ intros S. exists w. auto.
           ++ intros [w' [E [_ S]]]. injection E as <-. exact S.
        -- apply truthy_false in TW. split; [discriminate|].
           intros [w [E [Hw _]]]. destruct TW as [TW | TW]; congruence.
      * split; [|reflexivity].
        intros _ C. apply existsb_includes in C. congruence.
Qed.

(** A browser on a productive site: the second branch at a concrete input. *)
Lemma isProductiveActivity_cases_witness :
  isProductiveActivity (Some (str "Google Chrome")) (Some (str "GitHub - repo"))
                       [] [str "GitHub"] = true.
Proof.
  destruct (isProductiveActivity_cases
              (Some (str "Google Chrome")) (Some (str "GitHub - repo"))
              [] [str "GitHub"]) as [_ H].
  destruct (H (str "Google Chrome") eq_refl ltac:(discriminate)) as [_ [H2 _]].
  apply H2.
  - intros [p [[] _]].
  - apply existsb_includes. reflexivity.
  - exists (str "GitHub - repo"). split; [reflexivity|]. split; [discriminate|].
    apply existsb_includes. reflexivity.
Defined.

(* ----------------------------------------------------------------- *)
(** ** Session reconstruction: invariants of the loop *)

Lemma Qmake_pos (a : Z) : (0 < a # 1000)%Q <-> 0 < a.
Proof. unfold Qlt; cbn [Qnum Qden]. lia. Qed.

Lemma sumDurations_app (l1 l2 : list Session) :
  (sumDurations (l1 ++ l2) == sumDurations l1 + sumDurations l2)%Q.
Proof.
  induction l1 as [|s l1 IH]; simpl.
  - ring.
  - rewrite IH. ring.
Qed.

Lemma sumDurations_nonneg (l : list Session) :
  Forall wellFormedSession l -> (0 <= sumDurations l)%Q.
Proof.
  induction 1 as [|s l [_ Hs] _ IH]; simpl.
  - apply Qle_refl.
  - apply Qlt_le_weak in Hs.
    setoid_replace 0%Q with (0 + 0)%Q by ring.
    apply Qplus_le_compat; assumption.
Qed.

(** What [pushSession] does, by the sign of the computed duration. *)
Lemma pushSession_pos (v : Vars) (s e : Z) :
  s < e ->
  pushSession v s e =
  mkVars (total v + ((e - s) # 1000))%Q (isAfk v) (lastTimestamp v)
         (sessionStart v)
         (recorded v ++ [mkSession s e ((e - s) # 1000)]).
Proof.
  intros H. unfold pushSession.
  destruct (Qlt_le_dec 0 ((e - s) # 1000)) as [_ | C]; [reflexivity|].
  exfalso. unfold Qle in C; cbn [Qnum Qden] in C. lia.
Qed.

Lemma pushSession_nonpos (v : Vars) (s e : Z) :
  e <= s -> pushSession v s e = v.
Proof.
  intros H. unfold pushSession.
  destruct (Qlt_le_dec 0 ((e - s) # 1000)) as [C | _]; [|reflexivity].
  exfalso. apply (proj1 (Qmake_pos _)) in C. lia.
Qed.

Lemma pushSession_frame (v : Vars) (s e : Z) :
  isAfk (pushSession v s e) = isAfk v /\
  lastTimestamp (pushSession v s e) = lastTimestamp v /\
  sessionStart (pushSession v s e) = sessionStart v.
Proof.
  destruct (Z.lt_ge_cases s e) as [H | H].
  - rewrite pushSession_pos by exact H. auto.
  - rewrite pushSession_nonpos by exact H. auto.
Qed.

Lemma tally_initial : tally initialVars.
Proof. split; [constructor | reflexivity]. Qed.

Lemma tally_pushSession (v : Vars) (s e : Z) :
  tally v -> tally (pushSession v s e).
Proof.
  intros [HF HT].
  destruct (Z.lt_ge_cases s e) as [H | H].
  - rewrite pushSession_pos by exact H. split; simpl.
    + apply Forall_app. split; [exact HF|].
      constructor; [|constructor]. split; [reflexivity|].
      simpl. apply Qmake_pos. lia.
    + rewrite sumDurations_app, HT. simpl. ring.
  - rewrite pushSession_nonpos by exact H. split; assumption.
Qed.

Lemma tally_set (v : Vars) :
  tally v ->
  (forall s, tally (setSessionStart v s)) /\
  (forall b, tally (setIsAfk v b)) /\
  (forall t, tally (setLastTimestamp v t)).
Proof. intros [HF HT]. repeat split; assumption. Qed.

Lemma tally_step (apps sites : list jsstring) (v : Vars) (a : Activity) :
  tally v -> tally (step apps sites v a).
Proof.
  intros H. unfold step.
  repeat match goal with
         | |- tally (setSessionStart _ _) => apply tally_set
         | |- tally (setIsAfk _ _) => apply tally_set
         | |- tally (setLastTimestamp _ _) => apply tally_set
         | |- tally (pushSession _ _ _) => apply tally_pushSession
         | |- tally (if ?b then _ else _) => destruct b
         | |- tally (match ?o with Some _ => _ | None => _ end) => destruct o
         | |- tally (let _ := _ in _) => cbv zeta
         end; try assumption.
Qed.

Lemma tally_fold (apps sites : list jsstring) (l : list Activity) (v : Vars) :
  tally v -> tally (fold_left (step apps sites) l v).
Proof.
  revert v; induction l as [|a l IH]; intros v H; simpl.
  - exact H.
  - apply IH, tally_step, H.
Qed.

Lemma tally_closeOngoing (date : jsstring) (now : Z) (v : Vars) :
  tally v -> tally (closeOngoing date now v).
Proof.
  intros H. unfold closeOngoing.
  repeat match goal with
         | |- tally (pushSession _ _ _) => apply tally_pushSession
         | |- tally (if ?b then _ else _) => destruct b
         | |- tally (match ?o with Some _ => _ | None => _ end) => destruct o
         | |- tally (let _ := _ in _) => cbv zeta
         end; try assumption.
Qed.

Lemma tally_reconstruct (l : list Activity) (date : jsstring) (now : Z)
    (apps sites : list jsstring) :
  let r := reconstruct l date now apps sites in
  Forall wellFormedSession (sessions r) /\
  (totalWorkSeconds r == sumDurations (sessions r))%Q /\
  sessionsCount r = length (sessions r).
Proof.
  cbv zeta. unfold reconstruct. cbn [sessions totalWorkSeconds sessionsCount].
  destruct (tally_closeOngoing date now _
              (tally_fold apps sites l _ tally_initial)) as [HF HT].
  repeat split; assumption.
Qed.

(* ----------------------------------------------------------------- *)
(** ** The query: rows of one day, in timestamp order *)

Lemma insertByTimestamp_In (a x : Activity) (l : list Activity) :
  In x (insertByTimestamp a l) <-> x = a \/ In x l.
Proof.
  induction l as [|b l IH]; simpl.
  - intuition congruence.
  - destruct (timestamp a <=? timestamp b); simpl; rewrite ?IH;
      intuition congruence.
Qed.

Lemma insertByTimestamp_sorted (a : Activity) (l : list Activity) :
  StronglySorted byTimestamp l ->
  StronglySorted byTimestamp (insertByTimestamp a l).
Proof.
  induction 1 as [|b l HS IH HF]; simpl.
  - constructor; constructor.
  - destruct (timestamp a <=? timestamp b) eqn:E.
    + apply Z.leb_le in E. constructor.
      * constructor; assumption.
      * constructor; [exact E|].
        rewrite Forall_forall in HF |- *. intros x Hx.
        specialize (HF x Hx). unfold byTimestamp in *. lia.
    + apply Z.leb_gt in E. constructor; [exact IH|].
      rewrite Forall_forall in HF |- *. intros x Hx.
      apply insertByTimestamp_In in Hx. destruct Hx as [-> | Hx].
      * unfold byTimestamp. lia.
      * apply HF, Hx.
Qed.

Lemma orderByTimestamp_sorted (l : list Activity) :
  StronglySorted byTimestamp (orderByTimestamp l).
Proof.
  induction l as [|a l IH]; simpl.
  - constructor.
  - apply insertByTimestamp_sorted, IH.
Qed.

Lemma orderByTimestamp_In (x : Activity) (l : list Activity) :
  In x (orderByTimestamp l) <-> In x l.
Proof.
  induction l as [|a l IH]; simpl.
  - tauto.
  - rewrite insertByTimestamp_In, IH. intuition congruence.
Qed.

(** Rows already in order are returned as they are. *)
Lemma orderByTimestamp_id (l : list Activity) :
  StronglySorted byTimestamp l -> orderByTimestamp l = l.
Proof.
  induction 1 as [|a l HS IH HF]; simpl.
  - reflexivity.
  - rewrite IH. destruct l as [|b l]; simpl; [reflexivity|].
    apply Forall_inv in HF. unfold byTimestamp in HF.
    apply Z.leb_le in HF. rewrite HF. reflexivity.
Qed.

Lemma getActivityForDate_sorted (db : WorkTrackerDB) (d : jsstring) :
  StronglySorted byTimestamp (getActivityForDate db d).
Proof.
  unfold getActivityForDate. destruct (negb (ready db)).
  - constructor.
  - apply orderByTimestamp_sorted.
Qed.

(** Every returned row belongs to the log and to the queried day. *)
Lemma getActivityForDate_In (db : WorkTrackerDB) (d : jsstring) (x : Activity) :
  In x (getActivityForDate db d) ->
  In x (activity_log db) /\ toISODate (timestamp x) = d /\ ready db = true.
Proof.
  unfold getActivityForDate. destruct (ready db); simpl; [|tauto].
  rewrite orderByTimestamp_In, filter_In, jseqb_eq. tauto.
Qed.

Lemma sorted_head_le_last (a : Activity) (l : list Activity) :
  StronglySorted byTimestamp (a :: l) ->
  timestamp a <= timestamp (last l a).
Proof.
  intros H. apply StronglySorted_inv in H. destruct H as [_ HF].
  destruct l as [|b l]; [simpl; lia|].
  rewrite Forall_forall in HF. apply (HF (last (b :: l) a)).
  destruct (exists_last (l := b :: l) ltac:(discriminate)) as [l' [x E]].
  rewrite E, last_last. apply in_or_app. right. left. reflexivity.
Qed.

(* ----------------------------------------------------------------- *)
(** ** Session reconstruction: totals and durations *)

(** C4: whenever the reconstruction returns a result (and it does for every
    day that has rows), the total is non-negative, every recorded session
    has a positive duration equal to [(end - start) / 1000], the total is
    the sum of the recorded durations, and a computed duration that is not
    positive records nothing. *)
Theorem calculateWorkTimeForDate_invariant
    (db : WorkTrackerDB) (now : Z) (d : jsstring)
    (productiveApps productiveWebsites : list jsstring) :
  (getActivityForDate db d <> [] ->
   exists r, calculateWorkTimeForDate db now d
               productiveApps productiveWebsites = Some r) /\
  (forall r,
     calculateWorkTimeForDate db now d productiveApps productiveWebsites
       = Some r ->
     (0 <= totalWorkSeconds r)%Q /\
     Forall (fun s => (0 < duration s)%Q /\
                      duration s = ((end_ s - start s) # 1000)%Q)
            (sessions r) /\
     (totalWorkSeconds r == sumDurations (sessions r))%Q /\
     sessionsCount r = length (sessions r)) /\
  (forall v s e, e <= s -> pushSession v s e = v).
Proof.
  split; [|split].
  - intros NE. unfold calculateWorkTimeForDate.
    destruct (ready db) eqn:R; simpl.
    + destruct (getActivityForDate db d) as [|a l]; [contradiction|].
      simpl. eauto.
    + unfold getActivityForDate in NE. rewrite R in NE. contradiction.
  - intros r. unfold calculateWorkTimeForDate.
    destruct (negb (ready db)); [discriminate|].
    destruct (length (getActivityForDate db d) =? 0)%nat; [discriminate|].
    intros E. injection E as <-.
    destruct (tally_reconstruct (getActivityForDate db d) d now
                productiveApps productiveWebsites) as [HF [HT HC]].
    split; [|split; [|split]].
    + rewrite HT. apply sumDurations_nonneg, HF.
    + eapply Forall_impl; [|exact HF]. intros s [H1 H2]. split; assumption.
    + exact HT.
    + exact HC.
  - apply pushSession_nonpos.
Qed.

(** A day whose two samples carry the same timestamp: the zero-length
    session is not recorded. *)
Lemma calculateWorkTimeForDate_invariant_witness :
  exists r,
    calculateWorkTimeForDate
      (dbOf [sample (at_ 9 0) "VSCode" "a.js"; sample (at_ 9 0) "VSCode" "b.js"])
      (at_ 30 0) (str "2024-03-15") [str "VSCode"] [] = Some r /\
    sessions r = [] /\ (0 <= totalWorkSeconds r)%Q.
Proof.
  pose (db := dbOf [sample (at_ 9 0) "VSCode" "a.js";
                    sample (at_ 9 0) "VSCode" "b.js"]).
  destruct (calculateWorkTimeForDate_invariant
              db (at_ 30 0) (str "2024-03-15") [str "VSCode"] [])
    as [H1 [H2 _]].
  destruct H1 as [r Hr]; [vm_compute; discriminate|].
  exists r. split; [exact Hr|]. split.
  - vm_compute in Hr. injection Hr as <-. reflexivity.
  - apply (H2 r Hr).
Defined.

(* ----------------------------------------------------------------- *)
(** ** Session reconstruction: productive runs *)

Section ProductiveRun.

Variables apps sites : list jsstring.

(** A productive sample while a session is open only advances
    [lastTimestamp]. *)
Lemma step_productive_open (v : Vars) (a : Activity) (s : Z) :
  isAfk v = false -> sessionStart v = Some s ->
  productiveSample apps sites a ->
  step apps sites v a = setLastTimestamp v (timestamp a).
Proof.
  intros HA HS [H1 H2]. unfold step.
  rewrite H1, HA, H2, HS. reflexivity.
Qed.

(** A productive sample while no session is open opens one. *)
Lemma step_productive_closed (v : Vars) (a : Activity) :
  isAfk v = false -> sessionStart v = None ->
  productiveSample apps sites a ->
  step apps sites v a =
  setLastTimestamp (setSessionStart v (Some (timestamp a))) (timestamp a).
Proof.
  intros HA HS [H1 H2]. unfold step.
  rewrite H1, HA, H2, HS. reflexivity.
Qed.

Lemma fold_productive_open (l : list Activity) (v : Vars) (s : Z) :
  isAfk v = false -> sessionStart v = Some s ->
  Forall (productiveSample apps sites) l ->
  fold_left (step apps sites) l v =
  mkVars (total v) false
         (fold_left (fun _ a => Some (timestamp a)) l (lastTimestamp v))
         (Some s) (recorded v).
Proof.
  revert v; induction l as [|a l IH]; intros v HA HS HF.
  - destruct v; simpl in *; subst; reflexivity.
  - apply Forall_cons_iff in HF. destruct HF as [Ha HF]. simpl.
    rewrite (step_productive_open v a s HA HS Ha).
    rewrite IH by assumption. reflexivity.
Qed.

Lemma last_cons (l : list Activity) (a b : Activity) :
  last (b :: l) a = last l b.
Proof.
  revert a b; induction l as [|c l IH]; intros a b.
  - reflexivity.
  - change (last (b :: c :: l) a) with (last (c :: l) a).
    rewrite !IH. reflexivity.
Qed.

Lemma fold_lastTimestamp (l : list Activity) (a : Activity) (o : option Z) :
  fold_left (fun _ x => Some (timestamp x)) (a :: l) o
  = Some (timestamp (last l a)).
Proof.
  revert a o; induction l as [|b l IH]; intros a o.
  - reflexivity.
  - change (fold_left (fun _ x => Some (timestamp x)) (b :: l)
                      (Some (timestamp a))
            = Some (timestamp (last (b :: l) a))).
    rewrite IH, last_cons. reflexivity.
Qed.

(** The loop over a day that starts a productive run and never leaves it. *)
Lemma fold_all_productive (first : Activity) (rest : list Activity) :
  Forall (productiveSample apps sites) (first :: rest) ->
  fold_left (step apps sites) (first :: rest) initialVars =
  mkVars 0 false (Some (timestamp (last rest first)))
         (Some (timestamp first)) [].
Proof.
  intros HF. apply Forall_cons_iff in HF. destruct HF as [Ha HF].
  cbn [fold_left].
  rewrite (step_productive_closed initialVars first eq_refl eq_refl Ha).
  rewrite (fold_productive_open rest
             (setLastTimestamp
                (setSessionStart initialVars (Some (timestamp first)))
                (timestamp first))
             (timestamp first) eq_refl eq_refl HF).
  cbn [total recorded lastTimestamp setLastTimestamp setSessionStart].
  f_equal. destruct rest as [|b rest]; [reflexivity|].
  rewrite (fold_lastTimestamp rest b), last_cons. reflexivity.
Qed.

End ProductiveRun.

Lemma total_pushSession_initial (s e : Z) (o1 o2 : option Z) (b : bool) :
  (total (pushSession (mkVars 0 b o1 o2 []) s e) == Z.max 0 (e - s) # 1000)%Q.
Proof.
  destruct (Z.lt_ge_cases s e) as [H | H].
  - rewrite pushSession_pos by exact H. cbn [total].
    rewrite Z.max_r by lia. ring.
  - rewrite pushSession_nonpos by exact H. cbn [total].
    rewrite Z.max_l by lia. reflexivity.
Qed.

(** C2: for a day without AFK markers whose samples are all productive, the
    total is the time elapsed from the first row to the last row of the
    day, or to the evaluation instant when the queried date is the current
    date (in seconds, as an exact rational; an evaluation instant earlier
    than the first row gives 0). *)
Theorem all_productive_total
    (db : WorkTrackerDB) (now : Z) (d : jsstring)
    (productiveApps productiveWebsites : list jsstring)
    (first : Activity) (rest : list Activity) :
  getActivityForDate db d = first :: rest ->
  (forall a, In a (first :: rest) ->
     is_afk a = false /\
     isProductiveActivity (app_name a) (window_title a)
                          productiveApps productiveWebsites = true) ->
  exists r,
    calculateWorkTimeForDate db now d productiveApps productiveWebsites
      = Some r /\
    (d <> toISODate now ->
     (totalWorkSeconds r
      == (timestamp (last rest first) - timestamp first) # 1000)%Q) /\
    (d = toISODate now ->
     (totalWorkSeconds r == Z.max 0 (now - timestamp first) # 1000)%Q /\
     (timestamp first <= now ->
      (totalWorkSeconds r == (now - timestamp first) # 1000)%Q)).
Proof.
  intros HQ HP.
  assert (HS : StronglySorted byTimestamp (first :: rest)).
  { rewrite <- HQ. apply getActivityForDate_sorted. }
  assert (HR : ready db = true).
  { apply (getActivityForDate_In db d first). rewrite HQ. left. reflexivity. }
  assert (HF : Forall (productiveSample productiveApps productiveWebsites)
                      (first :: rest)).
  { apply Forall_forall. exact HP. }
  unfold calculateWorkTimeForDate. rewrite HR, HQ. cbn [negb length Nat.eqb].
  eexists. split; [reflexivity|].
  unfold reconstruct. cbn [totalWorkSeconds].
  rewrite (fold_all_productive _ _ first rest HF).
  unfold closeOngoing. cbn [sessionStart isAfk negb lastTimestamp].
  split.
  - intros NE. apply jseqb_neq in NE. rewrite NE.
    rewrite total_pushSession_initial.
    pose proof (sorted_head_le_last first rest HS).
    rewrite Z.max_r by lia. reflexivity.
  - intros E. apply jseqb_eq in E. rewrite E.
    rewrite total_pushSession_initial. split; [reflexivity|].
    intros Hnow. rewrite Z.max_r by lia. reflexivity.
Qed.

(** Three editor samples of a past day, 09:00 to 10:00: one hour. *)
Lemma all_productive_total_witness :
  exists r,
    calculateWorkTimeForDate
      (dbOf [sample (at_ 9 0) "VSCode" "a.js"; sample (at_ 9 30) "VSCode" "a.js";
             sample (at_ 10 0) "VSCode" "a.js"])
      (at_ 30 0) (str "2024-03-15") [str "VSCode"] [] = Some r /\
    (totalWorkSeconds r == 3600)%Q.
Proof.
  destruct (all_productive_total
              (dbOf [sample (at_ 9 0) "VSCode" "a.js";
                     sample (at_ 9 30) "VSCode" "a.js";
                     sample (at_ 10 0) "VSCode" "a.js"])
              (at_ 30 0) (str "2024-03-15") [str "VSCode"] []
              (sample (at_ 9 0) "VSCode" "a.js")
              [sample (at_ 9 30) "VSCode" "a.js";
               sample (at_ 10 0) "VSCode" "a.js"])
    as [r [Hr [Hpast _]]].
  - vm_compute. reflexivity.
  - intros a [<- | [<- | [<- | []]]]; split; vm_compute; reflexivity.
  - exists r. split; [exact Hr|].
    rewrite Hpast; [vm_compute; reflexivity|].
    vm_compute. discriminate.
Defined.

(* ----------------------------------------------------------------- *)
(** ** Session reconstruction: an AFK pair inside a productive run *)

Ltac qz :=
  repeat progress (unfold Qeq, Qplus, Qminus, Qopp; cbn [Qnum Qden]);
  rewrite ?Pos2Z.inj_mul; ring.

Lemma recorded_pushSession (v : Vars) (s e : Z) :
  recorded (pushSession v s e) = recorded v ++ sessionIfPositive s e.
Proof.
  unfold sessionIfPositive. destruct (Z.ltb_spec s e) as [H | H].
  - rewrite pushSession_pos by exact H. reflexivity.
  - rewrite pushSession_nonpos by exact H. symmetry. apply app_nil_r.
Qed.

Lemma total_pushSession (v : Vars) (s e : Z) :
  (total (pushSession v s e) == total v + (Z.max 0 (e - s) # 1000))%Q.
Proof.
  destruct (Z.lt_ge_cases s e) as [H | H].
  - rewrite pushSession_pos by exact H. cbn [total].
    rewrite Z.max_r by lia. reflexivity.
  - rewrite pushSession_nonpos by exact H.
    rewrite Z.max_l by lia. qz.
Qed.

Lemma isAfk_pushSession (v : Vars) (s e : Z) :
  isAfk (pushSession v s e) = isAfk v.
Proof. apply pushSession_frame. Qed.

Lemma lastTimestamp_pushSession (v : Vars) (s e : Z) :
  lastTimestamp (pushSession v s e) = lastTimestamp v.
Proof. apply pushSession_frame. Qed.

Lemma sessionStart_pushSession (v : Vars) (s e : Z) :
  sessionStart (pushSession v s e) = sessionStart v.
Proof. apply pushSession_frame. Qed.

Ltac projections :=
  cbn [isAfk lastTimestamp sessionStart recorded total
       setSessionStart setIsAfk setLastTimestamp];
  rewrite ?isAfk_pushSession, ?lastTimestamp_pushSession,
          ?sessionStart_pushSession, ?recorded_pushSession.

Section AfkSplit.

Variables apps sites : list jsstring.
Variables s a tr : Z.
Hypothesis s_lt_a : s < a.
Hypothesis a_le_tr : a <= tr.

(** The same interval closed in both loops. *)
Lemma splitLog_push (vo vn : Vars) (s0 t : Z) :
  splitLog s a tr vo vn ->
  splitLog s a tr (pushSession vo s0 t) (pushSession vn s0 t).
Proof.
  intros (front & rest & e & He & Ro & Rn & HT).
  exists front, (rest ++ sessionIfPositive s0 t), e. projections.
  split; [exact He|]. split; [|split].
  - rewrite Ro, <- app_assoc. reflexivity.
  - rewrite Rn, <- app_assoc. cbn [app]. rewrite <- app_assoc. reflexivity.
  - rewrite !total_pushSession, HT. qz.
Qed.

Lemma splitClosed_push (vo vn : Vars) (s0 t : Z) :
  splitClosed s a tr vo vn ->
  splitClosed s a tr (pushSession vo s0 t) (pushSession vn s0 t).
Proof.
  intros (HA & HS & HL & H). unfold splitClosed. projections.
  repeat split; try assumption. apply splitLog_push, H.
Qed.

(** Assignments to the control variables, made in both loops. *)
Lemma splitLog_set (wo wn : Vars) :
  splitLog s a tr wo wn ->
  (forall o o', splitLog s a tr (setSessionStart wo o)
                               (setSessionStart wn o')) /\
  (forall b b', splitLog s a tr (setIsAfk wo b) (setIsAfk wn b')) /\
  (forall t t', splitLog s a tr (setLastTimestamp wo t)
                               (setLastTimestamp wn t')).
Proof. intros H. repeat split; intros; exact H. Qed.

Lemma splitClosed_set (wo wn : Vars) :
  splitClosed s a tr wo wn ->
  (forall o, splitClosed s a tr (setSessionStart wo o)
                                (setSessionStart wn o)) /\
  (forall b, splitClosed s a tr (setIsAfk wo b) (setIsAfk wn b)) /\
  (forall t, splitClosed s a tr (setLastTimestamp wo t)
                                (setLastTimestamp wn t)).
Proof.
  intros (A & B & C & D). unfold splitClosed.
  repeat split; projections; auto; apply splitLog_set, D.
Qed.

(** Once the split run is closed the two loops move in lock step. *)
Lemma splitClosed_step (vo vn : Vars) (x : Activity) :
  splitClosed s a tr vo vn ->
  splitClosed s a tr (step apps sites vo x) (step apps sites vn x).
Proof.
  intros R0. pose proof R0 as (HA & HS & HL & _).
  unfold step. rewrite HA, HS.
  destruct (is_afk x).
  - apply splitClosed_set.
    destruct (afk_type_is x "start").
    + apply splitClosed_set. destruct (sessionStart vo); [|exact R0].
      destruct (negb (isAfk vo)); [|exact R0].
      apply splitClosed_set, splitClosed_push, R0.
    + destruct (afk_type_is x "end"); [apply splitClosed_set|]; exact R0.
  - destruct (isAfk vo); [exact R0|]. apply splitClosed_set.
    destruct (isProductiveActivity _ _ _ _).
    + destruct (sessionStart vo); [exact R0 | apply splitClosed_set, R0].
    + destruct (sessionStart vo);
        [apply splitClosed_set, splitClosed_push, R0 | exact R0].
Qed.

Lemma splitClosed_fold (l : list Activity) (vo vn : Vars) :
  splitClosed s a tr vo vn ->
  splitClosed s a tr (fold_left (step apps sites) l vo)
                     (fold_left (step apps sites) l vn).
Proof.
  revert vo vn; induction l as [|x l IH]; intros vo vn H; simpl.
  - exact H.
  - apply IH, splitClosed_step, H.
Qed.

(** Closing the split run at [t]: the original records [s .. t], the other
    loop records [tr .. t] when that is a positive interval. *)
Lemma splitOpen_close (vo vn : Vars) (t : Z) :
  splitOpen s a tr vo vn -> tr <= t ->
  splitLog s a tr (pushSession vo s t) (pushSession vn tr t).
Proof.
  intros (A1 & A2 & S1 & S2 & L & _ & R & T) Ht.
  exists (recorded vo), [], t. projections.
  split; [exact Ht|]. split; [|split].
  - unfold sessionIfPositive.
    destruct (Z.ltb_spec s t); [reflexivity | lia].
  - rewrite R, <- app_assoc, app_nil_r. reflexivity.
  - rewrite !total_pushSession, T.
    rewrite !Z.max_r by lia. qz.
Qed.

(** The same, followed by [sessionStart = null]. *)
Lemma splitOpen_close_reset (vo vn : Vars) (t : Z) :
  splitOpen s a tr vo vn -> tr <= t ->
  splitClosed s a tr (setSessionStart (pushSession vo s t) None)
                     (setSessionStart (pushSession vn tr t) None).
Proof.
  intros H Ht. pose proof H as (A1 & A2 & S1 & S2 & L & _).
  unfold splitClosed. projections.
  split; [congruence|]. split; [reflexivity|]. split; [exact L|].
  apply splitLog_set, splitOpen_close; assumption.
Qed.

(** While the split run is open, a later row keeps it open or closes it. *)
Lemma splitOpen_step (vo vn : Vars) (x : Activity) :
  splitOpen s a tr vo vn -> tr <= timestamp x ->
  splitOpen s a tr (step apps sites vo x) (step apps sites vn x) \/
  splitClosed s a tr (step apps sites vo x) (step apps sites vn x).
Proof.
  intros H Hx.
  pose proof (splitOpen_close_reset vo vn (timestamp x) H Hx) as C.
  destruct H as (A1 & A2 & S1 & S2 & L & _ & R & T).
  assert (O : forall b, b = false ->
            splitOpen s a tr (setLastTimestamp (setIsAfk vo b) (timestamp x))
                             (setLastTimestamp (setIsAfk vn b) (timestamp x))).
  { intros b ->. unfold splitOpen. projections.
    repeat split; try assumption; try reflexivity.
    exists (timestamp x). auto. }
  assert (O' : splitOpen s a tr (setLastTimestamp vo (timestamp x))
                                (setLastTimestamp vn (timestamp x))).
  { unfold splitOpen. projections.
    repeat split; try assumption; try reflexivity.
    exists (timestamp x). auto. }
  unfold step. rewrite A1, A2, S1, S2. cbn [negb].
  destruct (is_afk x).
  - destruct (afk_type_is x "start").
    + right. apply splitClosed_set, splitClosed_set, C.
    + destruct (afk_type_is x "end"); left; [apply O; reflexivity | exact O'].
  - destruct (isProductiveActivity _ _ _ _).
    + left. exact O'.
    + right. apply splitClosed_set, C.
Qed.

Lemma splitOpen_fold (l : list Activity) (vo vn : Vars) :
  splitOpen s a tr vo vn ->
  Forall (fun x => tr <= timestamp x) l ->
  splitOpen s a tr (fold_left (step apps sites) l vo)
                   (fold_left (step apps sites) l vn) \/
  splitClosed s a tr (fold_left (step apps sites) l vo)
                     (fold_left (step apps sites) l vn).
Proof.
  revert vo vn; induction l as [|x l IH]; intros vo vn H HF; simpl.
  - left. exact H.
  - apply Forall_cons_iff in HF. destruct HF as [Hx HF].
    destruct (splitOpen_step vo vn x H Hx) as [O | C].
    + apply IH; assumption.
    + right. apply splitClosed_fold, C.
Qed.

(** The block after the loop closes a run that is still open. *)
Lemma split_closeOngoing (d : jsstring) (now : Z) (vo vn : Vars) :
  (d = toISODate now -> tr <= now) ->
  splitOpen s a tr vo vn \/ splitClosed s a tr vo vn ->
  splitLog s a tr (closeOngoing d now vo) (closeOngoing d now vn).
Proof.
  intros Hnow [H | H].
  - pose proof H as (A1 & A2 & S1 & S2 & L & (l & Ll & Hl) & R & T).
    unfold closeOngoing. rewrite A1, A2, S1, S2, L, Ll. cbn [negb].
    destruct (jseqb d (toISODate now)) eqn:E.
    + apply jseqb_eq in E. apply splitOpen_close; auto.
    + apply splitOpen_close; auto.
  - pose proof H as (HA & HS & HL & HG).
    unfold closeOngoing. rewrite HA, HS, HL.
    destruct (sessionStart vo) as [s0|]; [|exact HG].
    destruct (negb (isAfk vo)); [|exact HG].
    destruct (jseqb d (toISODate now)); [apply splitLog_push, HG|].
    destruct (lastTimestamp vo); [apply splitLog_push, HG | exact HG].
Qed.

End AfkSplit.

Lemma sorted_suffix (l1 l2 : list Activity) :
  StronglySorted byTimestamp (l1 ++ l2) -> StronglySorted byTimestamp l2.
Proof.
  induction l1 as [|a l1 IH]; simpl; intros H.
  - exact H.
  - apply StronglySorted_inv in H. apply IH, H.
Qed.

Lemma getActivityForDate_nonempty (db : WorkTrackerDB) (d : jsstring)
    (l1 l2 : list Activity) (x : Activity) (now : Z)
    (apps sites : list jsstring) :
  getActivityForDate db d = l1 ++ x :: l2 ->
  calculateWorkTimeForDate db now d apps sites
  = Some (reconstruct (l1 ++ x :: l2) d now apps sites).
Proof.
  intros H.
  assert (R : ready db = true).
  { apply (getActivityForDate_In db d x). rewrite H.
    apply in_or_app. right. left. reflexivity. }
  unfold calculateWorkTimeForDate. rewrite R, H. cbn [negb].
  destruct (l1 ++ x :: l2) eqn:E; [|reflexivity].
  destruct l1; discriminate.
Qed.

(** The three rows [AfkStart], [AfkEnd], productive sample, met while a
    session started at [s] is open. *)
Lemma step_afk_pair (apps sites : list jsstring) (v : Vars)
    (x y r : Activity) (s : Z) :
  isAfk v = false -> sessionStart v = Some s ->
  isAfkStart x -> isAfkEnd y -> productiveSample apps sites r ->
  s < timestamp x ->
  fold_left (step apps sites) [x; y; r] v =
  mkVars (total v + ((timestamp x - s) # 1000))%Q false
         (Some (timestamp r)) (Some (timestamp r))
         (recorded v ++ [session s (timestamp x)]).
Proof.
  intros HA HS [X1 X2] [Y1 Y2] [R1 R2] Hs.
  cbn [fold_left].
  assert (E1 : step apps sites v x =
               mkVars (total v + ((timestamp x - s) # 1000))%Q true
                      (Some (timestamp x)) None
                      (recorded v ++ [session s (timestamp x)])).
  { unfold step, afk_type_is. rewrite X1, X2, HS, HA.
    rewrite jseqb_refl. cbn [negb].
    rewrite pushSession_pos by exact Hs. reflexivity. }
  rewrite E1.
  unfold step at 2. unfold afk_type_is. rewrite Y1, Y2.
  replace (jseqb (str "end") (str "start")) with false by reflexivity.
  rewrite jseqb_refl.
  unfold step. rewrite R1, R2. reflexivity.
Qed.

(** C1 (amended): an [AfkStart]/[AfkEnd] pair inserted strictly inside a
    productive run closes the session at the [AfkStart]; the next session
    opens at the first productive sample after the [AfkEnd] and is recorded
    only if it has positive length; the total loses the time from the
    [AfkStart] to that sample (the AFK gap when the sample carries the
    timestamp of the [AfkEnd]). *)
Theorem afk_pair_splits_run
    (db db' : WorkTrackerDB) (now : Z) (d : jsstring)
    (apps sites : list jsstring)
    (l1 l2 : list Activity) (x y r : Activity) (s : Z) :
  getActivityForDate db d = l1 ++ r :: l2 ->
  getActivityForDate db' d = l1 ++ x :: y :: r :: l2 ->
  isAfkStart x -> isAfkEnd y ->
  sessionOpenAfter apps sites l1 s ->
  productiveSample apps sites r ->
  s < timestamp x ->
  (d = toISODate now -> timestamp r <= now) ->
  exists ro rn front rest e,
    calculateWorkTimeForDate db now d apps sites = Some ro /\
    calculateWorkTimeForDate db' now d apps sites = Some rn /\
    timestamp r <= e /\
    sessions ro = front ++ session s e :: rest /\
    sessions rn =
      front ++ session s (timestamp x)
            :: sessionIfPositive (timestamp r) e ++ rest /\
    (totalWorkSeconds rn
     == totalWorkSeconds ro - ((timestamp r - timestamp x) # 1000))%Q /\
    (timestamp r = timestamp y ->
     (totalWorkSeconds rn
      == totalWorkSeconds ro - ((timestamp y - timestamp x) # 1000))%Q).
Proof.
  intros HQ HQ' HX HY [HA HS] HR Hs Hnow.
  assert (Srt : StronglySorted byTimestamp (x :: y :: r :: l2)).
  { apply (sorted_suffix l1). rewrite <- HQ'.
    apply getActivityForDate_sorted. }
  assert (Hxr : timestamp x <= timestamp r).
  { apply StronglySorted_inv in Srt. destruct Srt as [_ F].
    rewrite Forall_forall in F. apply (F r). right. left. reflexivity. }
  assert (Hl2 : Forall (fun z => timestamp r <= timestamp z) l2).
  { apply (sorted_suffix [x; y]) in Srt.
    apply StronglySorted_inv in Srt. apply Srt. }
  rewrite (getActivityForDate_nonempty db d l1 l2 r now apps sites HQ).
  rewrite (getActivityForDate_nonempty db' d l1 (y :: r :: l2) x now
             apps sites HQ').
  set (v1 := fold_left (step apps sites) l1 initialVars) in *.
  set (vo := fold_left (step apps sites) [r] v1).
  set (vn := fold_left (step apps sites) [x; y; r] v1).
  assert (O : splitOpen s (timestamp x) (timestamp r) vo vn).
  { unfold vo, vn.
    rewrite (step_afk_pair apps sites v1 x y r s HA HS HX HY HR Hs).
    cbn [fold_left].
    rewrite (step_productive_open apps sites v1 r s HA HS HR).
    unfold splitOpen. projections.
    repeat split; try assumption; try reflexivity.
    exists (timestamp r). split; [reflexivity | lia]. }
  pose proof (splitOpen_fold apps sites s (timestamp x) (timestamp r)
                Hs Hxr l2 vo vn O Hl2) as F.
  pose proof (split_closeOngoing s (timestamp x) (timestamp r) Hs Hxr
                d now _ _ Hnow F) as (front & rest & e & He & Ro & Rn & HT).
  eexists; eexists. exists front, rest, e.
  split; [reflexivity|]. split; [reflexivity|]. split; [exact He|].
  unfold reconstruct. cbn [sessions totalWorkSeconds].
  replace (l1 ++ r :: l2) with (l1 ++ [r] ++ l2) by reflexivity.
  replace (l1 ++ x :: y :: r :: l2) with (l1 ++ [x; y; r] ++ l2)
    by reflexivity.
  rewrite !fold_left_app. fold v1. fold vo. fold vn.
  split; [exact Ro|]. split; [exact Rn|]. split; [exact HT|].
  intros <-. exact HT.
Qed.

(** The scenario evaluated on a later day: the second session would run
    from 11:00 to 11:00 and is not recorded; one session is left, and the
    total drops from 5400 s to 1800 s. *)
Lemma afk_scenario_past_day :
  calculateWorkTimeForDate (dbOf scenarioPlain) (at_ 36 0) (str "2024-03-15")
                           [str "VSCode"] []
  = Some (mkWorkTime (0 + (5400000 # 1000))
                     [session (at_ 9 30) (at_ 11 0)] 1) /\
  calculateWorkTimeForDate (dbOf scenarioAfk) (at_ 36 0) (str "2024-03-15")
                           [str "VSCode"] []
  = Some (mkWorkTime (0 + (1800000 # 1000))
                     [session (at_ 9 30) (at_ 10 0)] 1).
Proof. split; vm_compute; reflexivity. Qed.

(** The scenario evaluated the same day at 12:00: two sessions,
    09:30-10:00 and 11:00-12:00. *)
Lemma afk_scenario_same_day :
  calculateWorkTimeForDate (dbOf scenarioPlain) (at_ 12 0) (str "2024-03-15")
                           [str "VSCode"] []
  = Some (mkWorkTime (0 + (9000000 # 1000))
                     [session (at_ 9 30) (at_ 12 0)] 1) /\
  calculateWorkTimeForDate (dbOf scenarioAfk) (at_ 12 0) (str "2024-03-15")
                           [str "VSCode"] []
  = Some (mkWorkTime (0 + (1800000 # 1000) + (3600000 # 1000))
                     [session (at_ 9 30) (at_ 10 0);
                      session (at_ 11 0) (at_ 12 0)] 2).
Proof. split; vm_compute; reflexivity. Qed.

(** C1, as the specification words it, fails on its own scenario: evaluated
    the same day at 12:00 the two sessions last 1800 s and 3600 s, the
    original session 9000 s, and the AFK gap is 1800 s; 60 minutes are
    excluded, not 30. *)
Lemma afk_split_as_specified_fails : ~ afk_split_as_specified.
Proof.
  intros H.
  destruct (H (dbOf scenarioPlain) (dbOf scenarioAfk) (at_ 12 0)
              (str "2024-03-15") [str "VSCode"] []
              [sample (at_ 9 30) "VSCode" "test.js"] []
              (afkStart (at_ 10 0)) (afkEnd (at_ 10 30))
              (sample (at_ 11 0) "VSCode" "test.js") (at_ 9 30))
    as (ro & rn & front & rest & so & s1 & s2 & Ho & Hn & So & Sn & D).
  - vm_compute. reflexivity.
  - vm_compute. reflexivity.
  - split; reflexivity.
  - split; reflexivity.
  - split; reflexivity.
  - split; reflexivity.
  - vm_compute. reflexivity.
  - intros _. vm_compute. discriminate.
  - destruct afk_scenario_same_day as [Eo En].
    rewrite Eo in Ho. rewrite En in Hn.
    injection Ho as <-. injection Hn as <-.
    cbn [sessions] in So, Sn.
    destruct front as [|f front].
    + cbn [app] in So, Sn.
      injection So as <- _. injection Sn as <- <- _.
      vm_compute in D. discriminate D.
    + cbn [app] in So. injection So as _ So.
      destruct front; discriminate So.
Qed.

(** The scenario on a later day: 3600 s are lost, from the [AfkStart] at
    10:00 to the sample at 11:00. *)
Lemma afk_pair_splits_run_witness :
  exists ro rn,
    calculateWorkTimeForDate (dbOf scenarioPlain) (at_ 36 0)
      (str "2024-03-15") [str "VSCode"] [] = Some ro /\
    calculateWorkTimeForDate (dbOf scenarioAfk) (at_ 36 0)
      (str "2024-03-15") [str "VSCode"] [] = Some rn /\
    (totalWorkSeconds rn == totalWorkSeconds ro - 3600)%Q.
Proof.
  destruct (afk_pair_splits_run
              (dbOf scenarioPlain) (dbOf scenarioAfk) (at_ 36 0)
              (str "2024-03-15") [str "VSCode"] []
              [sample (at_ 9 30) "VSCode" "test.js"] []
              (afkStart (at_ 10 0)) (afkEnd (at_ 10 30))
              (sample (at_ 11 0) "VSCode" "test.js") (at_ 9 30))
    as (ro & rn & front & rest & e & Ho & Hn & _ & _ & _ & T & _).
  - vm_compute. reflexivity.
  - vm_compute. reflexivity.
  - split; reflexivity.
  - split; reflexivity.
  - split; reflexivity.
  - split; reflexivity.
  - vm_compute. reflexivity.
  - intros E. vm_compute in E. discriminate E.
  - exists ro, rn. split; [exact Ho|]. split; [exact Hn|].
    rewrite T. apply Qplus_comp; [reflexivity|].
    vm_compute. reflexivity.
Defined.

(* ----------------------------------------------------------------- *)
(** ** The daily analysis *)

(** C5: for a date without rows the database layer returns [null], and the
    analysis answers with the zero-filled result: total 0, no session. *)
Theorem analyzeWorkTime_empty_day
    (db : WorkTrackerDB) (cfg : Config) (now : Z)
    (targetDate : option jsstring) :
  let date := if truthy targetDate then orEmpty targetDate
              else toISODate now in
  getActivityForDate db date = [] ->
  calculateWorkTimeForDate db now date
    (productiveApps cfg) (productiveWebsites cfg) = None /\
  WorkTrackerJs.analyzeWorkTime db cfg now targetDate
    = WorkTrackerJs.createEmptyResult date /\
  WorkTrackerJs.totalSeconds
    (WorkTrackerJs.totalWorkTime
       (WorkTrackerJs.analyzeWorkTime db cfg now targetDate)) = 0%Q /\
  WorkTrackerJs.sessionsCount
    (WorkTrackerJs.analyzeWorkTime db cfg now targetDate) = 0%nat /\
  WorkTrackerJs.sessions
    (WorkTrackerJs.analyzeWorkTime db cfg now targetDate) = [].
Proof.
  intros date H.
  assert (N : calculateWorkTimeForDate db now date
                (productiveApps cfg) (productiveWebsites cfg) = None).
  { unfold calculateWorkTimeForDate. rewrite H.
    destruct (negb (ready db)); reflexivity. }
  assert (E : WorkTrackerJs.analyzeWorkTime db cfg now targetDate
              = WorkTrackerJs.createEmptyResult date).
  { unfold WorkTrackerJs.analyzeWorkTime. fold date.
    unfold WorkTrackerJs.getProductiveApps, WorkTrackerJs.getProductiveWebsites.
    rewrite N.
    destruct (negb (isAvailable db)); [reflexivity|].
    destruct (negb (initialized db) && negb (init db)); reflexivity. }
  rewrite E. repeat split; assumption.
Qed.

(** A database whose log holds rows of another day only. *)
Lemma analyzeWorkTime_empty_day_witness :
  WorkTrackerJs.analyzeWorkTime
    (dbOf [sample 1577869200000 "VSCode" "test.js"])
    (mkConfig [str "VSCode"] [] 480 []) (at_ 12 0)
    (Some (str "2024-01-15"))
  = WorkTrackerJs.createEmptyResult (str "2024-01-15").
Proof.
  apply (analyzeWorkTime_empty_day
           (dbOf [sample 1577869200000 "VSCode" "test.js"])
           (mkConfig [str "VSCode"] [] 480 []) (at_ 12 0)
           (Some (str "2024-01-15"))).
  vm_compute. reflexivity.
Defined.

(** A day with rows, for comparison: one hour and a half of editor work. *)
Lemma analyzeWorkTime_example :
  WorkTrackerJs.formattedWorkTime
    (WorkTrackerJs.analyzeWorkTime (dbOf scenarioPlain)
       (mkConfig [str "VSCode"] [] 480 []) (at_ 36 0)
       (Some (str "2024-03-15")))
  = str "01:30:00".
Proof. vm_compute. reflexivity. Qed.

(* ----------------------------------------------------------------- *)
(** ** Daily summaries: the upsert *)

Lemma upsert_In_dates (rows : list DailySummary) (e : DailySummary) (d : jsstring) :
  In d (map date (upsert rows e)) <-> In d (map date rows) \/ d = date e.
Proof.
  induction rows as [|row rows IH]; simpl.
  - intuition congruence.
  - destruct (jseqb (date row) (date e)) eqn:E; simpl.
    + apply jseqb_eq in E. intuition congruence.
    + rewrite IH. tauto.
Qed.

Lemma upsert_NoDup (rows : list DailySummary) (e : DailySummary) :
  NoDup (map date rows) -> NoDup (map date (upsert rows e)).
Proof.
  induction rows as [|row rows IH]; simpl; intros H.
  - constructor; [intros [] | constructor].
  - inversion H as [|? ? Hn Hd]; subst.
    destruct (jseqb (date row) (date e)) eqn:E; simpl.
    + constructor; assumption.
    + apply jseqb_neq in E. constructor; [|apply IH, Hd].
      rewrite upsert_In_dates. intros [C | C]; [contradiction | congruence].
Qed.

Lemma find_absent (rows : list DailySummary) (d : jsstring) :
  ~ In d (map date rows) ->
  find (fun row => jseqb (date row) d) rows = None.
Proof.
  induction rows as [|row rows IH]; simpl; intros H; [reflexivity|].
  destruct (jseqb (date row) d) eqn:E.
  - apply jseqb_eq in E. exfalso. apply H. left. exact E.
  - apply IH. intros C. apply H. right. exact C.
Qed.

Lemma filter_absent (rows : list DailySummary) (d : jsstring) :
  ~ In d (map date rows) ->
  filter (fun row => jseqb (date row) d) rows = [].
Proof.
  induction rows as [|row rows IH]; simpl; intros H; [reflexivity|].
  destruct (jseqb (date row) d) eqn:E.
  - apply jseqb_eq in E. exfalso. apply H. left. exact E.
  - apply IH. intros C. apply H. right. exact C.
Qed.

(** The row of the written date after the upsert. *)
Lemma find_upsert_same (rows : list DailySummary) (e : DailySummary) :
  find (fun row => jseqb (date row) (date e)) (upsert rows e) =
  Some (mkDailySummary (date e) (total_work_seconds e) (goal_seconds e)
          (sessions_count e)
          (match find (fun row => jseqb (date row) (date e)) rows with
           | Some old => coalesce (productive_seconds e) (productive_seconds old)
           | None => productive_seconds e
           end)
          (match find (fun row => jseqb (date row) (date e)) rows with
           | Some old => coalesce (projects_json e) (projects_json old)
           | None => projects_json e
           end)).
Proof.
  induction rows as [|row rows IH]; simpl.
  - rewrite jseqb_refl. destruct e; reflexivity.
  - destruct (jseqb (date row) (date e)) eqn:E; simpl.
    + rewrite E. apply jseqb_eq in E. rewrite E. reflexivity.
    + rewrite E. exact IH.
Qed.

(** Rows of other dates are untouched. *)
Lemma find_upsert_other (rows : list DailySummary) (e : DailySummary)
    (d : jsstring) :
  d <> date e ->
  find (fun row => jseqb (date row) d) (upsert rows e) =
  find (fun row => jseqb (date row) d) rows.
Proof.
  intros H. induction rows as [|row rows IH]; simpl.
  - assert (E : jseqb (date e) d = false) by (apply jseqb_neq; congruence).
    rewrite E. reflexivity.
  - destruct (jseqb (date row) (date e)) eqn:E; simpl.
    + apply jseqb_eq in E.
      assert (E' : jseqb (date row) d = false) by (apply jseqb_neq; congruence).
      rewrite E'. reflexivity.
    + destruct (jseqb (date row) d); [reflexivity | exact IH].
Qed.

Lemma filter_upsert_same (rows : list DailySummary) (e : DailySummary) :
  NoDup (map date rows) ->
  length (filter (fun row => jseqb (date row) (date e)) (upsert rows e)) = 1%nat.
Proof.
  induction rows as [|row rows IH]; simpl; intros H.
  - rewrite jseqb_refl. reflexivity.
  - inversion H as [|? ? Hn Hd]; subst.
    destruct (jseqb (date row) (date e)) eqn:E; simpl.
    + rewrite E. apply jseqb_eq in E. rewrite <- E.
      rewrite filter_absent by exact Hn. reflexivity.
    + rewrite E. apply IH, Hd.
Qed.

(** C9: writing a summary keeps one row per date, overwrites the total, the
    goal and the session count of that date, keeps the stored
    [productive_seconds] and [projects_json] when the write passes [null]
    for them, and leaves the rows of other dates as they were. *)
Theorem updateDailySummary_merge
    (db : WorkTrackerDB) (d : jsstring)
    (totalWorkSeconds goalSeconds sessionsCount productiveSeconds : option Q)
    (projectsJson : option jsstring) :
  ready db = true -> uniqueDates db ->
  let res := updateDailySummary db d totalWorkSeconds goalSeconds
               sessionsCount productiveSeconds projectsJson in
  let db' := snd res in
  fst res = true /\
  uniqueDates db' /\
  length (filter (fun row => jseqb (date row) d) (daily_summary db')) = 1%nat /\
  (exists row,
     getDailySummary db' d = Some row /\
     total_work_seconds row = totalWorkSeconds /\
     goal_seconds row = goalSeconds /\
     sessions_count row = sessionsCount /\
     (forall old, getDailySummary db d = Some old ->
        productive_seconds row
          = coalesce productiveSeconds (productive_seconds old) /\
        projects_json row = coalesce projectsJson (projects_json old) /\
        (productiveSeconds = None ->
         productive_seconds row = productive_seconds old) /\
        (projectsJson = None -> projects_json row = projects_json old)) /\
     (getDailySummary db d = None ->
        productive_seconds row = productiveSeconds /\
        projects_json row = projectsJson)) /\
  (forall d', d' <> d -> getDailySummary db' d' = getDailySummary db d').
Proof.
  intros R U. unfold updateDailySummary. rewrite R. cbn [negb fst snd].
  set (e := mkDailySummary d totalWorkSeconds goalSeconds sessionsCount
              productiveSeconds projectsJson).
  split; [reflexivity|]. split; [apply upsert_NoDup, U|].
  split; [apply (filter_upsert_same (daily_summary db) e), U|].
  unfold getDailySummary. rewrite R.
  assert (R' : forall rows,
             ready (mkDB (Database db) true (init_ok db) (activity_log db) rows)
             = true) by reflexivity.
  rewrite !R'. cbn [negb daily_summary]. split.
  - pose proof (find_upsert_same (daily_summary db) e) as F.
    cbn [date total_work_seconds goal_seconds sessions_count
         productive_seconds projects_json e] in F.
    eexists. split; [exact F|]. cbn.
    repeat split.
    + destruct (find _ (daily_summary db)); congruence.
    + destruct (find _ (daily_summary db)); congruence.
    + intros ->. destruct (find _ (daily_summary db)); [|discriminate].
      injection H as ->. reflexivity.
    + intros ->. destruct (find _ (daily_summary db)); [|discriminate].
      injection H as ->. reflexivity.
    + rewrite H. reflexivity.
    + rewrite H. reflexivity.
  - intros d' Hd. apply (find_upsert_other (daily_summary db) e d' Hd).
Qed.

(** A recomputation of a day that carries enrichment fields. *)
Lemma updateDailySummary_merge_witness :
  getDailySummary
    (snd (updateDailySummary
            (mkDB true true true []
               [mkDailySummary (str "2024-01-15") (Some 14400%Q)
                  (Some 28800%Q) (Some 2%Q) (Some 12000%Q) (Some (str "{}"))])
            (str "2024-01-15") (Some 28800%Q) (Some 28800%Q) (Some 5%Q)
            None None))
    (str "2024-01-15")
  = Some (mkDailySummary (str "2024-01-15") (Some 28800%Q) (Some 28800%Q)
            (Some 5%Q) (Some 12000%Q) (Some (str "{}"))).
Proof.
  destruct (updateDailySummary_merge
              (mkDB true true true []
                 [mkDailySummary (str "2024-01-15") (Some 14400%Q)
                    (Some 28800%Q) (Some 2%Q) (Some 12000%Q)
                    (Some (str "{}"))])
              (str "2024-01-15") (Some 28800%Q) (Some 28800%Q) (Some 5%Q)
              None None)
    as (_ & _ & _ & (row & Hrow & _) & _).
  - reflexivity.
  - unfold uniqueDates. cbn [daily_summary map].
    constructor; [intros [] | constructor].
  - rewrite Hrow. vm_compute in Hrow. injection Hrow as <-. reflexivity.
Defined.

(* ----------------------------------------------------------------- *)
(** ** The streak *)

Lemma streakLoop_unfold (fuel : nat) (db : WorkTrackerDB) (g : Q)
    (streak date : Z) :
  streakLoop (S fuel) db g streak date =
  if goalReached db g date then
    if 365 <? streak + 1 then Some (streak + 1)
    else streakLoop fuel db g (streak + 1) (date - msPerDay)
  else Some streak.
Proof.
  unfold goalReached. cbn [streakLoop].
  destruct (getDailySummary db (toISODate date)); reflexivity.
Qed.

(** The loop ends within [366 - streak] iterations. *)
Lemma streakLoop_terminates (fuel : nat) (db : WorkTrackerDB) (g : Q)
    (streak date : Z) :
  366 - streak <= Z.of_nat fuel -> streak <= 365 ->
  exists r, streakLoop fuel db g streak date = Some r.
Proof.
  revert streak date; induction fuel as [|fuel IH]; intros streak date Hf Hs.
  - change (Z.of_nat 0) with 0 in Hf. lia.
  - rewrite streakLoop_unfold.
    destruct (goalReached db g date); [|eauto].
    destruct (Z.ltb_spec 365 (streak + 1)); [eauto|].
    apply IH; lia.
Qed.

(** What the loop returns: the days counted all pass the test, the count
    stops at the first day that fails it, and it stops at 366. *)
Lemma streakLoop_counts (fuel : nat) (db : WorkTrackerDB) (g : Q)
    (streak date r : Z) :
  streakLoop fuel db g streak date = Some r -> streak <= 365 ->
  streak <= r <= 366 /\
  (forall k, 0 <= k < r - streak ->
     goalReached db g (date - k * msPerDay) = true) /\
  (r < 366 -> goalReached db g (date - (r - streak) * msPerDay) = false).
Proof.
  revert streak date; induction fuel as [|fuel IH]; intros streak date H Hs.
  - discriminate H.
  - rewrite streakLoop_unfold in H.
    destruct (goalReached db g date) eqn:G.
    + destruct (Z.ltb_spec 365 (streak + 1)) as [L | L].
      * injection H as <-. split; [lia|]. split; [|lia].
        intros k Hk. replace k with 0 by lia.
        rewrite Z.mul_0_l, Z.sub_0_r. exact G.
      * destruct (IH _ _ H ltac:(lia)) as (B & C & D).
        split; [lia|]. split.
        -- intros k Hk. destruct (Z.eq_dec k 0) as [-> | Nk].
           ++ rewrite Z.mul_0_l, Z.sub_0_r. exact G.
           ++ replace (date - k * msPerDay)
                with (date - msPerDay - (k - 1) * msPerDay) by ring.
              apply C. lia.
        -- intros Hr.
           replace (date - (r - streak) * msPerDay)
             with (date - msPerDay - (r - (streak + 1)) * msPerDay) by ring.
           apply D, Hr.
    + injection H as <-. split; [lia|]. split; [intros k Hk; lia|].
      intros _. rewrite Z.sub_diag, Z.mul_0_l, Z.sub_0_r. exact G.
Qed.

(** The streak is always computed (367 iterations suffice), it counts the
    consecutive days, back from the day of [now], whose stored total
    reaches the current goal, and it is at most 366. *)
Lemma calculateStreak_counts (db : WorkTrackerDB) (cfg : Config) (now : Z) :
  isAvailable db = true -> initialized db = true ->
  let g := (dailyGoalMinutes cfg * 60)%Q in
  let r := calculateStreak db cfg now in
  streakLoop 367 db g 0 now = Some r /\
  0 <= r <= 366 /\
  (forall k, 0 <= k < r -> goalReached db g (now - k * msPerDay) = true) /\
  (r < 366 -> goalReached db g (now - r * msPerDay) = false).
Proof.
  intros A I g r. unfold r, calculateStreak. rewrite A, I. cbn [negb orb].
  fold g.
  destruct (streakLoop_terminates 367 db g 0 now) as [r0 E];
    [change (Z.of_nat 367) with 367; lia | lia |].
  rewrite E. split; [reflexivity|].
  destruct (streakLoop_counts 367 db g 0 now r0 E ltac:(lia)) as (B & C & D).
  rewrite Z.sub_0_r in C, D. auto.
Qed.

(** C8, at the failing input: with a summary that reaches the goal stored
    for each of the 366 days ending today, the loop leaves at
    [streak > 365] only after the 366th day, and the streak returned
    is 366. *)
Theorem calculateStreak_366 :
  calculateStreak (summariesBack 366 (at_ 12 0) 28800 28800)
                  (mkConfig [] [] 480 []) (at_ 12 0) = 366.
Proof. vm_compute. reflexivity. Qed.

Lemma getDailySummary_withGoalSnapshots
    (f : DailySummary -> option Q) (db : WorkTrackerDB) (d : jsstring) :
  option_map total_work_seconds (getDailySummary (withGoalSnapshots f db) d)
  = option_map total_work_seconds (getDailySummary db d).
Proof.
  unfold getDailySummary, withGoalSnapshots.
  change (ready (mkDB (Database db) (initialized db) (init_ok db)
                      (activity_log db) _)) with (ready db).
  destruct (negb (ready db)); [reflexivity|]. cbn [daily_summary].
  induction (daily_summary db) as [|row rows IH]; [reflexivity|].
  cbn [map find date]. destruct (jseqb (date row) d); [reflexivity | exact IH].
Qed.

Lemma goalReached_withGoalSnapshots
    (f : DailySummary -> option Q) (db : WorkTrackerDB) (g : Q) (t : Z) :
  goalReached (withGoalSnapshots f db) g t = goalReached db g t.
Proof.
  unfold goalReached.
  pose proof (getDailySummary_withGoalSnapshots f db (toISODate t)) as H.
  destruct (getDailySummary (withGoalSnapshots f db) (toISODate t));
    destruct (getDailySummary db (toISODate t));
    simpl in H; try discriminate; [|reflexivity].
  injection H as ->. reflexivity.
Qed.

Lemma streakLoop_withGoalSnapshots (f : DailySummary -> option Q)
    (fuel : nat) (db : WorkTrackerDB) (g : Q) (streak date : Z) :
  streakLoop fuel (withGoalSnapshots f db) g streak date
  = streakLoop fuel db g streak date.
Proof.
  revert streak date; induction fuel as [|fuel IH]; intros streak date.
  - reflexivity.
  - rewrite !streakLoop_unfold, goalReached_withGoalSnapshots, IH.
    reflexivity.
Qed.

(** The same loop in the time zone of the system, where the day before is
    what [setDate(getDate() - 1)] gives. *)
Lemma zoned_streakLoop_unfold (zone : SystemZone) (fuel : nat)
    (db : WorkTrackerDB) (g : Q) (streak date : Z) :
  InZone.streakLoop zone (S fuel) db g streak date =
  if goalReached db g date then
    if 365 <? streak + 1 then Some (streak + 1)
    else InZone.streakLoop zone fuel db g (streak + 1)
           (setDate_previous zone date)
  else Some streak.
Proof.
  unfold goalReached. cbn [InZone.streakLoop].
  destruct (getDailySummary db (toISODate date)); reflexivity.
Qed.

Lemma zoned_streakLoop_terminates (zone : SystemZone) (fuel : nat)
    (db : WorkTrackerDB) (g : Q) (streak date : Z) :
  366 - streak <= Z.of_nat fuel -> streak <= 365 ->
  exists r, InZone.streakLoop zone fuel db g streak date = Some r.
Proof.
  revert streak date; induction fuel as [|fuel IH]; intros streak date Hf Hs.
  - change (Z.of_nat 0) with 0 in Hf. lia.
  - rewrite zoned_streakLoop_unfold.
    destruct (goalReached db g date); [|eauto].
    destruct (Z.ltb_spec 365 (streak + 1)); [eauto|].
    apply IH; lia.
Qed.

(** What the loop returns, in every zone: each of the days it has counted
    passes the test against [g], the day at which it stops below the limit
    fails it, and it stops at 366. *)
Lemma zoned_streakLoop_counts (zone : SystemZone) (fuel : nat)
    (db : WorkTrackerDB) (g : Q) (streak date r : Z) :
  InZone.streakLoop zone fuel db g streak date = Some r -> streak <= 365 ->
  streak <= r <= 366 /\
  (forall k : nat, Z.of_nat k < r - streak ->
     goalReached db g (dayAsked zone date k) = true) /\
  (r < 366 ->
   goalReached db g (dayAsked zone date (Z.to_nat (r - streak))) = false).
Proof.
  revert streak date; induction fuel as [|fuel IH]; intros streak date H Hs.
  - discriminate H.
  - rewrite zoned_streakLoop_unfold in H.
    destruct (goalReached db g date) eqn:G.
    + destruct (Z.ltb_spec 365 (streak + 1)) as [L | L].
      * injection H as <-. split; [lia|]. split; [|lia].
        intros k Hk. replace k with 0%nat by lia. exact G.
      * destruct (IH _ _ H ltac:(lia)) as (B & C & D).
        split; [lia|]. split.
        -- intros [|k] Hk; [exact G|]. cbn [dayAsked]. apply C. lia.
        -- intros Hr.
           replace (Z.to_nat (r - streak))
             with (S (Z.to_nat (r - (streak + 1)))) by lia.
           cbn [dayAsked]. apply D, Hr.
    + injection H as <-. split; [lia|]. split; [intros k Hk; lia|].
      intros _. rewrite Z.sub_diag. exact G.
Qed.

Lemma zoned_calculateStreak_counts (zone : SystemZone)
    (db : WorkTrackerDB) (cfg : Config) (now : Z) :
  isAvailable db = true -> initialized db = true ->
  let g := (dailyGoalMinutes cfg * 60)%Q in
  let r := InZone.calculateStreak zone db cfg now in
  InZone.streakLoop zone 367 db g 0 now = Some r /\
  0 <= r <= 366 /\
  (forall k : nat, Z.of_nat k < r ->
     goalReached db g (dayAsked zone now k) = true) /\
  (r < 366 -> goalReached db g (dayAsked zone now (Z.to_nat r)) = false).
Proof.
  intros A I g r. unfold r, InZone.calculateStreak. rewrite A, I.
  cbn [negb orb]. fold g.
  destruct (zoned_streakLoop_terminates zone 367 db g 0 now) as [r0 E];
    [change (Z.of_nat 367) with 367; lia | lia |].
  rewrite E. split; [reflexivity|].
  destruct (zoned_streakLoop_counts zone 367 db g 0 now r0 E ltac:(lia))
    as (B & C & D).
  rewrite Z.sub_0_r in C, D. auto.
Qed.

Lemma zoned_streakLoop_withGoalSnapshots (zone : SystemZone)
    (f : DailySummary -> option Q)
    (fuel : nat) (db : WorkTrackerDB) (g : Q) (streak date : Z) :
  InZone.streakLoop zone fuel (withGoalSnapshots f db) g streak date
  = InZone.streakLoop zone fuel db g streak date.
Proof.
  revert streak date; induction fuel as [|fuel IH]; intros streak date.
  - reflexivity.
  - rewrite !zoned_streakLoop_unfold, goalReached_withGoalSnapshots, IH.
    reflexivity.
Qed.

(** C10: in every time zone, the streak does not read the stored
    [goal_seconds] (rewriting the snapshots leaves it unchanged); each of
    the days that the streak counts, today and every past day asked, has
    a stored total that reaches [dailyGoalMinutes * 60] of the
    configuration in force, and the day at which the count stops below
    the limit has none; and lowering the goal from 480 to 240 minutes
    turns three stored days of 14400 s, computed against a goal of
    28800 s, from a streak of 0 into a streak of 3. *)
Theorem calculateStreak_current_goal :
  (forall zone (f : DailySummary -> option Q) db cfg now,
     InZone.calculateStreak zone (withGoalSnapshots f db) cfg now
     = InZone.calculateStreak zone db cfg now) /\
  (forall zone db cfg now,
     isAvailable db = true -> initialized db = true ->
     let goalSeconds := (dailyGoalMinutes cfg * 60)%Q in
     let streak := InZone.calculateStreak zone db cfg now in
     0 <= streak <= 366 /\
     (forall k : nat, Z.of_nat k < streak ->
        exists summary,
          getDailySummary db (toISODate (dayAsked zone now k)) = Some summary /\
          (goalSeconds <= orZero (total_work_seconds summary))%Q) /\
     (streak < 366 ->
      forall summary,
        getDailySummary db (toISODate (dayAsked zone now (Z.to_nat streak)))
        = Some summary ->
        ~ (goalSeconds <= orZero (total_work_seconds summary))%Q)) /\
  (InZone.calculateStreak (fixedOffsetZone 0)
     (summariesBack 3 (at_ 12 0) 14400 28800)
     (mkConfig [] [] 480 []) (at_ 12 0) = 0 /\
   InZone.calculateStreak (fixedOffsetZone 0)
     (summariesBack 3 (at_ 12 0) 14400 28800)
     (mkConfig [] [] 240 []) (at_ 12 0) = 3).
Proof.
  split; [|split].
  - intros zone f db cfg now. unfold InZone.calculateStreak.
    rewrite zoned_streakLoop_withGoalSnapshots. reflexivity.
  - intros zone db cfg now A I.
    destruct (zoned_calculateStreak_counts zone db cfg now A I)
      as (_ & B & C & D).
    cbv zeta in *. split; [exact B|]. split.
    + intros k Hk. specialize (C k Hk). unfold goalReached in C.
      destruct (getDailySummary db (toISODate (dayAsked zone now k)))
        as [summary|]; [|discriminate].
      exists summary. split; [reflexivity|]. apply Qle_bool_iff, C.
    + intros Hs summary E H. specialize (D Hs). unfold goalReached in D.
      rewrite E in D. apply Qle_bool_iff in H. congruence.
  - split; vm_compute; reflexivity.
Qed.

(** Three stored days of 14400 s against a goal of 240 minutes, in the
    zone of UTC: the day asked in the third round, two days back, is
    counted with its total against the goal in force. *)
Lemma calculateStreak_current_goal_witness :
  exists summary,
    getDailySummary (summariesBack 3 (at_ 12 0) 14400 28800)
      (toISODate (dayAsked (fixedOffsetZone 0) (at_ 12 0) 2)) = Some summary /\
    (dailyGoalMinutes (mkConfig [] [] 240 []) * 60
     <= orZero (total_work_seconds summary))%Q.
Proof.
  destruct calculateStreak_current_goal as (_ & H & _).
  destruct (H (fixedOffsetZone 0) (summariesBack 3 (at_ 12 0) 14400 28800)
              (mkConfig [] [] 240 []) (at_ 12 0) eq_refl eq_refl)
    as (_ & C & _).
  apply (C 2%nat). vm_compute. reflexivity.
Defined.

(* ----------------------------------------------------------------- *)
(** ** The hourly histogram *)

Lemma addTimeLoop_done (n : nat) (tz : Z) (hm : list Z) (c e : Z) :
  e <= c -> addTimeLoop n tz hm c e = hm.
Proof.
  intros H. destruct n; [reflexivity|]. cbn [addTimeLoop].
  destruct (Z.ltb_spec c e); [lia | reflexivity].
Qed.

Lemma next_hour (tz c : Z) :
  (endOfHourOf tz c + 1 + tz) / msPerHour = (c + tz) / msPerHour + 1.
Proof.
  unfold endOfHourOf, msPerHour.
  replace ((c + tz) / 3600000 * 3600000 + 3599999 - tz + 1 + tz)
    with (((c + tz) / 3600000 + 1) * 3600000) by ring.
  apply Z.div_mul. discriminate.
Qed.

(** The loop has left [while (current < end)] once it has made
    [hoursTouched] iterations: more fuel changes nothing. *)
Lemma addTimeLoop_fuel (n m : nat) (tz : Z) (hm : list Z) (c e : Z) :
  (hoursTouched tz c e <= n)%nat -> (hoursTouched tz c e <= m)%nat ->
  addTimeLoop n tz hm c e = addTimeLoop m tz hm c e.
Proof.
  revert m hm c; induction n as [|n IH]; intros m hm c Hn Hm.
  - destruct (Z.lt_ge_cases c e) as [L | L].
    + exfalso. unfold hoursTouched in Hn.
      assert ((c + tz) / msPerHour <= (e - 1 + tz) / msPerHour)
        by (apply Z.div_le_mono; [reflexivity | lia]).
      lia.
    + rewrite !addTimeLoop_done by exact L. reflexivity.
  - destruct (Z.lt_ge_cases c e) as [L | L].
    + assert (D : (c + tz) / msPerHour <= (e - 1 + tz) / msPerHour)
        by (apply Z.div_le_mono; [reflexivity | lia]).
      assert (N : hoursTouched tz c e
                  = S (hoursTouched tz (endOfHourOf tz c + 1) e)).
      { unfold hoursTouched. rewrite next_hour. lia. }
      destruct m as [|m]; [lia|].
      cbn [addTimeLoop]. destruct (Z.ltb_spec c e); [|lia].
      apply IH; lia.
    + rewrite !addTimeLoop_done by exact L. reflexivity.
Qed.

Lemma addTimeToHours_empty (tz : Z) (hm : list Z) (s e : Z) :
  e <= s -> addTimeToHours tz hm s e = hm.
Proof. intros H. apply addTimeLoop_done, H. Qed.

Lemma histogram_pushSession (tz : Z) (v : Vars) (s e : Z) :
  histogramOfSessions tz (recorded (pushSession v s e))
  = addTimeToHours tz (histogramOfSessions tz (recorded v)) s e.
Proof.
  rewrite recorded_pushSession. unfold histogramOfSessions, sessionIfPositive.
  destruct (Z.ltb_spec s e) as [H | H].
  - rewrite fold_left_app. reflexivity.
  - rewrite app_nil_r, addTimeToHours_empty by exact H. reflexivity.
Qed.

Ltac hourly :=
  unfold hourlySim;
  cbn [isAfk lastTimestamp sessionStart recorded total
       setSessionStart setIsAfk setLastTimestamp
       hourlyMinutes hIsAfk hSessionStart];
  rewrite ?isAfk_pushSession, ?sessionStart_pushSession,
          ?histogram_pushSession.

(** The handler's loop follows the loop of the reconstruction. *)
Lemma hourlySim_step (tz : Z) (apps sites : list jsstring)
    (v : Vars) (h : HourlyVars) (x : Activity) :
  hourlySim tz v h ->
  hourlySim tz (step apps sites v x) (hourlyStep tz apps sites h x).
Proof.
  intros (Hm & Ha & Hs & Inv).
  assert (H0 : hourlySim tz v h) by (repeat split; assumption).
  unfold step, hourlyStep. rewrite Hm, Ha, Hs.
  destruct (is_afk x).
  - destruct (afk_type_is x "start").
    + destruct (sessionStart v) as [s|] eqn:S.
      * destruct (isAfk v) eqn:A; [specialize (Inv eq_refl); discriminate|].
        cbn [negb]. hourly. repeat split.
      * hourly. rewrite S. repeat split.
    + destruct (afk_type_is x "end").
      * hourly. repeat split; try assumption; try discriminate.
      * hourly. repeat split; assumption.
  - destruct (isAfk v) eqn:A; [exact H0|].
    destruct (isProductiveActivity _ _ _ _).
    + destruct (sessionStart v) as [s|] eqn:S.
      * hourly. rewrite A, S. repeat split; try assumption; try discriminate.
      * hourly. rewrite A. repeat split; try assumption; try discriminate.
    + destruct (sessionStart v) as [s|] eqn:S.
      * hourly. rewrite A. repeat split; try assumption; try discriminate.
      * hourly. rewrite A, S. repeat split; try assumption; try discriminate.
Qed.

Lemma hourlySim_fold (tz : Z) (apps sites : list jsstring)
    (l : list Activity) (v : Vars) (h : HourlyVars) :
  hourlySim tz v h ->
  hourlySim tz (fold_left (step apps sites) l v)
               (fold_left (hourlyStep tz apps sites) l h).
Proof.
  revert v h; induction l as [|x l IH]; intros v h H; simpl.
  - exact H.
  - apply IH, hourlySim_step, H.
Qed.

(** For the current date the event walk yields the histogram of the
    reconstructed sessions. *)
Lemma getHourlyStats_today
    (db : WorkTrackerDB) (cfg : Config) (tz now : Z) (d : jsstring)
    (r : WorkTime) :
  isAvailable db = true -> initialized db = true ->
  d = toISODate now ->
  calculateWorkTimeForDate db now d
    (productiveApps cfg) (productiveWebsites cfg) = Some r ->
  getHourlyStats db cfg tz now d = histogramOfSessions tz (sessions r).
Proof.
  intros A I E. unfold calculateWorkTimeForDate, getHourlyStats.
  rewrite A, I. cbn [negb orb].
  destruct (negb (ready db)); [discriminate|].
  destruct (length (getActivityForDate db d) =? 0)%nat; [discriminate|].
  intros R. injection R as <-. unfold reconstruct. cbn [sessions].
  assert (S0 : hourlySim tz initialVars
                 (mkHourlyVars (List.repeat 0 24) false None)).
  { unfold hourlySim. repeat split; try discriminate. }
  pose proof (hourlySim_fold tz (productiveApps cfg) (productiveWebsites cfg)
                (getActivityForDate db d) _ _ S0) as (Hm & Ha & Hs & _).
  rewrite Hm, Ha, Hs. unfold closeOngoing.
  apply jseqb_eq in E. rewrite E.
  destruct (sessionStart _) as [s|]; [|reflexivity].
  destruct (negb (isAfk _)); [|reflexivity].
  rewrite histogram_pushSession. reflexivity.
Qed.

(** C7, at the failing input: for a past day whose last row is productive
    the reconstruction closes the open session at the last timestamp
    (09:30 to 11:00 here, 30 and 60 minutes in the buckets 9 and 10), the
    event walk of the handler does not, and its histogram stays empty. *)
Theorem getHourlyStats_past_day_open_session :
  exists r,
    calculateWorkTimeForDate (dbOf scenarioPlain) (at_ 36 0)
      (str "2024-03-15") [str "VSCode"] [] = Some r /\
    sessions r = [session (at_ 9 30) (at_ 11 0)] /\
    histogramOfSessions 0 (sessions r)
    = [0; 0; 0; 0; 0; 0; 0; 0; 0; 30; 60; 0;
       0; 0; 0; 0; 0; 0; 0; 0; 0; 0; 0; 0] /\
    getHourlyStats (dbOf scenarioPlain) (mkConfig [str "VSCode"] [] 480 [])
                   0 (at_ 36 0) (str "2024-03-15")
    = [0; 0; 0; 0; 0; 0; 0; 0; 0; 0; 0; 0;
       0; 0; 0; 0; 0; 0; 0; 0; 0; 0; 0; 0].
Proof.
  eexists. split; [vm_compute; reflexivity|].
  split; [reflexivity|]. split; vm_compute; reflexivity.
Qed.

(** The same day as a refutation of the equivalence of the two
    histograms. *)
Lemma histogram_as_specified_fails : ~ histogram_as_specified.
Proof.
  intros H.
  specialize (H (dbOf scenarioPlain) (mkConfig [str "VSCode"] [] 480 [])
                0 (at_ 36 0) (str "2024-03-15")
                (mkWorkTime (0 + (5400000 # 1000))
                            [session (at_ 9 30) (at_ 11 0)] 1)
                eq_refl eq_refl).
  assert (E : getHourlyStats (dbOf scenarioPlain)
                (mkConfig [str "VSCode"] [] 480 []) 0 (at_ 36 0)
                (str "2024-03-15")
              = histogramOfSessions 0 [session (at_ 9 30) (at_ 11 0)]).
  { apply H. vm_compute. reflexivity. }
  vm_compute in E. discriminate E.
Qed.

(* ----------------------------------------------------------------- *)
(** ** The matcher: the fuel of a repetition suffices *)

(** A matcher that consults its continuation only on rests of the subject
    no longer than the one it was given. *)
Lemma starLoop_ext
    (m : nat -> jsstring -> option jsstring -> Cont -> option (option jsstring))
    (Hm : forall pos s cap (k k' : Cont),
        (forall pos' s' cap', (length s' <= length s)%nat ->
                              k pos' s' cap' = k' pos' s' cap') ->
        m pos s cap k = m pos s cap k')
    (k k' : Cont) (fuel : nat) (pos : nat) (s : jsstring)
    (cap : option jsstring) :
  (forall pos' s' cap', (length s' <= length s)%nat ->
                        k pos' s' cap' = k' pos' s' cap') ->
  starLoop m k fuel pos s cap = starLoop m k' fuel pos s cap.
Proof.
  revert pos s cap; induction fuel as [|fuel IH]; intros pos s cap H.
  - cbn [starLoop]. apply H. apply Nat.le_refl.
  - cbn [starLoop].
    rewrite (Hm pos s cap _
               (fun pos' s' cap' =>
                  if (length s' <? length s)%nat
                  then starLoop m k' fuel pos' s' cap' else None)).
    + rewrite (H pos s cap (Nat.le_refl _)). reflexivity.
    + intros pos' s' cap' L.
      destruct (Nat.ltb_spec (length s') (length s)); [|reflexivity].
      apply IH. intros pos'' s'' cap'' L'. apply H. lia.
Qed.

Lemma matchRe_ext (r : Regex) (pos : nat) (s : jsstring)
    (cap : option jsstring) (k k' : Cont) :
  (forall pos' s' cap', (length s' <= length s)%nat ->
                        k pos' s' cap' = k' pos' s' cap') ->
  matchRe r pos s cap k = matchRe r pos s cap k'.
Proof.
  revert pos s cap k k';
    induction r as [|p|r1 IH1 r2 IH2|r1 IH1 r2 IH2|r1 IH1|r1 IH1|];
    intros pos s cap k k' H; cbn [matchRe].
  - apply H. apply Nat.le_refl.
  - destruct s as [|c s']; [reflexivity|].
    destruct (p c); [|reflexivity]. apply H. simpl. lia.
  - apply IH1. intros pos' s' cap' L. apply IH2.
    intros pos'' s'' cap'' L'. apply H. lia.
  - rewrite (IH1 pos s cap k k' H), (IH2 pos s cap k k' H). reflexivity.
  - apply starLoop_ext; [|exact H].
    intros pos0 s0 cap0 k0 k0' H0. apply IH1, H0.
  - apply IH1. intros pos' s' cap' L. apply H, L.
  - destruct (pos =? 0)%nat; [|reflexivity]. apply H. apply Nat.le_refl.
Qed.

(** More iterations than the subject has code units are never used: the
    repetition gives the same result with any larger fuel. *)
Lemma starLoop_fuel (r : Regex) (k : Cont) (fuel fuel' : nat)
    (pos : nat) (s : jsstring) (cap : option jsstring) :
  (length s < fuel)%nat -> (length s < fuel')%nat ->
  starLoop (matchRe r) k fuel pos s cap
  = starLoop (matchRe r) k fuel' pos s cap.
Proof.
  revert fuel' pos s cap; induction fuel as [|fuel IH];
    intros fuel' pos s cap L L'; [lia|].
  destruct fuel' as [|fuel']; [lia|]. cbn [starLoop].
  rewrite (matchRe_ext r pos s cap _
             (fun pos' s' cap' =>
                if (length s' <? length s)%nat
                then starLoop (matchRe r) k fuel' pos' s' cap' else None)).
  - reflexivity.
  - intros pos' s' cap' _.
    destruct (Nat.ltb_spec (length s') (length s)); [|reflexivity].
    apply IH; lia.
Qed.

(** A greedy repetition of a character class takes the longest run of the
    class and goes on from there when the continuation accepts. *)
Lemma starLoop_chars_greedy (p : N -> bool) (k : Cont) (found : option jsstring)
    (a b : jsstring) :
  Forall (fun c => p c = true) a ->
  match b with [] => True | c :: _ => p c = false end ->
  forall (fuel pos : nat) (cap : option jsstring),
    (length (a ++ b) < fuel)%nat ->
    k (pos + length a)%nat b cap = Some found ->
    starLoop (matchRe (Chars p)) k fuel pos (a ++ b) cap = Some found.
Proof.
  intros Ha Hb. induction Ha as [|c a Hc Ha IH]; intros fuel pos cap L K.
  - destruct fuel as [|fuel]; [simpl in L; lia|].
    cbn [starLoop matchRe app]. rewrite Nat.add_0_r in K.
    destruct b as [|c b]; [rewrite K; reflexivity|].
    rewrite Hb. exact K.
  - destruct fuel as [|fuel]; [simpl in L; lia|].
    cbn [starLoop matchRe app]. rewrite Hc.
    assert (E : (length (a ++ b) <? length (c :: a ++ b))%nat = true)
      by (apply Nat.ltb_lt; simpl; lia).
    rewrite E. rewrite IH; [reflexivity | simpl in L; lia |].
    rewrite <- K. f_equal. simpl. lia.
Qed.

(* ----------------------------------------------------------------- *)
(** ** Project detection *)

Lemma searchKeywords_none (toLowerCase : jsstring -> jsstring)
    (searchText : jsstring) (l : list (jsstring * list jsstring)) :
  noKeywordIn toLowerCase searchText l ->
  searchKeywords toLowerCase searchText l = None.
Proof.
  induction l as [|[q ks] l IH]; intros H; [reflexivity|].
  cbn [searchKeywords].
  destruct (existsb _ ks) eqn:E.
  - apply existsb_exists in E. destruct E as [k [Hk Hc]].
    apply includes_spec in Hc.
    exfalso. apply (H q ks k); [left; reflexivity | exact Hk | exact Hc].
  - apply IH. intros q' ks' k Hin Hk. apply (H q' ks' k); [right|]; assumption.
Qed.

(** First match wins, in the order of the entries. *)
Lemma searchKeywords_first (toLowerCase : jsstring -> jsstring)
    (searchText : jsstring) (before after : list (jsstring * list jsstring))
    (p : jsstring) (kws : list jsstring) :
  noKeywordIn toLowerCase searchText before ->
  (exists k, In k kws /\ contains searchText (toLowerCase k)) ->
  searchKeywords toLowerCase searchText (before ++ (p, kws) :: after) = Some p.
Proof.
  intros HB [k [Hk Hc]].
  induction before as [|[q ks] before IH]; cbn [app searchKeywords].
  - assert (E : existsb (fun keyword => includes searchText (toLowerCase keyword))
                        kws = true).
    { apply existsb_exists. exists k. split; [exact Hk|].
      apply includes_spec, Hc. }
    rewrite E. reflexivity.
  - destruct (existsb _ ks) eqn:E.
    + apply existsb_exists in E. destruct E as [k' [Hk' Hc']].
      apply includes_spec in Hc'.
      exfalso. apply (HB q ks k'); [left; reflexivity | exact Hk' | exact Hc'].
    + apply IH. intros q' ks' k' Hin Hk'.
      apply (HB q' ks' k'); [right|]; assumption.
Qed.

(** Without a keyword match the title is tried against the four patterns
    in their order. *)
Lemma detectFromPatterns_order (w : jsstring) (appName : option jsstring) :
  w <> [] ->
  detectFromPatterns (Some w) appName =
  firstSuccess [editorTitleName w; pathSegment w; hostingRepo w;
                ticketPrefix w] (str "Uncategorized").
Proof.
  intros Hw. unfold detectFromPatterns.
  assert (T : truthy (Some w) = true) by (destruct w; [contradiction | reflexivity]).
  rewrite T. cbn [negb orEmpty firstSuccess].
  unfold editorTitleName, pathSegment, hostingRepo, ticketPrefix.
  destruct (exec vsCodeRe w) as [cap|].
  - destruct (trim (orEmpty cap)) as [|c name] eqn:E.
    + cbn [truthy andb]. 
      destruct (exec pathRe w); [reflexivity|].
      destruct (exec githubRe w); [reflexivity|].
      destruct (exec ticketRe w); reflexivity.
    + cbn [truthy andb].
      destruct (includes (c :: name) (str ".")); cbn [negb andb].
      * destruct (exec pathRe w); [reflexivity|].
        destruct (exec githubRe w); [reflexivity|].
        destruct (exec ticketRe w); reflexivity.
      * destruct (length (c :: name) <? 50)%nat; [reflexivity|].
        destruct (exec pathRe w); [reflexivity|].
        destruct (exec githubRe w); [reflexivity|].
        destruct (exec ticketRe w); reflexivity.
  - destruct (exec pathRe w); [reflexivity|].
    destruct (exec githubRe w); [reflexivity|].
    destruct (exec ticketRe w); reflexivity.
Qed.

(** The editor-title name is accepted only without a ['.'] and below 50
    code units. *)
Lemma editorTitleName_accepts (w name : jsstring) :
  editorTitleName w = Some name ->
  name <> [] /\ ~ contains name (str ".") /\ (length name < 50)%nat.
Proof.
  unfold editorTitleName. destruct (exec vsCodeRe w) as [cap|]; [|discriminate].
  destruct (trim (orEmpty cap)) as [|c n]; [discriminate|].
  destruct (includes (c :: n) (str ".")) eqn:I; [discriminate|].
  destruct (Nat.ltb_spec (length (c :: n)) 50) as [L | L]; [|discriminate].
  intros E. injection E as <-. split; [discriminate|]. split; [|exact L].
  intros C. apply includes_spec in C. congruence.
Qed.

(** C6, as the specification words it, fails: with both inputs absent the
    guard at the head of [detectProject] answers before the keywords are
    looked at, also when a keyword (the empty one) occurs in the search
    string. *)
Lemma detect_as_specified_fails : ~ detect_as_specified.
Proof.
  intros H.
  specialize (H asciiToLowerCase [(str "P", [[]])] [] [] None None
                (str "P") [[]] eq_refl).
  assert (E : detectProject asciiToLowerCase [(str "P", [[]])] None None
              = str "P").
  { apply H.
    - intros q ks k [].
    - exists []. split; [left; reflexivity|].
      exists [], (str " "). reflexivity. }
  vm_compute in E. discriminate E.
Qed.

(** C6 (amended): when [windowTitle] and [appName] are both absent or empty
    the result is ["Uncategorized"]; otherwise the first configured
    project, in the order of the entries, one of whose lowercased keywords
    occurs in the lowercased search string is returned; when no keyword
    occurs, the editor-title name (accepted only if it holds no ['.'] and
    is shorter than 50), the last path segment, the repository of a hosting
    service title and the prefix of a ticket are tried in this order, and
    ["Uncategorized"] is returned when none applies; the title
    ["myrepo - Visual Studio Code"] without keywords yields ["myrepo"]. *)
Theorem detectProject_spec
    (toLowerCase : jsstring -> jsstring)
    (keywords : list (jsstring * list jsstring))
    (windowTitle appName : option jsstring) :
  let searchText := searchTextOf toLowerCase windowTitle appName in
  (truthy windowTitle = false -> truthy appName = false ->
   detectProject toLowerCase keywords windowTitle appName
   = str "Uncategorized") /\
  (truthy windowTitle = true \/ truthy appName = true ->
   (forall before after p kws,
      keywords = before ++ (p, kws) :: after ->
      noKeywordIn toLowerCase searchText before ->
      (exists k, In k kws /\ contains searchText (toLowerCase k)) ->
      detectProject toLowerCase keywords windowTitle appName = p) /\
   (noKeywordIn toLowerCase searchText keywords ->
    (truthy windowTitle = false ->
     detectProject toLowerCase keywords windowTitle appName
     = str "Uncategorized") /\
    (forall w, windowTitle = Some w -> w <> [] ->
       detectProject toLowerCase keywords windowTitle appName
       = firstSuccess [editorTitleName w; pathSegment w; hostingRepo w;
                       ticketPrefix w] (str "Uncategorized")))) /\
  (forall w name, editorTitleName w = Some name ->
     ~ contains name (str ".") /\ (length name < 50)%nat) /\
  detectProject asciiToLowerCase []
    (Some (str "myrepo - Visual Studio Code")) (Some (str "Code"))
  = str "myrepo".
Proof.
  cbv zeta. split; [|split; [|split]].
  - intros Hw Ha. unfold detectProject. rewrite Hw, Ha. reflexivity.
  - intros HT.
    assert (G : negb (truthy windowTitle) && negb (truthy appName) = false).
    { destruct HT as [-> | ->]; [reflexivity|].
      destruct (truthy windowTitle); reflexivity. }
    split.
    + intros before after p kws -> HB HK.
      unfold detectProject. rewrite G.
      fold (searchTextOf toLowerCase windowTitle appName).
      rewrite (searchKeywords_first _ _ before after p kws HB HK).
      reflexivity.
    + intros HN. unfold detectProject. rewrite G.
      fold (searchTextOf toLowerCase windowTitle appName).
      rewrite (searchKeywords_none _ _ keywords HN). split.
      * intros Hw. unfold detectFromPatterns. rewrite Hw. reflexivity.
      * intros w -> Hw. apply detectFromPatterns_order, Hw.
  - intros w name H. apply editorTitleName_accepts in H. tauto.
  - vm_compute. reflexivity.
Qed.

(** Two configured projects whose keywords both occur: the earlier entry
    wins. *)
Lemma detectProject_spec_witness :
  detectProject asciiToLowerCase
    [(str "Alpha", [str "hello"]); (str "Beta", [str "World"])]
    (Some (str "Hello world")) None
  = str "Alpha".
Proof.
  destruct (detectProject_spec asciiToLowerCase
              [(str "Alpha", [str "hello"]); (str "Beta", [str "World"])]
              (Some (str "Hello world")) None) as (_ & H & _).
  destruct (H (or_introl eq_refl)) as [H1 _].
  apply (H1 [] [(str "Beta", [str "World"])] (str "Alpha") [str "hello"]).
  - reflexivity.
  - intros q ks k [].
  - exists (str "hello"). split; [left; reflexivity|].
    apply includes_spec. vm_compute. reflexivity.
Defined.

Lemma firstn_length_app (a b : jsstring) : firstn (length a) (a ++ b) = a.
Proof. induction a as [|x a IH]; simpl; [reflexivity | rewrite IH; reflexivity]. Qed.

Lemma vsCodeRe_matches (c : N) (name : jsstring) :
  Forall (fun x => x <> chr "-") (c :: name) ->
  exec vsCodeRe ((c :: name) ++ str " - Visual Studio Code")
  = Some (Some ((c :: name) ++ str " ")).
Proof.
  intros H. apply Forall_cons_iff in H. destruct H as [Hc Hn].
  unfold exec.
  change ((c :: name) ++ str " - Visual Studio Code")
    with (c :: (name ++ str " - Visual Studio Code")).
  cbn [search].
  assert (M : matchRe vsCodeRe 0 (c :: name ++ str " - Visual Studio Code") None
                (fun _ _ cap => Some cap)
              = Some (Some ((c :: name) ++ str " "))).
  { unfold vsCodeRe, Plus. cbn [matchRe Nat.eqb].
    assert (Ec : negb (c =? chr "-")%N = true).
    { apply negb_true_iff, N.eqb_neq, Hc. }
    rewrite Ec.
    replace (name ++ str " - Visual Studio Code")
      with ((name ++ str " ") ++ str "- Visual Studio Code")
      by (rewrite <- app_assoc; reflexivity).
    apply starLoop_chars_greedy.
    - apply Forall_app. split.
      + eapply Forall_impl; [|exact Hn]. intros x Hx.
        apply negb_true_iff, N.eqb_neq, Hx.
      + repeat constructor.
    - reflexivity.
    - simpl. lia.
    - rewrite Nat.sub_0_r.
      change (1 + length (name ++ str " "))%nat
        with (S (length (name ++ str " "))).
      cbn [firstn]. rewrite firstn_length_app.
      generalize (S (length (name ++ str " "))). intros pos.
      vm_compute. reflexivity. }
  rewrite M. reflexivity.
Qed.

Lemma trimStart_app_space (s : jsstring) :
  trimStart (s ++ str " ") = [] /\ trimStart s = [] \/
  trimStart (s ++ str " ") = trimStart s ++ str " " /\ trimStart s <> [].
Proof.
  induction s as [|c s IH].
  - left. split; reflexivity.
  - cbn [app trimStart]. destruct (isSpace c).
    + exact IH.
    + right. split; [reflexivity | discriminate].
Qed.

Lemma trim_app_space (s : jsstring) : trim (s ++ str " ") = trim s.
Proof.
  unfold trim.
  destruct (trimStart_app_space s) as [[-> ->] | [-> _]]; [reflexivity|].
  rewrite rev_app_distr. reflexivity.
Qed.

(** The editor pattern in general: a title [<name> - Visual Studio Code]
    whose name holds no hyphen, and whose trimmed name is not empty, holds
    no ['.'] and is shorter than 50, yields the trimmed name when no
    keyword occurs. *)
Lemma detectProject_editor_title
    (toLowerCase : jsstring -> jsstring)
    (keywords : list (jsstring * list jsstring))
    (name : jsstring) (appName : option jsstring) :
  let title := name ++ str " - Visual Studio Code" in
  Forall (fun x => x <> chr "-") name ->
  trim name <> [] ->
  ~ contains (trim name) (str ".") ->
  (length (trim name) < 50)%nat ->
  noKeywordIn toLowerCase (searchTextOf toLowerCase (Some title) appName)
              keywords ->
  detectProject toLowerCase keywords (Some title) appName = trim name.
Proof.
  intros title Hd Hne Hdot Hlen HK. subst title.
  destruct name as [|c name]; [exfalso; apply Hne; reflexivity|].
  assert (G : truthy (Some ((c :: name) ++ str " - Visual Studio Code"))
              = true) by reflexivity.
  unfold detectProject. rewrite G. cbn [negb andb].
  fold (searchTextOf toLowerCase
          (Some ((c :: name) ++ str " - Visual Studio Code")) appName).
  rewrite (searchKeywords_none _ _ keywords HK).
  unfold detectFromPatterns. rewrite G. cbn [negb orEmpty].
  rewrite (vsCodeRe_matches c name Hd). cbn [orEmpty].
  rewrite trim_app_space.
  assert (T : truthy (Some (trim (c :: name))) = true).
  { destruct (trim (c :: name)); [contradiction | reflexivity]. }
  assert (I : includes (trim (c :: name)) (str ".") = false).
  { destruct (includes (trim (c :: name)) (str ".")) eqn:E; [|reflexivity].
    apply includes_spec in E. contradiction. }
  assert (L : (length (trim (c :: name)) <? 50)%nat = true)
    by (apply Nat.ltb_lt, Hlen).
  rewrite T, I, L. reflexivity.
Qed.

(** The patterns on the titles that the comments of [detectFromPatterns]
    give as examples.  The first one shows that a folder name with a
    hyphen is not recognised by the editor pattern. *)
Lemma detectProject_examples :
  detectProject asciiToLowerCase []
    (Some (str "project-name - Visual Studio Code")) (Some (str "Code"))
  = str "Uncategorized" /\
  detectProject asciiToLowerCase []
    (Some (str "index.js - Visual Studio Code")) (Some (str "Code"))
  = str "Uncategorized" /\
  detectProject asciiToLowerCase []
    (Some (str "~/projects/my-project")) (Some (str "Terminal"))
  = str "my-project" /\
  detectProject asciiToLowerCase []
    (Some (str "/Users/name/work/project")) (Some (str "Terminal"))
  = str "project" /\
  detectProject asciiToLowerCase []
    (Some (str "GitHub - owner/repo")) (Some (str "Safari"))
  = str "repo" /\
  detectProject asciiToLowerCase []
    (Some (str "[PROJ-123] Fix the parser")) (Some (str "Safari"))
  = str "PROJ" /\
  detectProject asciiToLowerCase [] None (Some (str "Finder"))
  = str "Uncategorized".
Proof. repeat split; vm_compute; reflexivity. Qed.

(* ================================================================= *)
(** * Further properties *)

From Stdlib Require Import Lqa.

(** ** Session reconstruction: order and extent of the sessions *)

Lemma chained_app (lo : Z) (l : list Session) (s : Session) :
  chained lo l -> lastEnd lo l <= start s -> start s < end_ s ->
  chained lo (l ++ [s]).
Proof.
  revert lo; induction l as [|x l IH]; intros lo H L S; simpl in *.
  - unfold lastEnd in L; simpl in L. auto.
  - destruct H as (A & B & C). repeat split; try assumption.
    apply IH; assumption.
Qed.

Lemma lastEnd_app (lo : Z) (l : list Session) (s : Session) :
  lastEnd lo (l ++ [s]) = end_ s.
Proof. unfold lastEnd. rewrite fold_left_app. reflexivity. Qed.

Lemma chained_covered (lo : Z) (l : list Session) :
  chained lo l -> lo <= lastEnd lo l /\ coveredMs l <= lastEnd lo l - lo.
Proof.
  revert lo; induction l as [|s l IH]; intros lo H; simpl in *.
  - unfold lastEnd; simpl. lia.
  - destruct H as (A & B & C). destruct (IH _ C) as [D E].
    change (lastEnd lo (s :: l)) with (lastEnd (end_ s) l). lia.
Qed.

Lemma sumDurations_covered (l : list Session) :
  Forall wellFormedSession l ->
  (sumDurations l == coveredMs l # 1000)%Q.
Proof.
  induction 1 as [|s l [E _] _ IH]; simpl.
  - reflexivity.
  - rewrite IH, E. qz.
Qed.

Lemma inOrder_pushSession (t0 t : Z) (v : Vars) (s e : Z) :
  inOrder t0 t v -> sessionStart v = Some s -> t <= e ->
  inOrder t0 e (setSessionStart (pushSession v s e) None).
Proof.
  intros (C & W & T0 & L & S & LT) HS He.
  specialize (S s HS).
  unfold inOrder. projections.
  destruct (Z.lt_ge_cases s e) as [H | H].
  - unfold sessionIfPositive. destruct (Z.ltb_spec s e); [|lia].
    rewrite lastEnd_app. cbn [end_ session].
    split; [apply chained_app; cbn [start end_ session]; [assumption | lia | lia]|].
    split.
    { apply Forall_app. split; [exact W|]. constructor; [|constructor].
      split; [reflexivity|]. cbn [duration session].
      unfold Qlt; cbn [Qnum Qden]. lia. }
    split; [lia|]. split; [lia|]. split; [discriminate|].
    intros l Hl. specialize (LT l Hl). lia.
  - unfold sessionIfPositive. destruct (Z.ltb_spec s e); [lia|].
    rewrite app_nil_r.
    split; [exact C|]. split; [exact W|]. split; [lia|]. split; [lia|].
    split; [discriminate|].
    intros l Hl. specialize (LT l Hl). lia.
Qed.

Lemma inOrder_mono (t0 t t' : Z) (v : Vars) :
  inOrder t0 t v -> t <= t' -> inOrder t0 t' v.
Proof.
  intros (C & W & T0 & L & S & LT) H.
  split; [exact C|]. split; [exact W|]. split; [lia|]. split; [lia|]. split.
  - intros s E. specialize (S s E). lia.
  - intros l E. specialize (LT l E). lia.
Qed.

Lemma inOrder_setIsAfk (t0 t : Z) (v : Vars) (b : bool) :
  inOrder t0 t v -> inOrder t0 t (setIsAfk v b).
Proof. intros H. exact H. Qed.

Lemma inOrder_setLastTimestamp (t0 t : Z) (v : Vars) :
  inOrder t0 t v -> inOrder t0 t (setLastTimestamp v t).
Proof.
  intros (C & W & T0 & L & S & LT).
  split; [exact C|]. split; [exact W|]. split; [exact T0|].
  split; [exact L|]. split; [exact S|].
  intros l E. cbn [lastTimestamp setLastTimestamp] in E.
  injection E as <-. lia.
Qed.

Lemma inOrder_open (t0 t : Z) (v : Vars) :
  inOrder t0 t v -> inOrder t0 t (setSessionStart v (Some t)).
Proof.
  intros (C & W & T0 & L & S & LT).
  split; [exact C|]. split; [exact W|]. split; [exact T0|].
  split; [exact L|]. split; [|exact LT].
  intros s E. cbn [sessionStart setSessionStart recorded] in *.
  injection E as <-. lia.
Qed.

Lemma inOrder_step (apps sites : list jsstring) (t0 t : Z) (v : Vars)
    (x : Activity) :
  inOrder t0 t v -> t <= timestamp x ->
  inOrder t0 (timestamp x) (step apps sites v x).
Proof.
  intros H Hx. pose proof (inOrder_mono t0 t (timestamp x) v H Hx) as M.
  unfold step.
  destruct (is_afk x).
  - apply inOrder_setLastTimestamp.
    destruct (afk_type_is x "start").
    + apply inOrder_setIsAfk.
      destruct (sessionStart v) as [s|] eqn:E; [|exact M].
      destruct (negb (isAfk v)); [|exact M].
      apply (inOrder_pushSession t0 t v s (timestamp x) H E Hx).
    + destruct (afk_type_is x "end"); [apply inOrder_setIsAfk|]; exact M.
  - destruct (isAfk v); [exact M|].
    apply inOrder_setLastTimestamp.
    destruct (isProductiveActivity _ _ _ _).
    + destruct (sessionStart v) as [s|] eqn:E;
        [exact M | apply inOrder_open, M].
    + destruct (sessionStart v) as [s|] eqn:E; [|exact M].
      apply (inOrder_pushSession t0 t v s (timestamp x) H E Hx).
Qed.

Lemma inOrder_fold (apps sites : list jsstring) (t0 : Z) (l : list Activity)
    (t : Z) (v : Vars) (a : Activity) :
  inOrder t0 t v -> t <= timestamp a ->
  StronglySorted byTimestamp (a :: l) ->
  inOrder t0 (timestamp (last l a))
          (fold_left (step apps sites) (a :: l) v).
Proof.
  revert t v a; induction l as [|b l IH]; intros t v a H Ha HS.
  - cbn [fold_left last]. apply (inOrder_step apps sites t0 t v a H Ha).
  - change (fold_left (step apps sites) (a :: b :: l) v)
      with (fold_left (step apps sites) (b :: l) (step apps sites v a)).
    rewrite last_cons.
    apply StronglySorted_inv in HS. destruct HS as [HS HF].
    apply (IH (timestamp a)).
    + apply (inOrder_step apps sites t0 t v a H Ha).
    + apply Forall_inv in HF. exact HF.
    + exact HS.
Qed.

Lemma inOrder_initial (t0 : Z) : inOrder t0 t0 initialVars.
Proof.
  split; [exact I|]. split; [constructor|]. split; [lia|].
  split; [unfold lastEnd; simpl; lia|]. split; intros ? E; discriminate E.
Qed.

Lemma inOrder_closeOngoing (t0 t : Z) (d : jsstring) (now : Z) (v : Vars) :
  inOrder t0 t v ->
  let v' := closeOngoing d now v in
  chained t0 (recorded v') /\
  Forall wellFormedSession (recorded v') /\
  (d <> toISODate now -> lastEnd t0 (recorded v') <= t) /\
  (d = toISODate now -> lastEnd t0 (recorded v') <= Z.max t now).
Proof.
  intros H. pose proof H as (C & W & T0 & L & S & LT). cbv zeta.
  assert (P : forall s e, sessionStart v = Some s ->
            chained t0 (recorded (pushSession v s e)) /\
            Forall wellFormedSession (recorded (pushSession v s e)) /\
            lastEnd t0 (recorded (pushSession v s e)) <= Z.max t e).
  { intros s e E. specialize (S s E). rewrite recorded_pushSession.
    unfold sessionIfPositive. destruct (Z.ltb_spec s e) as [Hse | Hse].
    - rewrite lastEnd_app. cbn [end_ session]. split; [|split; [|lia]].
      + apply chained_app; cbn [start end_ session]; [assumption | lia | lia].
      + apply Forall_app. split; [exact W|]. constructor; [|constructor].
        split; [reflexivity|]. cbn [duration session].
        unfold Qlt; cbn [Qnum Qden]. lia.
    - rewrite app_nil_r. split; [exact C|]. split; [exact W | lia]. }
  unfold closeOngoing.
  destruct (sessionStart v) as [s|] eqn:E;
    [|split; [exact C|]; split; [exact W|]; split; intros; lia].
  destruct (negb (isAfk v));
    [|split; [exact C|]; split; [exact W|]; split; intros; lia].
  destruct (jseqb d (toISODate now)) eqn:J.
  - destruct (P s now eq_refl) as (P1 & P2 & P3).
    split; [exact P1|]. split; [exact P2|]. split; [|intros; exact P3].
    intros N. apply jseqb_eq in J. contradiction.
  - destruct (lastTimestamp v) as [l|] eqn:EL.
    + destruct (P s l eq_refl) as (P1 & P2 & P3). specialize (LT l eq_refl).
      split; [exact P1|]. split; [exact P2|]. split; intros; lia.
    + split; [exact C|]. split; [exact W|]. split; intros; lia.
Qed.

(** What the reconstruction of a query result satisfies, in one place. *)
Lemma reconstruct_inOrder (db : WorkTrackerDB) (now : Z) (d : jsstring)
    (apps sites : list jsstring) (first : Activity) (rest : list Activity) :
  getActivityForDate db d = first :: rest ->
  let r := reconstruct (first :: rest) d now apps sites in
  let tlast := timestamp (last rest first) in
  calculateWorkTimeForDate db now d apps sites = Some r /\
  chained (timestamp first) (sessions r) /\
  Forall wellFormedSession (sessions r) /\
  (d <> toISODate now ->
   lastEnd (timestamp first) (sessions r) <= tlast) /\
  (d = toISODate now ->
   lastEnd (timestamp first) (sessions r) <= Z.max tlast now).
Proof.
  intros HQ. cbv zeta.
  split; [apply (getActivityForDate_nonempty db d [] rest first), HQ|].
  assert (HS : StronglySorted byTimestamp (first :: rest)).
  { rewrite <- HQ. apply getActivityForDate_sorted. }
  pose proof (inOrder_fold apps sites (timestamp first) rest
                (timestamp first) initialVars first
                (inOrder_initial _) (Z.le_refl _) HS) as H.
  apply (inOrder_closeOngoing _ _ d now) in H.
  unfold reconstruct. cbn [sessions]. exact H.
Qed.

(** X1: the sessions reconstructed for a day are in chronological order
    and do not overlap: each one starts no earlier than the first row of
    the day and than the end of the session before it, and ends after it
    starts. *)
Theorem sessions_in_order
    (db : WorkTrackerDB) (now : Z) (d : jsstring)
    (apps sites : list jsstring) (first : Activity) (rest : list Activity)
    (r : WorkTime) :
  getActivityForDate db d = first :: rest ->
  calculateWorkTimeForDate db now d apps sites = Some r ->
  chained (timestamp first) (sessions r).
Proof.
  intros HQ HR.
  destruct (reconstruct_inOrder db now d apps sites first rest HQ)
    as (E & C & _).
  rewrite E in HR. injection HR as <-. exact C.
Qed.

(** The day 09:00 editor, 10:00 chat, 11:00 editor, 11:30 chat: two
    sessions, one after the other. *)
Lemma sessions_in_order_witness :
  chained (at_ 9 0) [session (at_ 9 0) (at_ 10 0);
                     session (at_ 11 0) (at_ 11 30)].
Proof.
  apply (sessions_in_order
           (dbOf [sample (at_ 9 0) "VSCode" "a.js"; sample (at_ 10 0) "Slack" "chat";
                  sample (at_ 11 0) "VSCode" "a.js"; sample (at_ 11 30) "Slack" "chat"])
           (at_ 36 0) (str "2024-03-15") [str "VSCode"] []
           (sample (at_ 9 0) "VSCode" "a.js")
           [sample (at_ 10 0) "Slack" "chat"; sample (at_ 11 0) "VSCode" "a.js";
            sample (at_ 11 30) "Slack" "chat"]
           (mkWorkTime (0 + (3600000 # 1000) + (1800000 # 1000))
              [session (at_ 9 0) (at_ 10 0); session (at_ 11 0) (at_ 11 30)] 2)).
  - vm_compute. reflexivity.
  - vm_compute. reflexivity.
Defined.

(** X2: the time covered by the sessions of a day, taken from their start
    and end instants, never exceeds the time elapsed from the first row of
    the day to its last row or, for the current date evaluated no earlier
    than the last row, to the evaluation instant. *)
Theorem sessions_within_elapsed
    (db : WorkTrackerDB) (now : Z) (d : jsstring)
    (apps sites : list jsstring) (first : Activity) (rest : list Activity)
    (r : WorkTime) :
  getActivityForDate db d = first :: rest ->
  calculateWorkTimeForDate db now d apps sites = Some r ->
  (d <> toISODate now ->
   coveredMs (sessions r)
   <= timestamp (last rest first) - timestamp first) /\
  (d = toISODate now -> timestamp (last rest first) <= now ->
   coveredMs (sessions r) <= now - timestamp first).
Proof.
  intros HQ HR.
  destruct (reconstruct_inOrder db now d apps sites first rest HQ)
    as (E & C & W & P & T).
  rewrite E in HR. injection HR as <-.
  destruct (chained_covered _ _ C) as [_ Cov].
  split.
  - intros N. specialize (P N). lia.
  - intros Y Hn. specialize (T Y). lia.
Qed.

(** Editor from 09:00, chat at 10:00, editor again from 11:00, evaluated
    at 12:00 of the same day: two hours covered, three elapsed. *)
Lemma sessions_within_elapsed_witness :
  exists r,
    calculateWorkTimeForDate
      (dbOf [sample (at_ 9 0) "VSCode" "a.js"; sample (at_ 10 0) "Slack" "chat";
             sample (at_ 11 0) "VSCode" "a.js"])
      (at_ 12 0) (str "2024-03-15") [str "VSCode"] [] = Some r /\
    coveredMs (sessions r) = 7200000 /\
    coveredMs (sessions r) <= at_ 12 0 - at_ 9 0.
Proof.
  eexists. split; [vm_compute; reflexivity|].
  split; [vm_compute; reflexivity|].
  apply (sessions_within_elapsed
           (dbOf [sample (at_ 9 0) "VSCode" "a.js"; sample (at_ 10 0) "Slack" "chat";
                  sample (at_ 11 0) "VSCode" "a.js"])
           (at_ 12 0) (str "2024-03-15") [str "VSCode"] []
           (sample (at_ 9 0) "VSCode" "a.js")
           [sample (at_ 10 0) "Slack" "chat"; sample (at_ 11 0) "VSCode" "a.js"]).
  - vm_compute. reflexivity.
  - vm_compute. reflexivity.
  - vm_compute. reflexivity.
  - vm_compute. discriminate.
Defined.

(* ================================================================= *)
(** ** Days without productive samples, and the allow-lists *)

Lemma idle_step (apps sites : list jsstring) (v : Vars) (a : Activity) :
  idle v -> unproductiveRow apps sites a -> idle (step apps sites v a).
Proof.
  intros (S & R & T) U. unfold step, idle.
  destruct (is_afk a) eqn:A.
  - rewrite S.
    destruct (afk_type_is a "start");
      [|destruct (afk_type_is a "end")]; projections; auto.
  - destruct U as [U | U]; [congruence|]. rewrite U, S.
    destruct (isAfk v); projections; auto.
Qed.

Lemma idle_fold (apps sites : list jsstring) (l : list Activity) (v : Vars) :
  idle v -> Forall (unproductiveRow apps sites) l ->
  idle (fold_left (step apps sites) l v).
Proof.
  revert v. induction l as [|a l IH]; intros v I F; [exact I|].
  inversion F; subst. cbn [fold_left]. apply IH; [|assumption].
  apply idle_step; assumption.
Qed.

(** X3: a day that has rows but none of them a productive sample (every
    row is an AFK marker or is classified unproductive) yields a result
    object, not [null], with no session and a total of zero. *)
Theorem unproductive_day_is_empty
    (db : WorkTrackerDB) (now : Z) (d : jsstring)
    (apps sites : list jsstring) (first : Activity) (rest : list Activity) :
  getActivityForDate db d = first :: rest ->
  Forall (unproductiveRow apps sites) (first :: rest) ->
  calculateWorkTimeForDate db now d apps sites = Some (mkWorkTime 0 [] 0).
Proof.
  intros HQ F.
  rewrite (getActivityForDate_nonempty db d [] rest first now apps sites HQ).
  cbn [app]. unfold reconstruct.
  assert (I : idle initialVars) by (repeat split).
  destruct (idle_fold apps sites _ _ I F) as (S & R & T).
  unfold closeOngoing. rewrite S, R, T. reflexivity.
Qed.

Lemma unproductive_day_is_empty_witness :
  calculateWorkTimeForDate
    (dbOf [sample (at_ 9 0) "Slack" "chat"; afkStart (at_ 9 30);
           afkEnd (at_ 10 0)])
    (at_ 36 0) (str "2024-03-15") [str "VSCode"] [str "github.com"]
  = Some (mkWorkTime 0 [] 0).
Proof.
  apply (unproductive_day_is_empty _ _ _ _ _
           (sample (at_ 9 0) "Slack" "chat")
           [afkStart (at_ 9 30); afkEnd (at_ 10 0)]).
  - vm_compute. reflexivity.
  - constructor; [right; vm_compute; reflexivity|].
    constructor; [left; reflexivity|].
    constructor; [left; reflexivity | constructor].
Defined.

Lemma existsb_incl {A : Type} (f : A -> bool) (l l' : list A) :
  incl l l' -> existsb f l = true -> existsb f l' = true.
Proof.
  intros I H. apply existsb_exists in H. destruct H as (x & Hx & Hf).
  apply existsb_exists. exists x. split; [apply I, Hx | exact Hf].
Qed.

(** X4: the classifier is monotone in the two allow-lists: an activity
    that is productive stays productive when applications or websites are
    added to the configuration. *)
Theorem isProductiveActivity_monotone
    (appName windowTitle : option jsstring)
    (apps sites apps' sites' : list jsstring) :
  incl apps apps' -> incl sites sites' ->
  isProductiveActivity appName windowTitle apps sites = true ->
  isProductiveActivity appName windowTitle apps' sites' = true.
Proof.
  intros IA IS. unfold isProductiveActivity.
  destruct (negb (truthy appName)); [discriminate|].
  destruct (existsb _ apps) eqn:EA.
  - intros _. rewrite (existsb_incl _ _ _ IA EA). reflexivity.
  - destruct (existsb _ apps'); [reflexivity|].
    destruct (existsb _ browsers); [|discriminate].
    destruct (truthy windowTitle); [|discriminate].
    apply existsb_incl, IS.
Qed.

Lemma isProductiveActivity_monotone_witness :
  isProductiveActivity (Some (str "Google Chrome"))
    (Some (str "Pull requests - github.com"))
    [str "VSCode"; str "Terminal"] [str "stackoverflow.com"; str "github.com"]
  = true.
Proof.
  apply (isProductiveActivity_monotone _ _ [str "VSCode"] [str "github.com"]).
  - intros x [<- | []]. left. reflexivity.
  - intros x [<- | []]. right. left. reflexivity.
  - vm_compute. reflexivity.
Defined.

(* ================================================================= *)
(** ** Goal progress *)

Lemma Qfloor_ge (z : Z) (q : Q) : z <= Qfloor q <-> (inject_Z z <= q)%Q.
Proof.
  split; intros H.
  - apply Qle_trans with (inject_Z (Qfloor q)); [|apply Qfloor_le].
    rewrite <- Zle_Qle. exact H.
  - rewrite <- (Qfloor_Z z). apply Qfloor_resp_le, H.
Qed.

Lemma mathRound_ge (z : Z) (q : Q) :
  z <= mathRound q <-> (inject_Z z - (1 # 2) <= q)%Q.
Proof.
  unfold mathRound. rewrite Qfloor_ge. split; intros H; lra.
Qed.

Lemma orNumber_pos (x d : Q) : (0 <= x)%Q -> (0 < d)%Q -> (0 < orNumber x d)%Q.
Proof.
  intros Hx Hd. unfold orNumber. destruct (Qeq_bool x 0) eqn:E; [exact Hd|].
  apply Qeq_bool_neq in E. lra.
Qed.

Lemma mathMax0_spec (x : Q) :
  (0 <= mathMax0 x)%Q /\ (mathMax0 x == 0 <-> x <= 0)%Q.
Proof.
  unfold mathMax0. destruct (Qle_bool 0 x) eqn:E.
  - apply Qle_bool_iff in E. split; [exact E|]. split; intros; lra.
  - assert (~ (0 <= x)%Q) by (rewrite <- Qle_bool_iff; congruence).
    split; [lra|]. split; intros; lra.
Qed.

Lemma percent_ge (t g : Q) (z : Z) :
  (0 < g)%Q ->
  z <= mathRound (t / g * 100) <->
  ((inject_Z z - (1 # 2)) * g <= 100 * t)%Q.
Proof.
  intros Hg. rewrite mathRound_ge.
  assert (E : (t / g * 100 == 100 * t / g)%Q) by (field; lra).
  rewrite E. split; intros H.
  - apply Qmult_le_r with (z := g) in H; [|exact Hg].
    setoid_replace (100 * t / g * g)%Q with (100 * t)%Q in H by (field; lra).
    exact H.
  - apply Qle_shift_div_l; assumption.
Qed.

(** X5: for a non-negative goal and a non-negative total the reported
    percentage lies between 0 and 100, the goal used is positive (a zero
    goal is replaced by 480 minutes), the remaining time is never negative,
    the goal is complete exactly when nothing remains, and a complete goal
    is reported as 100 percent. *)
Theorem getDailyGoalProgress_bounds (cfg : Config) (t : Q) :
  (0 <= dailyGoalMinutes cfg)%Q -> (0 <= t)%Q ->
  let p := getDailyGoalProgress cfg t in
  0 <= percentage p <= 100 /\
  (0 < goalMinutes p)%Q /\
  (0 <= remainingSeconds p)%Q /\
  (isComplete p = true <-> (remainingSeconds p == 0)%Q) /\
  (isComplete p = true -> percentage p = 100).
Proof.
  intros Hg Ht. cbv zeta. unfold getDailyGoalProgress.
  cbn [percentage goalMinutes remainingSeconds isComplete].
  pose proof (orNumber_pos _ 480 Hg ltac:(reflexivity)) as Hm.
  set (m := orNumber (dailyGoalMinutes cfg) 480) in *.
  assert (Hs : (0 < m * 60)%Q) by lra.
  destruct (mathMax0_spec (m * 60 - t)) as [M0 M1].
  pose proof (percent_ge t (m * 60) 0 Hs) as P0.
  pose proof (percent_ge t (m * 60) 100 Hs) as P100.
  assert (R0 : 0 <= mathRound (t / (m * 60) * 100)).
  { apply P0. change (inject_Z 0) with 0%Q. nra. }
  split; [lia|]. split; [exact Hm|]. split; [exact M0|]. split.
  - rewrite Qle_bool_iff, M1. split; intros; lra.
  - rewrite Qle_bool_iff. intros C.
    assert (100 <= mathRound (t / (m * 60) * 100)).
    { apply P100. change (inject_Z 100) with 100%Q. lra. }
    lia.
Qed.

(** Seven of eight hours worked: 88 percent, one hour remaining. *)
Lemma getDailyGoalProgress_bounds_witness :
  let p := getDailyGoalProgress (mkConfig [] [] 480 []) 25200 in
  percentage p = 88 /\ (remainingSeconds p == 3600)%Q /\
  0 <= percentage p <= 100 /\
  (isComplete p = true <-> (remainingSeconds p == 0)%Q).
Proof.
  cbv zeta. split; [vm_compute; reflexivity|].
  split; [vm_compute; reflexivity|].
  destruct (getDailyGoalProgress_bounds (mkConfig [] [] 480 []) 25200)
    as (B & _ & _ & C & _).
  - vm_compute. discriminate.
  - vm_compute. discriminate.
  - split; [exact B | exact C].
Defined.

(** X6: the percentage shown is 100 for every total from 99.6 percent of
    the goal on, hence also for totals that do not yet complete the goal,
    and it is at most 99 for every total up to 99.4 percent of the goal.
    (In between lies the half at which [Math.round] turns, where the
    rounding of the division and the product in the code decides.) *)
Theorem getDailyGoalProgress_shows_100 (cfg : Config) (t : Q) :
  (0 <= dailyGoalMinutes cfg)%Q ->
  let p := getDailyGoalProgress cfg t in
  ((996 * (goalMinutes p * 60) <= 1000 * t)%Q -> percentage p = 100) /\
  ((1000 * t <= 994 * (goalMinutes p * 60))%Q -> percentage p <= 99).
Proof.
  intros Hg. cbv zeta. unfold getDailyGoalProgress.
  cbn [percentage goalMinutes].
  pose proof (orNumber_pos _ 480 Hg ltac:(reflexivity)) as Hm.
  set (m := orNumber (dailyGoalMinutes cfg) 480) in *.
  assert (Hs : (0 < m * 60)%Q) by lra.
  pose proof (percent_ge t (m * 60) 100 Hs) as P100.
  change (inject_Z 100) with 100%Q in P100.
  split; intros H.
  - assert (100 <= mathRound (t / (m * 60) * 100)) by (apply P100; lra).
    lia.
  - destruct (Z.le_gt_cases 100 (mathRound (t / (m * 60) * 100)))
      as [C | C]; [|lia].
    apply P100 in C. lra.
Qed.

(** One minute short of eight hours: shown as 100 percent, not complete. *)
Lemma getDailyGoalProgress_shows_100_witness :
  let p := getDailyGoalProgress (mkConfig [] [] 480 []) 28740 in
  percentage p = 100 /\ isComplete p = false.
Proof.
  cbv zeta. split; [|vm_compute; reflexivity].
  apply (getDailyGoalProgress_shows_100 (mkConfig [] [] 480 []) 28740).
  - vm_compute. discriminate.
  - vm_compute. discriminate.
Defined.

(* ================================================================= *)
(** ** The daily analysis *)

Section DailyAnalysis.

Import WorkTrackerJs.

Lemma Qfloor_div (t : Q) (n : Z) :
  0 < n -> Qfloor (t / inject_Z n) = Qfloor t / n.
Proof.
  intros Hn. destruct n as [|n|n]; try lia.
  destruct t as [a b]. unfold Qdiv, Qinv, inject_Z, Qmult, Qfloor.
  cbn [Qnum Qden]. rewrite Z.mul_1_r, Pos2Z.inj_mul, Z.div_div; lia.
Qed.

Lemma Qfloor_sub (t : Q) (k : Z) :
  Qfloor (t - inject_Z k) = Qfloor t - k.
Proof.
  destruct t as [a b]. unfold Qminus, Qplus, Qopp, inject_Z, Qfloor.
  cbn [Qnum Qden]. rewrite Pos.mul_1_r, Z.mul_1_r.
  replace (a + - k * Z.pos b) with (a + (- k) * Z.pos b) by lia.
  rewrite Z.div_add; lia.
Qed.

Lemma clock_decomposition (t : Q) :
  (0 <= t)%Q ->
  let h := Qfloor (t / 3600) in
  let m := Qfloor (remainder t 3600 / 60) in
  let s := Qfloor (remainder t 60) in
  0 <= h /\ 0 <= m < 60 /\ 0 <= s < 60 /\
  h * 3600 + m * 60 + s = Qfloor t.
Proof.
  intros Ht. cbv zeta. unfold remainder.
  change 3600%Q with (inject_Z 3600). change 60%Q with (inject_Z 60).
  rewrite ?Qfloor_sub, ?Qfloor_div, ?Qfloor_sub, ?Qfloor_div by lia.
  assert (HT : 0 <= Qfloor t).
  { change 0 with (Qfloor 0). apply Qfloor_resp_le, Ht. }
  set (T := Qfloor t) in *.
  pose proof (Z.div_mod T 3600 ltac:(lia)).
  pose proof (Z.mod_pos_bound T 3600 ltac:(lia)).
  pose proof (Z.div_mod T 60 ltac:(lia)).
  pose proof (Z.mod_pos_bound T 60 ltac:(lia)).
  assert (0 <= T / 3600) by (apply Z.div_pos; lia).
  assert (E : (T - 3600 * (T / 3600)) / 60 = T / 60 - 60 * (T / 3600)).
  { replace (T - 3600 * (T / 3600)) with (T + (- (60 * (T / 3600))) * 60) by lia.
    rewrite Z.div_add; lia. }
  rewrite E. lia.
Qed.

(** X7: whatever the database holds, the hours, minutes and seconds of the
    daily analysis are the clock reading of the whole seconds of its total
    (minutes and seconds below 60, nothing negative), and its session
    count is the number of sessions it lists. *)
Theorem analyzeWorkTime_clock
    (db : WorkTrackerDB) (cfg : Config) (now : Z)
    (targetDate : option jsstring) :
  let a := analyzeWorkTime db cfg now targetDate in
  let w := totalWorkTime a in
  (0 <= totalSeconds w)%Q /\
  0 <= hours w /\ 0 <= minutes w < 60 /\ 0 <= seconds w < 60 /\
  hours w * 3600 + minutes w * 60 + seconds w = Qfloor (totalSeconds w) /\
  WorkTrackerJs.sessionsCount a = length (WorkTrackerJs.sessions a).
Proof.
  cbv zeta. unfold analyzeWorkTime.
  set (d := if truthy targetDate then orEmpty targetDate else toISODate now).
  assert (E : forall x,
    (0 <= totalSeconds (totalWorkTime (createEmptyResult x)))%Q /\
    0 <= hours (totalWorkTime (createEmptyResult x)) /\
    0 <= minutes (totalWorkTime (createEmptyResult x)) < 60 /\
    0 <= seconds (totalWorkTime (createEmptyResult x)) < 60 /\
    hours (totalWorkTime (createEmptyResult x)) * 3600 +
    minutes (totalWorkTime (createEmptyResult x)) * 60 +
    seconds (totalWorkTime (createEmptyResult x))
    = Qfloor (totalSeconds (totalWorkTime (createEmptyResult x))) /\
    WorkTrackerJs.sessionsCount (createEmptyResult x)
    = length (WorkTrackerJs.sessions (createEmptyResult x))).
  { intros x. cbn. repeat split; try lia; try reflexivity. discriminate. }
  destruct (negb (isAvailable db)); [apply E|].
  destruct (negb (initialized db) && negb (init db)); [apply E|].
  destruct (calculateWorkTimeForDate db now d _ _) as [r|] eqn:C; [|apply E].
  cbn [totalWorkTime totalSeconds hours minutes seconds
       WorkTrackerJs.sessionsCount WorkTrackerJs.sessions].
  unfold calculateWorkTimeForDate in C.
  destruct (negb (ready db)); [discriminate|].
  destruct (length (getActivityForDate db d) =? 0)%nat; [discriminate|].
  injection C as <-.
  destruct (tally_reconstruct (getActivityForDate db d) d now
              (getProductiveApps cfg) (getProductiveWebsites cfg))
    as (W & T & N).
  assert (P : (0 <= totalWorkSeconds
                 (reconstruct (getActivityForDate db d) d now
                    (getProductiveApps cfg) (getProductiveWebsites cfg)))%Q).
  { rewrite T. apply sumDurations_nonneg, W. }
  split; [exact P|].
  destruct (clock_decomposition _ P) as (H1 & H2 & H3 & H4).
  repeat split; try (apply H2); try (apply H3); try assumption.
Qed.

End DailyAnalysis.

(* ================================================================= *)
(** ** Session reconstruction and the clock *)

Lemma closeOngoing_past (d : jsstring) (now1 now2 : Z) (v : Vars) :
  d <> toISODate now1 -> d <> toISODate now2 ->
  closeOngoing d now1 v = closeOngoing d now2 v.
Proof.
  intros N1 N2. unfold closeOngoing.
  rewrite (proj2 (jseqb_neq _ _) N1), (proj2 (jseqb_neq _ _) N2). reflexivity.
Qed.

(** X8: the result for a date other than the current one does not depend
    on the instant at which it is computed. *)
Theorem calculateWorkTimeForDate_past_fixed
    (db : WorkTrackerDB) (now1 now2 : Z) (d : jsstring)
    (apps sites : list jsstring) :
  d <> toISODate now1 -> d <> toISODate now2 ->
  calculateWorkTimeForDate db now1 d apps sites
  = calculateWorkTimeForDate db now2 d apps sites.
Proof.
  intros N1 N2. unfold calculateWorkTimeForDate, reconstruct.
  rewrite (closeOngoing_past d now1 now2 _ N1 N2). reflexivity.
Qed.

Lemma calculateWorkTimeForDate_past_fixed_witness :
  calculateWorkTimeForDate (dbOf scenarioPlain) (at_ 36 0)
    (str "2024-03-15") [str "VSCode"] []
  = calculateWorkTimeForDate (dbOf scenarioPlain) (at_ 60 0)
    (str "2024-03-15") [str "VSCode"] [].
Proof.
  apply calculateWorkTimeForDate_past_fixed.
  - vm_compute. discriminate.
  - vm_compute. discriminate.
Defined.

Lemma coveredMs_app (l1 l2 : list Session) :
  coveredMs (l1 ++ l2) = coveredMs l1 + coveredMs l2.
Proof.
  unfold coveredMs. induction l1 as [|x l1 IH]; cbn [app fold_right]; lia.
Qed.

Lemma coveredMs_sessionIfPositive (s e : Z) :
  coveredMs (sessionIfPositive s e) = Z.max 0 (e - s).
Proof.
  unfold sessionIfPositive, coveredMs.
  destruct (Z.ltb_spec s e); cbn [fold_right start end_ session]; lia.
Qed.

Lemma closeOngoing_today_covered (d : jsstring) (now : Z) (v : Vars) :
  d = toISODate now ->
  coveredMs (recorded (closeOngoing d now v))
  = coveredMs (recorded v)
    + match sessionStart v with
      | Some s => if negb (isAfk v) then Z.max 0 (now - s) else 0
      | None => 0
      end.
Proof.
  intros E. unfold closeOngoing. rewrite <- E, jseqb_refl.
  destruct (sessionStart v) as [s|]; [|lia].
  destruct (negb (isAfk v)); [|lia].
  rewrite recorded_pushSession, coveredMs_app, coveredMs_sessionIfPositive.
  reflexivity.
Qed.

(** X9: while the date is the current one and the log does not change,
    the time covered by the sessions, taken from their start and end
    instants, never decreases as the clock advances, and it grows by at
    most the time that has passed. *)
Theorem calculateWorkTimeForDate_today_grows
    (db : WorkTrackerDB) (now1 now2 : Z) (d : jsstring)
    (apps sites : list jsstring) (r1 r2 : WorkTime) :
  d = toISODate now1 -> d = toISODate now2 -> now1 <= now2 ->
  calculateWorkTimeForDate db now1 d apps sites = Some r1 ->
  calculateWorkTimeForDate db now2 d apps sites = Some r2 ->
  coveredMs (sessions r1) <= coveredMs (sessions r2)
  <= coveredMs (sessions r1) + (now2 - now1).
Proof.
  intros E1 E2 L. unfold calculateWorkTimeForDate.
  destruct (negb (ready db)); [discriminate|].
  destruct (length (getActivityForDate db d) =? 0)%nat; [discriminate|].
  intros H1 H2. injection H1 as <-. injection H2 as <-.
  unfold reconstruct. cbn [sessions].
  rewrite (closeOngoing_today_covered d now1 _ E1),
          (closeOngoing_today_covered d now2 _ E2).
  set (v := fold_left (step apps sites) (getActivityForDate db d) initialVars).
  destruct (sessionStart v) as [s|]; [|lia].
  destruct (negb (isAfk v)); lia.
Qed.

(** One editor sample at 09:00, evaluated at 10:00 and at 11:00 of the
    same day. *)
Lemma calculateWorkTimeForDate_today_grows_witness :
  exists r1 r2,
    calculateWorkTimeForDate (dbOf [sample (at_ 9 0) "VSCode" "a.js"])
      (at_ 10 0) (str "2024-03-15") [str "VSCode"] [] = Some r1 /\
    calculateWorkTimeForDate (dbOf [sample (at_ 9 0) "VSCode" "a.js"])
      (at_ 11 0) (str "2024-03-15") [str "VSCode"] [] = Some r2 /\
    coveredMs (sessions r1) <= coveredMs (sessions r2)
    <= coveredMs (sessions r1) + (at_ 11 0 - at_ 10 0).
Proof.
  eexists. eexists.
  split; [vm_compute; reflexivity|]. split; [vm_compute; reflexivity|].
  apply (calculateWorkTimeForDate_today_grows
           (dbOf [sample (at_ 9 0) "VSCode" "a.js"]) (at_ 10 0) (at_ 11 0)
           (str "2024-03-15") [str "VSCode"] []).
  - vm_compute. reflexivity.
  - vm_compute. reflexivity.
  - vm_compute. discriminate.
  - vm_compute. reflexivity.
  - vm_compute. reflexivity.
Defined.

(* ================================================================= *)
(** ** The stored summary, the goal and the streak *)

Lemma upsert_again (rows : list DailySummary) (e1 e2 : DailySummary) :
  date e1 = date e2 ->
  productive_seconds e2 = None -> projects_json e2 = None ->
  productive_seconds e1 = None -> projects_json e1 = None ->
  upsert (upsert rows e1) e2 = upsert rows e2.
Proof.
  intros D P2 J2 P1 J1. induction rows as [|row rows IH]; cbn [upsert].
  - rewrite D, jseqb_refl. rewrite P2, J2, P1, J1. cbn [coalesce].
    destruct e2; cbn in *; subst. reflexivity.
  - rewrite D. destruct (jseqb (date row) (date e2)) eqn:E; cbn [upsert].
    + cbn [date]. rewrite E. cbn [productive_seconds projects_json].
      rewrite P2, J2, P1, J1. reflexivity.
    + rewrite E, IH. reflexivity.
Qed.

(** X10: of two refreshes of the summary of one date only the later one
    is kept: the database after both is the database after the later one
    alone, whatever configuration, total and count the earlier one
    wrote. *)
Theorem updateDailySummaryInDB_last_wins
    (db : WorkTrackerDB) (cfg1 cfg2 : Config) (d : jsstring)
    (t1 t2 : Q) (n1 n2 : nat) :
  updateDailySummaryInDB (updateDailySummaryInDB db cfg1 d t1 n1) cfg2 d t2 n2
  = updateDailySummaryInDB db cfg2 d t2 n2.
Proof.
  unfold updateDailySummaryInDB.
  destruct (isAvailable db) eqn:A; [|cbn [negb orb]; rewrite A; reflexivity].
  destruct (initialized db) eqn:I;
    [|cbn [negb orb]; rewrite A, I; reflexivity].
  cbn [negb orb]. unfold updateDailySummary, ready. rewrite I.
  cbn [negb andb snd isAvailable Database initialized init_ok activity_log
       daily_summary].
  unfold isAvailable in A. rewrite A. cbn [negb orb andb snd].
  cbn [isAvailable Database initialized init_ok activity_log daily_summary].
  rewrite upsert_again; reflexivity.
Qed.

Lemma updateWorkTime_db (db : WorkTrackerDB) (cfg : Config) (now : Z) :
  isAvailable db = true -> init db = true ->
  let u := updateWorkTime db cfg now in
  let result := snd (fst u) in
  fst (fst u)
  = mkDB true true (init_ok db) (activity_log db)
      (upsert (daily_summary db)
         (mkDailySummary (toISODate now)
            (Some (WorkTrackerJs.totalSeconds
                     (WorkTrackerJs.totalWorkTime result)))
            (Some (dailyGoalMinutes cfg * 60)%Q)
            (Some (inject_Z (Z.of_nat (WorkTrackerJs.sessionsCount result))))
            None None)).
Proof.
  intros A I. cbv zeta. unfold updateWorkTime. cbn [fst snd].
  rewrite A. unfold afterGuard, updateDailySummaryInDB, updateDailySummary.
  unfold isAvailable in A.
  destruct (initialized db) eqn:E.
  - unfold isAvailable, ready. rewrite A, E. cbn [negb orb andb snd].
    rewrite ?A. reflexivity.
  - rewrite I. unfold isAvailable, ready.
    cbn [Database initialized negb orb andb snd init_ok activity_log
         daily_summary].
    rewrite ?A. reflexivity.
Qed.

Lemma streak_today (db : WorkTrackerDB) (cfg : Config) (now : Z) :
  isAvailable db = true -> initialized db = true ->
  1 <= calculateStreak db cfg now <->
  goalReached db (dailyGoalMinutes cfg * 60)%Q now = true.
Proof.
  intros A I.
  destruct (calculateStreak_counts db cfg now A I) as (_ & B & Y & N).
  cbv zeta in *. split; intros H.
  - specialize (Y 0 ltac:(lia)). rewrite Z.mul_0_l, Z.sub_0_r in Y. exact Y.
  - destruct (Z.eq_dec (calculateStreak db cfg now) 0) as [Z0 | Z0]; [|lia].
    rewrite Z0 in N. specialize (N ltac:(lia)).
    rewrite Z.mul_0_l, Z.sub_0_r in N. congruence.
Qed.

(** X11: after one run of the periodic refresh on a usable database the
    summary of the current date holds the total and the session count of
    the analysis just shown and a goal of [dailyGoalMinutes * 60] seconds,
    and the streak is at least one exactly when that total reaches that
    goal. *)
Theorem updateWorkTime_stores_today
    (db : WorkTrackerDB) (cfg : Config) (now : Z) :
  isAvailable db = true -> init db = true ->
  let u := updateWorkTime db cfg now in
  let db' := fst (fst u) in
  let t := WorkTrackerJs.totalSeconds
             (WorkTrackerJs.totalWorkTime (snd (fst u))) in
  (exists row,
     getDailySummary db' (toISODate now) = Some row /\
     total_work_seconds row = Some t /\
     goal_seconds row = Some (dailyGoalMinutes cfg * 60)%Q /\
     sessions_count row
     = Some (inject_Z (Z.of_nat (WorkTrackerJs.sessionsCount (snd (fst u)))))) /\
  (1 <= calculateStreak db' cfg now <-> (dailyGoalMinutes cfg * 60 <= t)%Q).
Proof.
  intros A I. cbv zeta.
  pose proof (updateWorkTime_db db cfg now A I) as E. cbv zeta in E.
  set (u := updateWorkTime db cfg now) in *.
  set (e := mkDailySummary _ _ _ _ _ _) in E.
  assert (G : getDailySummary (fst (fst u)) (toISODate now)
              = find (fun row => jseqb (date row) (date e))
                     (upsert (daily_summary db) e)).
  { rewrite E. reflexivity. }
  rewrite find_upsert_same in G.
  split.
  - eexists. split; [exact G|]. cbn. repeat split.
  - rewrite streak_today by (rewrite E; reflexivity).
    unfold goalReached. rewrite G.
    cbn [total_work_seconds e orZero]. apply Qle_bool_iff.
Qed.

Lemma updateWorkTime_stores_today_witness :
  let u := updateWorkTime (dbOf scenarioPlain)
             (mkConfig [str "VSCode"] [] 480 []) (at_ 12 0) in
  1 <= calculateStreak (fst (fst u)) (mkConfig [str "VSCode"] [] 480 [])
         (at_ 12 0)
  <-> (480 * 60 <= WorkTrackerJs.totalSeconds
                     (WorkTrackerJs.totalWorkTime (snd (fst u))))%Q.
Proof.
  apply (updateWorkTime_stores_today (dbOf scenarioPlain)
           (mkConfig [str "VSCode"] [] 480 []) (at_ 12 0)).
  - reflexivity.
  - reflexivity.
Defined.

Lemma analyzeWorkTime_total_nonneg
    (db : WorkTrackerDB) (cfg : Config) (now : Z)
    (targetDate : option jsstring) :
  (0 <= WorkTrackerJs.totalSeconds
          (WorkTrackerJs.totalWorkTime
             (WorkTrackerJs.analyzeWorkTime db cfg now targetDate)))%Q.
Proof.
  unfold WorkTrackerJs.analyzeWorkTime.
  set (d := if truthy targetDate then orEmpty targetDate else toISODate now).
  destruct (negb (isAvailable db)); [apply Qle_refl|].
  destruct (negb (initialized db) && negb (init db)); [apply Qle_refl|].
  destruct (calculateWorkTimeForDate db now d _ _) as [r|] eqn:C;
    [|apply Qle_refl].
  cbn [WorkTrackerJs.totalWorkTime WorkTrackerJs.totalSeconds].
  unfold calculateWorkTimeForDate in C.
  destruct (negb (ready db)); [discriminate|].
  destruct (length (getActivityForDate db d) =? 0)%nat; [discriminate|].
  injection C as <-.
  destruct (tally_reconstruct (getActivityForDate db d) d now
              (WorkTrackerJs.getProductiveApps cfg)
              (WorkTrackerJs.getProductiveWebsites cfg)) as (W & T & _).
  rewrite T. apply sumDurations_nonneg, W.
Qed.

(** X12: the refresh announces the goal as complete exactly when the day
    it has just stored counts for the streak, provided the configured goal
    is not zero; with a goal of zero the stored day always counts, while
    completion is measured against the default of 480 minutes. *)
Theorem updateWorkTime_goal_and_streak
    (db : WorkTrackerDB) (cfg : Config) (now : Z) :
  isAvailable db = true -> init db = true ->
  let u := updateWorkTime db cfg now in
  let db' := fst (fst u) in
  let t := WorkTrackerJs.totalSeconds
             (WorkTrackerJs.totalWorkTime (snd (fst u))) in
  (~ (dailyGoalMinutes cfg == 0)%Q ->
   (isComplete (snd u) = true <-> 1 <= calculateStreak db' cfg now)) /\
  ((dailyGoalMinutes cfg == 0)%Q ->
   1 <= calculateStreak db' cfg now /\
   (isComplete (snd u) = true <-> (28800 <= t)%Q)).
Proof.
  intros A I. cbv zeta.
  pose proof (updateWorkTime_db db cfg now A I) as E. cbv zeta in E.
  set (u := updateWorkTime db cfg now) in *.
  set (e := mkDailySummary _ _ _ _ _ _) in E.
  assert (G : getDailySummary (fst (fst u)) (toISODate now)
              = find (fun row => jseqb (date row) (date e))
                     (upsert (daily_summary db) e)).
  { rewrite E. reflexivity. }
  rewrite find_upsert_same in G.
  assert (S : 1 <= calculateStreak (fst (fst u)) cfg now <->
              (dailyGoalMinutes cfg * 60 <=
               WorkTrackerJs.totalSeconds
                 (WorkTrackerJs.totalWorkTime (snd (fst u))))%Q).
  { rewrite streak_today by (rewrite E; reflexivity).
    unfold goalReached. rewrite G.
    cbn [total_work_seconds e orZero]. apply Qle_bool_iff. }
  assert (C : isComplete (snd u) = true <->
              (orNumber (dailyGoalMinutes cfg) 480 * 60 <=
               WorkTrackerJs.totalSeconds
                 (WorkTrackerJs.totalWorkTime (snd (fst u))))%Q).
  { unfold u, updateWorkTime. cbn [fst snd].
    unfold getDailyGoalProgress. cbn [isComplete]. apply Qle_bool_iff. }
  assert (P : (0 <= WorkTrackerJs.totalSeconds
                      (WorkTrackerJs.totalWorkTime (snd (fst u))))%Q).
  { unfold u, updateWorkTime. cbn [fst snd].
    apply analyzeWorkTime_total_nonneg. }
  unfold orNumber in C. split; intros Z0.
  - destruct (Qeq_bool (dailyGoalMinutes cfg) 0) eqn:Q0;
      [apply Qeq_bool_eq in Q0; contradiction|].
    rewrite C, S. reflexivity.
  - rewrite (Qeq_eq_bool _ _ Z0) in C. split.
    + apply S. rewrite Z0. lra.
    + rewrite C. split; intros; lra.
Qed.

(** Four hours worked against a goal of one hour: the goal is announced
    and the streak counts the day. *)
Lemma updateWorkTime_goal_and_streak_witness :
  let cfg := mkConfig [str "VSCode"] [] 60 [] in
  let db := dbOf [sample (at_ 8 0) "VSCode" "a.js"] in
  let u := updateWorkTime db cfg (at_ 12 0) in
  isComplete (snd u) = true <-> 1 <= calculateStreak (fst (fst u)) cfg (at_ 12 0).
Proof.
  cbv zeta.
  apply (updateWorkTime_goal_and_streak
           (dbOf [sample (at_ 8 0) "VSCode" "a.js"])
           (mkConfig [str "VSCode"] [] 60 []) (at_ 12 0)).
  - reflexivity.
  - reflexivity.
  - vm_compute. discriminate.
Defined.

(* ================================================================= *)
(** ** The hourly histogram *)

Lemma getHours_range (tz t : Z) : 0 <= getHours tz t < 24.
Proof. unfold getHours. apply Z.mod_pos_bound. lia. Qed.

Lemma endOfHourOf_ge (tz t : Z) :
  t <= endOfHourOf tz t < t + msPerHour.
Proof.
  unfold endOfHourOf, msPerHour.
  pose proof (Z.div_mod (t + tz) 3600000 ltac:(lia)).
  pose proof (Z.mod_pos_bound (t + tz) 3600000 ltac:(lia)). lia.
Qed.

Lemma mathRound_minutes (x : Z) :
  x - 30000 < 60000 * mathRound (x # 60000) <= x + 30000.
Proof.
  unfold mathRound, Qplus, Qfloor. cbn [Qnum Qden].
  change (Z.pos (60000 * 2)) with 120000.
  change (Z.pos 60000) with 60000. change (Z.pos 2) with 2.
  pose proof (Z.div_mod (x * 2 + 1 * 60000) 120000 ltac:(lia)).
  pose proof (Z.mod_pos_bound (x * 2 + 1 * 60000) 120000 ltac:(lia)). lia.
Qed.

Lemma addAt_length (hm : list Z) (h : nat) (v : Z) :
  length (addAt hm h v) = length hm.
Proof.
  revert h; induction hm as [|x hm IH]; intros h; [reflexivity|].
  destruct h; cbn [addAt length]; [reflexivity | rewrite IH; reflexivity].
Qed.

Lemma addAt_sum (hm : list Z) (h : nat) (v : Z) :
  (h < length hm)%nat -> sumMinutes (addAt hm h v) = sumMinutes hm + v.
Proof.
  revert h; induction hm as [|x hm IH]; intros h H; [cbn in H; lia|].
  destruct h; cbn [addAt]; unfold sumMinutes in *; cbn [fold_right].
  - lia.
  - rewrite IH by (cbn in H; lia). lia.
Qed.

Lemma addAt_nonneg (hm : list Z) (h : nat) (v : Z) :
  0 <= v -> Forall (fun m => 0 <= m) hm ->
  Forall (fun m => 0 <= m) (addAt hm h v).
Proof.
  intros Hv. revert h; induction hm as [|x hm IH]; intros h F; [constructor|].
  inversion F; subst. destruct h; cbn [addAt]; constructor; auto; lia.
Qed.

Lemma addTimeLoop_wellFormed (n : nat) (tz : Z) (hm : list Z) (c e : Z) :
  wellFormedHistogram hm -> wellFormedHistogram (addTimeLoop n tz hm c e).
Proof.
  revert hm c; induction n as [|n IH]; intros hm c W; [exact W|].
  cbn [addTimeLoop]. destruct (Z.ltb_spec c e) as [L | L]; [|exact W].
  apply IH. destruct W as [W1 W2]. split.
  - rewrite addAt_length. exact W1.
  - apply addAt_nonneg; [|exact W2].
    pose proof (endOfHourOf_ge tz c) as [B _].
    match goal with |- 0 <= mathRound (?x # _) =>
      assert (0 <= x) by (destruct (endOfHourOf tz c <? e); lia);
      pose proof (mathRound_minutes x) end.
    lia.
Qed.

Lemma hourlyStep_wellFormed (tz : Z) (apps sites : list jsstring)
    (v : HourlyVars) (a : Activity) :
  wellFormedHistogram (hourlyMinutes v) ->
  wellFormedHistogram (hourlyMinutes (hourlyStep tz apps sites v a)).
Proof.
  intros W. unfold hourlyStep, addTimeToHours.
  repeat match goal with
         | |- context [if ?b then _ else _] => destruct b
         | |- context [match hSessionStart v with _ => _ end] =>
             destruct (hSessionStart v)
         end;
    cbn [hourlyMinutes]; try exact W; apply addTimeLoop_wellFormed, W.
Qed.

(** Read with a constant offset, the handler returns 24 buckets, none of
    them negative. *)
Lemma getHourlyStats_fixed_wellFormed
    (db : WorkTrackerDB) (cfg : Config) (tz now : Z) (d : jsstring) :
  wellFormedHistogram (getHourlyStats db cfg tz now d).
Proof.
  assert (W0 : wellFormedHistogram (List.repeat 0 24)).
  { split; [reflexivity|]. apply Forall_forall. intros x Hx.
    apply repeat_spec in Hx. lia. }
  unfold getHourlyStats.
  destruct (negb (isAvailable db) || negb (initialized db)); [exact W0|].
  destruct (length (getActivityForDate db d) =? 0)%nat; [exact W0|].
  set (f := hourlyStep tz (productiveApps cfg) (productiveWebsites cfg)).
  assert (W : forall l v, wellFormedHistogram (hourlyMinutes v) ->
                wellFormedHistogram (hourlyMinutes (fold_left f l v))).
  { induction l as [|a l IH]; intros v Hv; [exact Hv|].
    cbn [fold_left]. apply IH, hourlyStep_wellFormed, Hv. }
  specialize (W (getActivityForDate db d)
                (mkHourlyVars (List.repeat 0 24) false None) W0).
  destruct (hSessionStart _); [|exact W].
  destruct (negb _); [|exact W].
  destruct (jseqb d (toISODate now)); [|exact W].
  apply addTimeLoop_wellFormed, W.
Qed.

Lemma hoursTouched_next (tz c e : Z) :
  c < e ->
  hoursTouched tz c e = S (hoursTouched tz (endOfHourOf tz c + 1) e).
Proof.
  intros L.
  assert (D : (c + tz) / msPerHour <= (e - 1 + tz) / msPerHour)
    by (apply Z.div_le_mono; [reflexivity | lia]).
  unfold hoursTouched. rewrite next_hour. lia.
Qed.

Lemma hoursTouched_done (tz c e : Z) :
  c < e -> e <= endOfHourOf tz c + 1 ->
  hoursTouched tz (endOfHourOf tz c + 1) e = 0%nat.
Proof.
  intros L H. unfold hoursTouched. rewrite next_hour.
  assert ((e - 1 + tz) / msPerHour <= (c + tz) / msPerHour); [|lia].
  unfold endOfHourOf, msPerHour in *.
  apply Z.lt_succ_r, Z.div_lt_upper_bound; lia.
Qed.

Lemma addTimeLoop_sum (n : nat) (tz : Z) (hm : list Z) (c e : Z) :
  length hm = 24%nat -> c < e -> (hoursTouched tz c e <= n)%nat ->
  let k := Z.of_nat (hoursTouched tz c e) in
  let gained := sumMinutes (addTimeLoop n tz hm c e) - sumMinutes hm in
  (e - c) - 30001 * k < 60000 * gained <= (e - c) + 30000 * k.
Proof.
  revert hm c; induction n as [|n IH]; intros hm c W L F; cbv zeta.
  - rewrite (hoursTouched_next tz c e L) in F. lia.
  - cbn [addTimeLoop]. destruct (Z.ltb_spec c e) as [_ | C]; [|lia].
    pose proof (getHours_range tz c) as R.
    pose proof (endOfHourOf_ge tz c) as [B _].
    pose proof (hoursTouched_done tz c e L) as HD.
    rewrite (hoursTouched_next tz c e L) in *.
    set (c' := endOfHourOf tz c + 1) in *.
    set (seg := (if endOfHourOf tz c <? e then endOfHourOf tz c else e) - c).
    pose proof (mathRound_minutes seg) as M.
    set (hm1 := addAt hm (Z.to_nat (getHours tz c)) (mathRound (seg # 60000))).
    assert (W1 : length hm1 = 24%nat) by (unfold hm1; rewrite addAt_length; exact W).
    assert (S1 : sumMinutes hm1 = sumMinutes hm + mathRound (seg # 60000)).
    { unfold hm1. apply addAt_sum. rewrite W. lia. }
    destruct (Z.lt_ge_cases c' e) as [L' | L'].
    + specialize (IH hm1 c' W1 L' ltac:(lia)). cbv zeta in IH.
      assert (Es : seg = c' - 1 - c).
      { unfold seg, c'. destruct (Z.ltb_spec (endOfHourOf tz c) e); lia. }
      lia.
    + rewrite (addTimeLoop_done n tz hm1 c' e L').
      rewrite (HD L').
      assert (Es : e - c - 1 <= seg <= e - c).
      { unfold seg, c' in *. destruct (Z.ltb_spec (endOfHourOf tz c) e); lia. }
      lia.
Qed.

(** Read with a constant offset, adding a session raises the minutes of
    all buckets together by the length of the session up to rounding. *)
Lemma addTimeToHours_fixed_accounts
    (tz : Z) (hourlyMinutes : list Z) (s e : Z) :
  length hourlyMinutes = 24%nat -> s < e ->
  let k := Z.of_nat (hoursTouched tz s e) in
  let gained := sumMinutes (addTimeToHours tz hourlyMinutes s e)
                - sumMinutes hourlyMinutes in
  (e - s) - 30001 * k < 60000 * gained <= (e - s) + 30000 * k.
Proof.
  intros W L. apply addTimeLoop_sum; [exact W | exact L | apply Nat.le_refl].
Qed.

(** A session inside one clock hour, the case met by most samples. *)
Lemma addTimeToHours_one_hour (tz : Z) (hm : list Z) (s e : Z) :
  s < e -> e <= endOfHourOf tz s + 1 ->
  addTimeToHours tz hm s e
  = addAt hm (Z.to_nat (getHours tz s))
      (mathRound ((Z.min e (endOfHourOf tz s) - s) # 60000)).
Proof.
  intros L H. unfold addTimeToHours.
  rewrite (hoursTouched_next tz s e L), (hoursTouched_done tz s e L H).
  cbn [addTimeLoop]. destruct (Z.ltb_spec s e) as [_ | C]; [|lia].
  destruct (Z.ltb_spec (endOfHourOf tz s) e).
  - rewrite Z.min_r by lia. reflexivity.
  - rewrite Z.min_l by lia. reflexivity.
Qed.

Lemma histogramOfSessions_sum (tz : Z) (l : list Session) (hm : list Z) :
  wellFormedHistogram hm -> Forall wellFormedSession l ->
  let h := fold_left (fun hm s => addTimeToHours tz hm (start s) (end_ s))
                     l hm in
  wellFormedHistogram h /\
  coveredMs l - 30001 * sessionHours tz l
  <= 60000 * (sumMinutes h - sumMinutes hm)
  <= coveredMs l + 30000 * sessionHours tz l.
Proof.
  intros W F. revert hm W. induction F as [|s l [D P] _ IH]; intros hm W.
  - cbv zeta. unfold coveredMs, sessionHours. cbn [fold_left fold_right].
    split; [exact W | lia].
  - cbn [fold_left]. cbv zeta in IH.
    assert (L : start s < end_ s).
    { rewrite D in P. apply (proj1 (Qmake_pos _)) in P. lia. }
    pose proof (addTimeLoop_wellFormed (hoursTouched tz (start s) (end_ s))
                  tz hm (start s) (end_ s) W) as W1.
    fold (addTimeToHours tz hm (start s) (end_ s)) in W1.
    destruct (IH _ W1) as [W2 B].
    pose proof (addTimeLoop_sum (hoursTouched tz (start s) (end_ s)) tz hm
                  (start s) (end_ s) (proj1 W) L (Nat.le_refl _)) as A.
    cbv zeta in A. fold (addTimeToHours tz hm (start s) (end_ s)) in A.
    split; [exact W2|].
    unfold coveredMs, sessionHours in *. cbn [fold_right]. lia.
Qed.

(** X15: for the current date the two walks over the rows agree: the
    histogram returned by the handler is the histogram of the sessions
    that the reconstruction returns. *)
Theorem getHourlyStats_today_is_session_histogram
    (db : WorkTrackerDB) (cfg : Config) (tz now : Z) (d : jsstring)
    (r : WorkTime) :
  isAvailable db = true -> initialized db = true ->
  d = toISODate now ->
  calculateWorkTimeForDate db now d
    (productiveApps cfg) (productiveWebsites cfg) = Some r ->
  getHourlyStats db cfg tz now d = histogramOfSessions tz (sessions r).
Proof. apply getHourlyStats_today. Qed.

Lemma getHourlyStats_today_is_session_histogram_witness :
  getHourlyStats (dbOf scenarioAfk) (mkConfig [str "VSCode"] [] 480 [])
    0 (at_ 12 0) (str "2024-03-15")
  = histogramOfSessions 0
      [session (at_ 9 30) (at_ 10 0); session (at_ 11 0) (at_ 12 0)].
Proof.
  apply (getHourlyStats_today_is_session_histogram (dbOf scenarioAfk)
           (mkConfig [str "VSCode"] [] 480 []) 0 (at_ 12 0)
           (str "2024-03-15")
           (mkWorkTime (0 + (1800000 # 1000) + (3600000 # 1000))
              [session (at_ 9 30) (at_ 10 0); session (at_ 11 0) (at_ 12 0)]
              2)).
  - reflexivity.
  - reflexivity.
  - vm_compute. reflexivity.
  - vm_compute. reflexivity.
Defined.

(** Read with a constant offset, the minutes of the histogram of the
    current date add up to the time covered by the sessions, up to the
    rounding of every clock hour touched. *)
Lemma getHourlyStats_fixed_today_accounts
    (db : WorkTrackerDB) (cfg : Config) (tz now : Z) (d : jsstring)
    (r : WorkTime) :
  isAvailable db = true -> initialized db = true ->
  d = toISODate now ->
  calculateWorkTimeForDate db now d
    (productiveApps cfg) (productiveWebsites cfg) = Some r ->
  let minutes := sumMinutes (getHourlyStats db cfg tz now d) in
  let k := sessionHours tz (sessions r) in
  coveredMs (sessions r) - 30001 * k <= 60000 * minutes
  <= coveredMs (sessions r) + 30000 * k.
Proof.
  intros A I E C. cbv zeta.
  rewrite (getHourlyStats_today db cfg tz now d r A I E C).
  unfold calculateWorkTimeForDate in C.
  destruct (negb (ready db)); [discriminate|].
  destruct (length (getActivityForDate db d) =? 0)%nat; [discriminate|].
  injection C as <-.
  destruct (tally_reconstruct (getActivityForDate db d) d now
              (productiveApps cfg) (productiveWebsites cfg)) as (W & _ & _).
  assert (W0 : wellFormedHistogram (List.repeat 0 24)).
  { split; [reflexivity|]. apply Forall_forall. intros x Hx.
    apply repeat_spec in Hx. lia. }
  destruct (histogramOfSessions_sum tz _ _ W0 W) as [_ B].
  unfold histogramOfSessions.
  change (sumMinutes (List.repeat 0 24)) with 0 in B.
  rewrite Z.sub_0_r in B. exact B.
Qed.

(* ----------------------------------------------------------------- *)
(** *** The histogram in the time zone of the system *)

(** In a zone of constant offset the loop of [addTimeToHours] leaves after
    one round for every clock hour touched, with the buckets of the
    constant-offset reading. *)
Lemma addTimeLoop_fixedOffset (zone : SystemZone) (tz : Z) (e : Z) :
  fixedOffset tz zone ->
  forall (fuel : nat) (hm : list Z) (c : Z),
    (hoursTouched tz c e < fuel)%nat ->
    InZone.addTimeLoop zone fuel hm c e = Some (addTimeToHours tz hm c e).
Proof.
  intros F. induction fuel as [|fuel IH]; intros hm c H; [lia|].
  cbn [InZone.addTimeLoop]. destruct (Z.ltb_spec c e) as [L | L].
  - destruct (F c) as (G & M & _). rewrite G, M.
    rewrite (hoursTouched_next tz c e L) in H.
    rewrite IH by lia. unfold addTimeToHours.
    rewrite (hoursTouched_next tz c e L). cbn [addTimeLoop].
    destruct (Z.ltb_spec c e); [reflexivity | lia].
  - rewrite addTimeToHours_empty by exact L. reflexivity.
Qed.

Lemma hourlyStep_fixedOffset (zone : SystemZone) (tz : Z)
    (apps sites : list jsstring) (v : HourlyVars) (a : Activity) :
  fixedOffset tz zone ->
  exists n, forall fuel, (n <= fuel)%nat ->
    InZone.hourlyStep zone fuel apps sites v a
    = Some (hourlyStep tz apps sites v a).
Proof.
  intros F.
  destruct (hSessionStart v) as [s|] eqn:E.
  - exists (S (hoursTouched tz s (timestamp a))). intros fuel H.
    unfold InZone.hourlyStep, hourlyStep, InZone.addTimeToHours. rewrite E.
    rewrite (addTimeLoop_fixedOffset zone tz (timestamp a) F fuel
               (hourlyMinutes v) s) by lia.
    destruct (is_afk a); [destruct (afk_type_is a "start")|].
    + destruct (negb (hIsAfk v)); reflexivity.
    + destruct (afk_type_is a "end"); reflexivity.
    + destruct (hIsAfk v); [reflexivity|].
      destruct (isProductiveActivity _ _ _ _); reflexivity.
  - exists 0%nat. intros fuel _.
    unfold InZone.hourlyStep, hourlyStep. rewrite E.
    destruct (is_afk a); [destruct (afk_type_is a "start")|].
    + reflexivity.
    + destruct (afk_type_is a "end"); reflexivity.
    + destruct (hIsAfk v); [reflexivity|].
      destruct (isProductiveActivity _ _ _ _); reflexivity.
Qed.

Lemma hourlyLoop_fixedOffset (zone : SystemZone) (tz : Z)
    (apps sites : list jsstring) (l : list Activity) (v : HourlyVars) :
  fixedOffset tz zone ->
  exists n, forall fuel, (n <= fuel)%nat ->
    InZone.hourlyLoop zone fuel apps sites l v
    = Some (fold_left (hourlyStep tz apps sites) l v).
Proof.
  intros F. revert v. induction l as [|a l IH]; intros v.
  - exists 0%nat. reflexivity.
  - destruct (hourlyStep_fixedOffset zone tz apps sites v a F) as [n1 H1].
    destruct (IH (hourlyStep tz apps sites v a)) as [n2 H2].
    exists (Nat.max n1 n2). intros fuel H.
    cbn [InZone.hourlyLoop fold_left].
    rewrite H1 by lia. apply H2. lia.
Qed.

(** In a zone of constant offset the handler returns, and it returns what
    the constant-offset reading gives. *)
Lemma getHourlyStats_fixedOffset (zone : SystemZone) (tz : Z)
    (db : WorkTrackerDB) (cfg : Config) (now : Z) (d : jsstring) :
  fixedOffset tz zone ->
  exists n, forall fuel, (n <= fuel)%nat ->
    InZone.getHourlyStats zone fuel db cfg now d
    = Some (getHourlyStats db cfg tz now d).
Proof.
  intros F.
  destruct (hourlyLoop_fixedOffset zone tz (productiveApps cfg)
              (productiveWebsites cfg) (getActivityForDate db d)
              (mkHourlyVars (List.repeat 0 24) false None) F) as [n1 H1].
  set (v := fold_left
              (hourlyStep tz (productiveApps cfg) (productiveWebsites cfg))
              (getActivityForDate db d)
              (mkHourlyVars (List.repeat 0 24) false None)) in *.
  exists (Nat.max n1
            (S (hoursTouched tz
                  (match hSessionStart v with Some s => s | None => 0 end)
                  now))).
  intros fuel H. unfold InZone.getHourlyStats, getHourlyStats.
  destruct (negb (isAvailable db) || negb (initialized db)); [reflexivity|].
  destruct (length (getActivityForDate db d) =? 0)%nat; [reflexivity|].
  rewrite H1 by lia. fold v.
  destruct (hSessionStart v) as [s|]; [|reflexivity].
  destruct (negb (hIsAfk v)); [|reflexivity].
  destruct (jseqb d (toISODate now)); [|reflexivity].
  apply (addTimeLoop_fixedOffset zone tz now F). lia.
Qed.

Lemma fixedOffsetZone_fixedOffset (tz : Z) :
  fixedOffset tz (fixedOffsetZone tz).
Proof. intros t. repeat split. Qed.

(** X13: in a time zone of constant offset the handler of the hourly
    statistics returns, and what it returns are 24 buckets, none of them
    negative. *)
Theorem getHourlyStats_wellFormed
    (zone : SystemZone) (tz : Z)
    (db : WorkTrackerDB) (cfg : Config) (now : Z) (d : jsstring) :
  fixedOffset tz zone ->
  exists n, forall fuel, (n <= fuel)%nat ->
    exists h,
      InZone.getHourlyStats zone fuel db cfg now d = Some h /\
      wellFormedHistogram h.
Proof.
  intros F.
  destruct (getHourlyStats_fixedOffset zone tz db cfg now d F) as [n H].
  exists n. intros fuel Hf. eexists. split; [apply H, Hf|].
  apply getHourlyStats_fixed_wellFormed.
Qed.

Lemma getHourlyStats_wellFormed_witness :
  exists n, forall fuel, (n <= fuel)%nat ->
    exists h,
      InZone.getHourlyStats (fixedOffsetZone 3600000) fuel
        (dbOf scenarioAfk) (mkConfig [str "VSCode"] [] 480 []) (at_ 12 0)
        (str "2024-03-15") = Some h /\
      wellFormedHistogram h.
Proof.
  apply (getHourlyStats_wellFormed (fixedOffsetZone 3600000) 3600000).
  apply fixedOffsetZone_fixedOffset.
Defined.

(** In the hour that a change back from summer time repeats,
    [setMinutes(59, 59, 999)] gives the end of the first occurrence of
    the hour, one millisecond before the change: from an instant of the
    repeated hour the loop comes back to the change and stays there. *)
Lemma addTimeLoop_repeated_hour (zone : SystemZone) (lo hi e : Z) :
  (forall t, lo <= t < hi -> setMinutes_59_59_999 zone t = lo - 1) ->
  lo < e ->
  forall (fuel : nat) (hm : list Z) (c : Z),
    lo <= c < hi -> c < e ->
    InZone.addTimeLoop zone fuel hm c e = None.
Proof.
  intros R Le. induction fuel as [|fuel IH]; intros hm c Hc L; [reflexivity|].
  cbn [InZone.addTimeLoop]. destruct (Z.ltb_spec c e) as [_ | C]; [|lia].
  rewrite (R c Hc). replace (lo - 1 + 1) with lo by lia.
  apply IH; lia.
Qed.

(** X14: in a time zone of constant offset, adding an interval to the
    histogram returns after one round for every clock hour touched and
    raises the minutes of all buckets together by the length of the
    interval up to rounding: the error is at most half a minute, and one
    millisecond more downwards, for every clock hour touched.  In a zone
    that repeats an hour, where [setMinutes(59, 59, 999)] gives the
    millisecond before the repeated hour begins, the loop does not leave
    for an interval that starts in the repeated hour. *)
Theorem addTimeToHours_accounts
    (zone : SystemZone) (hourlyMinutes : list Z) (s e : Z) :
  s < e ->
  (forall tz fuel,
     fixedOffset tz zone -> length hourlyMinutes = 24%nat ->
     (hoursTouched tz s e < fuel)%nat ->
     exists h,
       InZone.addTimeToHours zone fuel hourlyMinutes s e = Some h /\
       let k := Z.of_nat (hoursTouched tz s e) in
       let gained := sumMinutes h - sumMinutes hourlyMinutes in
       (e - s) - 30001 * k < 60000 * gained <= (e - s) + 30000 * k) /\
  (forall lo hi fuel,
     (forall t, lo <= t < hi -> setMinutes_59_59_999 zone t = lo - 1) ->
     lo <= s < hi ->
     InZone.addTimeToHours zone fuel hourlyMinutes s e = None).
Proof.
  intros L. split.
  - intros tz fuel F W H. eexists. split.
    + apply (addTimeLoop_fixedOffset zone tz e F fuel hourlyMinutes s H).
    + apply addTimeToHours_fixed_accounts; assumption.
  - intros lo hi fuel R Hs.
    apply (addTimeLoop_repeated_hour zone lo hi e R ltac:(lia));
      [exact Hs | exact L].
Qed.


Lemma fallBackZone_repeated_hour (summer change : Z) :
  (change + summer) mod msPerHour = 0 ->
  forall t, change <= t < change + msPerHour ->
    setMinutes_59_59_999 (fallBackZone summer change) t = change - 1.
Proof.
  intros M t Ht. unfold fallBackZone, msPerHour in *.
  cbn [setMinutes_59_59_999].
  destruct (Z.ltb_spec t change) as [C | _]; [lia|].
  pose proof (Z.div_mod (change + summer) 3600000 ltac:(lia)) as D.
  rewrite M in D.
  set (q := (change + summer) / 3600000) in *.
  assert (E : (t + (summer - 3600000)) / 3600000 = q - 1).
  { symmetry. apply (Z.div_unique _ _ _ (t - change)); lia. }
  rewrite E.
  destruct (Z.ltb_spec ((q - 1) * 3600000 + 3599999 - summer) change); lia.
Qed.

(** An hour and a half from 09:30 in a zone of constant offset; and an
    interval from 06:30 in a zone four hours behind UTC that changes back
    at 06:00 (UTC), so that the local hour from 01:00 occurs twice. *)
Lemma addTimeToHours_accounts_witness :
  (exists h,
     InZone.addTimeToHours (fixedOffsetZone 0) 3 (List.repeat 0 24)
       (at_ 9 30) (at_ 11 0) = Some h /\
     (at_ 11 0 - at_ 9 30) - 30001 * 2
     < 60000 * (sumMinutes h - sumMinutes (List.repeat 0 24))
     <= (at_ 11 0 - at_ 9 30) + 30000 * 2) /\
  InZone.addTimeToHours (fallBackZone (-14400000) (at_ 6 0)) 1000
    (List.repeat 0 24) (at_ 6 30) (at_ 8 0) = None.
Proof.
  split.
  - destruct (addTimeToHours_accounts (fixedOffsetZone 0) (List.repeat 0 24)
                (at_ 9 30) (at_ 11 0) eq_refl) as [P _].
    apply (P 0 3%nat).
    + apply fixedOffsetZone_fixedOffset.
    + reflexivity.
    + vm_compute. lia.
  - destruct (addTimeToHours_accounts (fallBackZone (-14400000) (at_ 6 0))
                (List.repeat 0 24) (at_ 6 30) (at_ 8 0) eq_refl) as [_ P].
    apply (P (at_ 6 0) (at_ 6 0 + msPerHour) 1000%nat).
    + apply fallBackZone_repeated_hour. reflexivity.
    + vm_compute. split; [discriminate | reflexivity].
Defined.

(** X16: in a time zone of constant offset, for the current date, the
    handler returns and the minutes of its buckets add up to the time
    covered by the sessions of the day, taken from their start and end
    instants, up to half a minute (and one millisecond) for every clock
    hour that a session touches. *)
Theorem getHourlyStats_today_accounts
    (zone : SystemZone) (tz : Z)
    (db : WorkTrackerDB) (cfg : Config) (now : Z) (d : jsstring)
    (r : WorkTime) :
  fixedOffset tz zone ->
  isAvailable db = true -> initialized db = true ->
  d = toISODate now ->
  calculateWorkTimeForDate db now d
    (productiveApps cfg) (productiveWebsites cfg) = Some r ->
  exists n, forall fuel, (n <= fuel)%nat ->
    exists h,
      InZone.getHourlyStats zone fuel db cfg now d = Some h /\
      let k := sessionHours tz (sessions r) in
      coveredMs (sessions r) - 30001 * k <= 60000 * sumMinutes h
      <= coveredMs (sessions r) + 30000 * k.
Proof.
  intros F A I E C.
  destruct (getHourlyStats_fixedOffset zone tz db cfg now d F) as [n H].
  exists n. intros fuel Hf. eexists. split; [apply H, Hf|].
  apply (getHourlyStats_fixed_today_accounts db cfg tz now d r A I E C).
Qed.

Lemma getHourlyStats_today_accounts_witness :
  exists n, forall fuel, (n <= fuel)%nat ->
    exists h,
      InZone.getHourlyStats (fixedOffsetZone 0) fuel (dbOf scenarioAfk)
        (mkConfig [str "VSCode"] [] 480 []) (at_ 12 0) (str "2024-03-15")
      = Some h /\
      5400000 - 30001 * 2 <= 60000 * sumMinutes h <= 5400000 + 30000 * 2.
Proof.
  apply (getHourlyStats_today_accounts (fixedOffsetZone 0) 0
           (dbOf scenarioAfk) (mkConfig [str "VSCode"] [] 480 [])
           (at_ 12 0) (str "2024-03-15")
           (mkWorkTime (0 + (1800000 # 1000) + (3600000 # 1000))
              [session (at_ 9 30) (at_ 10 0); session (at_ 11 0) (at_ 12 0)]
              2)).
  - apply fixedOffsetZone_fixedOffset.
  - reflexivity.
  - reflexivity.
  - vm_compute. reflexivity.
  - vm_compute. reflexivity.
Defined.
(* ================================================================= *)
(** ** The streak *)

(** In a zone of constant offset the day before is 24 hours earlier. *)
Lemma dayAsked_fixedOffset (tz : Z) (zone : SystemZone) (now : Z) (k : nat) :
  fixedOffset tz zone -> dayAsked zone now k = now - Z.of_nat k * msPerDay.
Proof.
  intros F. revert now; induction k as [|k IH]; intros now.
  - cbn [dayAsked]. change (Z.of_nat 0) with 0. lia.
  - cbn [dayAsked]. rewrite IH. destruct (F now) as (_ & _ & ->). lia.
Qed.

(** X17: in every time zone of the system the streak is always computed
    (the loop ends within 367 rounds), lies between 0 and 366, and counts
    the days asked one after the other, from the current instant back by
    [setDate(getDate() - 1)], whose stored total reaches the current goal:
    every day asked within the streak reaches it, and the day asked next,
    when the streak is below the limit, does not.  In a zone of constant
    offset the days asked are 24 hours apart. *)
Theorem calculateStreak_characterised
    (zone : SystemZone) (db : WorkTrackerDB) (cfg : Config) (now : Z) :
  isAvailable db = true -> initialized db = true ->
  let g := (dailyGoalMinutes cfg * 60)%Q in
  let r := InZone.calculateStreak zone db cfg now in
  InZone.streakLoop zone 367 db g 0 now = Some r /\
  0 <= r <= 366 /\
  (forall k : nat, Z.of_nat k < r ->
     goalReached db g (dayAsked zone now k) = true) /\
  (r < 366 -> goalReached db g (dayAsked zone now (Z.to_nat r)) = false) /\
  (forall tz, fixedOffset tz zone ->
     forall k : nat, dayAsked zone now k = now - Z.of_nat k * msPerDay).
Proof.
  intros A I.
  destruct (zoned_calculateStreak_counts zone db cfg now A I)
    as (E & B & C & D).
  cbv zeta in *. repeat split; try assumption; try lia.
  intros tz F k. apply (dayAsked_fixedOffset tz), F.
Qed.

(** Three stored days of 30000 seconds against a goal of 480 minutes, the
    current one and the two UTC dates before it, in a zone that has left
    summer time half an hour before the current instant: the day before
    is 25 hours earlier and its UTC date is two days back, so the streak
    is 2, and the third day asked has no stored row. *)
Lemma calculateStreak_characterised_witness :
  let zone := fallBackZone 0 (at_ 0 0) in
  let db := summariesBack 3 (at_ 0 30) 30000 28800 in
  let cfg := mkConfig [] [] 480 [] in
  InZone.calculateStreak zone db cfg (at_ 0 30) = 2 /\
  dayAsked zone (at_ 0 30) 1 = at_ 0 30 - 25 * msPerHour /\
  goalReached db (dailyGoalMinutes cfg * 60)%Q
    (dayAsked zone (at_ 0 30)
       (Z.to_nat (InZone.calculateStreak zone db cfg (at_ 0 30)))) = false.
Proof.
  cbv zeta. split; [vm_compute; reflexivity|].
  split; [vm_compute; reflexivity|].
  apply (calculateStreak_characterised
           (fallBackZone 0 (at_ 0 0))
           (summariesBack 3 (at_ 0 30) 30000 28800)
           (mkConfig [] [] 480 []) (at_ 0 30) eq_refl eq_refl).
  vm_compute. reflexivity.
Defined.

Lemma goalReached_antitone (db : WorkTrackerDB) (g1 g2 : Q) (t : Z) :
  (g1 <= g2)%Q -> goalReached db g2 t = true -> goalReached db g1 t = true.
Proof.
  intros L. unfold goalReached.
  destruct (getDailySummary db (toISODate t)) as [row|]; [|discriminate].
  rewrite !Qle_bool_iff. intros H. lra.
Qed.

(** X18: a higher goal never gives a longer streak. *)
Theorem calculateStreak_antitone
    (db : WorkTrackerDB) (cfg1 cfg2 : Config) (now : Z) :
  (dailyGoalMinutes cfg1 <= dailyGoalMinutes cfg2)%Q ->
  calculateStreak db cfg2 now <= calculateStreak db cfg1 now.
Proof.
  intros L.
  destruct (isAvailable db) eqn:A;
    [|unfold calculateStreak; rewrite A; cbn [negb orb]; lia].
  destruct (initialized db) eqn:I;
    [|unfold calculateStreak; rewrite A, I; cbn [negb orb]; lia].
  destruct (calculateStreak_counts db cfg1 now A I) as (_ & B1 & _ & N1).
  destruct (calculateStreak_counts db cfg2 now A I) as (_ & B2 & Y2 & _).
  cbv zeta in *.
  destruct (Z.le_gt_cases (calculateStreak db cfg2 now)
              (calculateStreak db cfg1 now)) as [H | H]; [exact H|].
  exfalso. specialize (N1 ltac:(lia)).
  specialize (Y2 (calculateStreak db cfg1 now) ltac:(lia)).
  apply (goalReached_antitone db (dailyGoalMinutes cfg1 * 60)%Q) in Y2;
    [congruence | lra].
Qed.

Lemma calculateStreak_antitone_witness :
  calculateStreak (summariesBack 3 (at_ 12 0) 30000 28800)
    (mkConfig [] [] 540 []) (at_ 12 0)
  <= calculateStreak (summariesBack 3 (at_ 12 0) 30000 28800)
       (mkConfig [] [] 480 []) (at_ 12 0).
Proof.
  apply calculateStreak_antitone. vm_compute. discriminate.
Defined.

(* ================================================================= *)
(** ** The configuration store *)

Lemma save_frame (w : bool) (st : ConfigStore) :
  heap (snd (save w st)) = heap st /\
  config (snd (save w st)) = config st /\
  DEFAULT_CONFIG (snd (save w st)) = DEFAULT_CONFIG st /\
  nextLoc (snd (save w st)) = nextLoc st.
Proof.
  unfold save. destruct (config st) eqn:E; destruct w;
    cbn [snd heap config DEFAULT_CONFIG nextLoc]; rewrite ?E;
    repeat split; reflexivity.
Qed.

Lemma reset_aliasesDefaults (w : bool) (st : ConfigStore) :
  aliasesDefaults (snd (reset w st)).
Proof.
  unfold reset, aliasesDefaults.
  destruct (save_frame w (setConfig st (DEFAULT_CONFIG st))) as (_ & C & D & _).
  rewrite C, D. cbn. eexists. split; reflexivity.
Qed.

Lemma load_aliasesDefaults (w : bool) (st : ConfigStore) :
  configFile st = NoFile \/ configFile st = Unparsable ->
  aliasesDefaults (load w st).
Proof.
  unfold load, aliasesDefaults. intros [E | E]; rewrite E.
  - destruct (save_frame w (setConfig st (DEFAULT_CONFIG st))) as (_ & C & D & _).
    rewrite C, D. cbn. eexists. split; reflexivity.
  - cbn. eexists. split; reflexivity.
Qed.

Lemma arrayIncludes_app_last (l : list jsstring) (x : jsstring) :
  arrayIncludes (l ++ [x]) x = true.
Proof.
  unfold arrayIncludes. rewrite existsb_app. cbn.
  rewrite jseqb_refl. apply orb_true_iff. right. reflexivity.
Qed.

Lemma writeHeap_same (h : Heap) (l : Loc) (v : list jsstring) :
  writeHeap h l v l = v.
Proof. unfold writeHeap. rewrite Nat.eqb_refl. reflexivity. Qed.

(** The state after [addProductiveApp]: the array referred to contains the
    name, and the references are as before. *)
Lemma addProductiveApp_adds (w : bool) (x : jsstring) (st : ConfigStore)
    (c : ConfigObject) :
  config st = Some c ->
  let st' := snd (addProductiveApp w x st) in
  config st' = Some c /\ DEFAULT_CONFIG st' = DEFAULT_CONFIG st /\
  arrayIncludes (heap st' (productiveAppsRef c)) x = true.
Proof.
  intros C. cbv zeta. unfold addProductiveApp, ensureLoaded. rewrite !C.
  destruct (arrayIncludes (heap st (productiveAppsRef c)) x) eqn:I;
    cbn [negb].
  - cbn [snd]. rewrite C, I. repeat split.
  - match goal with |- context [save w ?s] =>
      destruct (save_frame w s) as (H & C' & D & _) end.
    rewrite H, C', D. cbn [setHeap heap config DEFAULT_CONFIG].
    rewrite writeHeap_same. repeat split; [exact C|].
    apply arrayIncludes_app_last.
Qed.

(** X19: when the configuration in use shares its array of productive
    applications with the defaults, as it does after [reset()] and after a
    load without a usable file, an application added afterwards is added
    to the defaults themselves: a following [reset()] keeps it. *)
Theorem reset_keeps_added_app
    (w1 w2 : bool) (appName : jsstring) (st : ConfigStore) :
  aliasesDefaults st ->
  let st1 := snd (addProductiveApp w1 appName st) in
  let st2 := snd (reset w2 st1) in
  arrayIncludes (currentProductiveApps st2) appName = true /\
  currentProductiveApps st2 = currentProductiveApps st1.
Proof.
  intros (c & C & A). cbv zeta.
  destruct (addProductiveApp_adds w1 appName st c C) as (C1 & D1 & I1).
  cbv zeta in *.
  set (st1 := snd (addProductiveApp w1 appName st)) in *.
  unfold reset, currentProductiveApps.
  destruct (save_frame w2 (setConfig st1 (DEFAULT_CONFIG st1)))
    as (H & C2 & _).
  rewrite C2, H, C1. cbn [setConfig config heap]. rewrite D1, <- A.
  split; [exact I1 | reflexivity].
Qed.

Lemma reset_keeps_added_app_witness :
  let st := snd (reset true (newConfigStore [str "VSCode"] [] NoFile)) in
  let st1 := snd (addProductiveApp true (str "Slack") st) in
  currentProductiveApps (snd (reset true st1)) = [str "VSCode"; str "Slack"].
Proof.
  cbv zeta.
  destruct (reset_keeps_added_app true true (str "Slack")
              (snd (reset true (newConfigStore [str "VSCode"] [] NoFile))))
    as [_ E].
  - apply reset_aliasesDefaults.
  - rewrite E. vm_compute. reflexivity.
Defined.

Lemma writeHeap_other (h : Heap) (l k : Loc) (v : list jsstring) :
  k <> l -> writeHeap h l v k = h k.
Proof.
  intros N. unfold writeHeap. destruct (Nat.eqb_spec k l); [contradiction|].
  reflexivity.
Qed.

(** A load from a file that lists the productive applications puts them
    into a new array. *)
Lemma load_parsed (w : bool) (st : ConfigStore) (l : list jsstring)
    (ws : option (list jsstring)) :
  configFile st = Parsed (mkLoadedConfig (Some l) ws) ->
  exists c,
    config (load w st) = Some c /\
    productiveAppsRef c = nextLoc st /\
    heap (load w st) (nextLoc st) = l /\
    (forall k, (k < nextLoc st)%nat -> heap (load w st) k = heap st k) /\
    DEFAULT_CONFIG (load w st) = DEFAULT_CONFIG st.
Proof.
  intros F. unfold load. rewrite F. unfold mergeWithDefaults.
  cbn [loadedProductiveApps loadedProductiveWebsites].
  destruct ws as [l'|]; cbn [setConfig config heap DEFAULT_CONFIG];
    eexists; (split; [reflexivity|]); cbn [productiveAppsRef];
    (split; [reflexivity|]).
  - split; [|split; [|reflexivity]].
    + rewrite writeHeap_other by lia. apply writeHeap_same.
    + intros k Hk. rewrite !writeHeap_other by lia. reflexivity.
  - split; [|split; [|reflexivity]].
    + apply writeHeap_same.
    + intros k Hk. rewrite writeHeap_other by lia. reflexivity.
Qed.

Lemma addProductiveApp_frame (w : bool) (x : jsstring) (st : ConfigStore)
    (c : ConfigObject) (k : Loc) :
  config st = Some c -> k <> productiveAppsRef c ->
  heap (snd (addProductiveApp w x st)) k = heap st k.
Proof.
  intros C N. unfold addProductiveApp, ensureLoaded. rewrite !C.
  destruct (arrayIncludes (heap st (productiveAppsRef c)) x); cbn [negb].
  - reflexivity.
  - match goal with |- context [save w ?s] =>
      destruct (save_frame w s) as (H & _) end.
    rewrite H. cbn [setHeap heap]. apply writeHeap_other, N.
Qed.

(** X20: when the configuration was read from a file that lists the
    productive applications, the array in use is its own: an application
    added afterwards does not reach the defaults, and [reset()] brings the
    default list back. *)
Theorem reset_restores_defaults_after_file_load
    (w w1 w2 : bool) (defaultApps defaultWebsites fileApps : list jsstring)
    (fileWebsites : option (list jsstring)) (appName : jsstring) :
  let st0 := newConfigStore defaultApps defaultWebsites
               (Parsed (mkLoadedConfig (Some fileApps) fileWebsites)) in
  let st1 := load w st0 in
  let st2 := snd (addProductiveApp w1 appName st1) in
  let st3 := snd (reset w2 st2) in
  currentProductiveApps st1 = fileApps /\
  arrayIncludes (currentProductiveApps st2) appName = true /\
  currentProductiveApps st3 = defaultApps.
Proof.
  cbv zeta.
  set (st0 := newConfigStore defaultApps defaultWebsites _).
  destruct (load_parsed w st0 fileApps fileWebsites eq_refl)
    as (c & C & R & H & K & D).
  destruct (addProductiveApp_adds w1 appName (load w st0) c C)
    as (C2 & D2 & I2). cbv zeta in *.
  split; [|split].
  - unfold currentProductiveApps. rewrite C, R. exact H.
  - unfold currentProductiveApps. rewrite C2. exact I2.
  - unfold reset, currentProductiveApps.
    match goal with |- context [save w2 ?s] =>
      destruct (save_frame w2 s) as (H3 & C3 & _) end.
    rewrite C3, H3. cbn [setConfig config heap]. rewrite D2, D.
    rewrite (addProductiveApp_frame w1 appName (load w st0) c _ C)
      by (rewrite R; cbn; lia).
    rewrite K by (cbn; lia). reflexivity.
Qed.

Lemma ensureLoaded_config (w : bool) (st : ConfigStore) :
  exists c, config (ensureLoaded w st) = Some c.
Proof.
  unfold ensureLoaded. destruct (config st) as [c|] eqn:C; [eauto|].
  unfold load. destruct (configFile st) as [| |loaded].
  - destruct (save_frame w (setConfig st (DEFAULT_CONFIG st))) as (_ & E & _).
    rewrite E. cbn. eauto.
  - cbn. eauto.
  - destruct (mergeWithDefaults st loaded) as [merged st']. cbn. eauto.
Qed.

(** X21: an application that was not yet listed and is added while the
    file can be written is listed again after the process has been
    restarted and the file loaded. *)
Theorem added_app_survives_restart
    (w : bool) (defaultApps defaultWebsites : list jsstring)
    (appName : jsstring) (st : ConfigStore) :
  arrayIncludes (currentProductiveApps (ensureLoaded true st)) appName = false ->
  let r := addProductiveApp true appName st in
  let st' := load w (restart defaultApps defaultWebsites (snd r)) in
  fst r = true /\
  currentProductiveApps st'
  = currentProductiveApps (ensureLoaded true st) ++ [appName].
Proof.
  intros I. cbv zeta. unfold addProductiveApp.
  set (st0 := ensureLoaded true st) in *.
  unfold currentProductiveApps in I.
  destruct (ensureLoaded_config true st) as [c C]. fold st0 in C.
  rewrite C in I.
  rewrite !C, I. cbn [negb]. unfold save.
  cbn [setHeap config]. rewrite C. cbn [fst snd]. split; [reflexivity|].
  unfold restart. cbn [configFile heap].
  match goal with |- context [load w ?s] =>
    destruct (load_parsed w s _ _ eq_refl) as (c' & C' & R' & H' & _) end.
  unfold currentProductiveApps at 1. rewrite C', R', H'.
  cbn [setHeap heap]. rewrite writeHeap_same.
  unfold currentProductiveApps. rewrite C. reflexivity.
Qed.

Lemma added_app_survives_restart_witness :
  currentProductiveApps
    (load true
       (restart [str "VSCode"] []
          (snd (addProductiveApp true (str "Slack")
                  (newConfigStore [str "VSCode"] [] NoFile)))))
  = [str "VSCode"; str "Slack"].
Proof.
  apply (added_app_survives_restart true [str "VSCode"] [] (str "Slack")
           (newConfigStore [str "VSCode"] [] NoFile)).
  vm_compute. reflexivity.
Defined.

Lemma removeFirst_app_last (l : list jsstring) (x : jsstring) :
  arrayIncludes l x = false -> removeFirst (l ++ [x]) x = l.
Proof.
  unfold arrayIncludes. induction l as [|y l IH]; cbn [existsb app removeFirst].
  - intros _. rewrite jseqb_refl. reflexivity.
  - intros H. apply orb_false_iff in H. destruct H as [N H].
    assert (E : jseqb y x = false).
    { apply jseqb_neq. intros ->. rewrite jseqb_refl in N. discriminate. }
    rewrite E, IH by exact H. reflexivity.
Qed.

(** X22: removing an application right after it was added, when it was
    not listed before, gives back the list as it was. *)
Theorem removeProductiveApp_undoes_add
    (w1 w2 : bool) (appName : jsstring) (st : ConfigStore) :
  arrayIncludes (currentProductiveApps (ensureLoaded w1 st)) appName = false ->
  currentProductiveApps
    (snd (removeProductiveApp w2 appName (snd (addProductiveApp w1 appName st))))
  = currentProductiveApps (ensureLoaded w1 st).
Proof.
  intros I.
  destruct (ensureLoaded_config w1 st) as [c C].
  unfold addProductiveApp. set (st0 := ensureLoaded w1 st) in *.
  unfold currentProductiveApps in I |- *. rewrite C in *. rewrite I.
  cbn [negb].
  match goal with |- context [save w1 ?s] =>
    destruct (save_frame w1 s) as (H1 & C1 & _);
    set (st1 := snd (save w1 s)) in * end.
  cbn [setHeap heap config] in H1, C1. rewrite C in C1.
  unfold removeProductiveApp, ensureLoaded. rewrite !C1, H1, writeHeap_same.
  rewrite arrayIncludes_app_last.
  match goal with |- context [save w2 ?s] =>
    destruct (save_frame w2 s) as (H2 & C2 & _) end.
  rewrite C2, H2. cbn [setHeap heap config]. rewrite C1, writeHeap_same.
  apply removeFirst_app_last, I.
Qed.

Lemma removeProductiveApp_undoes_add_witness :
  currentProductiveApps
    (snd (removeProductiveApp true (str "Slack")
            (snd (addProductiveApp true (str "Slack")
                    (newConfigStore [str "VSCode"] [] NoFile)))))
  = [str "VSCode"].
Proof.
  apply (removeProductiveApp_undoes_add true true (str "Slack")
           (newConfigStore [str "VSCode"] [] NoFile)).
  vm_compute. reflexivity.
Defined.

(* ================================================================= *)
(** ** The tracker and the log it writes *)

Lemma alternates_app (a b c : bool) (l1 l2 : list Activity) :
  alternates a l1 b -> alternates b l2 c -> alternates a (l1 ++ l2) c.
Proof.
  induction 1 as [b | x l b S _ IH | x l b S _ IH | x l b S _ IH];
    intros H2; cbn [app].
  - exact H2.
  - apply alternates_sample; [exact S | apply IH, H2].
  - apply alternates_start; [exact S | apply IH, H2].
  - apply alternates_end; [exact S | apply IH, H2].
Qed.

Lemma afterGuard_ready (db : WorkTrackerDB) :
  negb (initialized db) && negb (init db) = false ->
  initialized (afterGuard db) = true /\
  activity_log (afterGuard db) = activity_log db.
Proof.
  unfold afterGuard. destruct (initialized db) eqn:I; [auto|].
  destruct (init db); [|discriminate]. cbn. auto.
Qed.

Lemma logActivity_log (db : WorkTrackerDB) (t : Z) (a w : option jsstring)
    (k : bool) (ty p : option jsstring) :
  initialized db = true ->
  initialized (logActivity db t a w k ty p) = true /\
  activity_log (logActivity db t a w k ty p)
  = activity_log db ++ [mkActivity t a w k ty p].
Proof.
  intros I. unfold logActivity, ready. rewrite I. cbn. auto.
Qed.

Lemma tracker_step (toLowerCase : jsstring -> jsstring)
    (keywords : list (jsstring * list jsstring)) (threshold : Q)
    (st : ActivityTracker.State) (o : ActivityTracker.Observation) :
  let st' := ActivityTracker.logActivity toLowerCase keywords threshold st o in
  exists rows,
    activity_log (ActivityTracker.db st')
    = activity_log (ActivityTracker.db st) ++ rows /\
    alternates (ActivityTracker.isAFK st) rows (ActivityTracker.isAFK st').
Proof.
  cbv zeta. unfold ActivityTracker.logActivity.
  destruct (negb (isAvailable (ActivityTracker.db st)));
    [exists []; rewrite app_nil_r; split; [reflexivity | constructor]|].
  destruct (negb (initialized (ActivityTracker.db st)) &&
            negb (init (ActivityTracker.db st))) eqn:G;
    [exists []; rewrite app_nil_r; split; [reflexivity | constructor]|].
  destruct (afterGuard_ready _ G) as [I L].
  set (db0 := afterGuard (ActivityTracker.db st)) in *.
  destruct (ActivityTracker.idleTimeSeconds o) as [idle|];
    [|exists []; cbn [ActivityTracker.db ActivityTracker.isAFK];
      rewrite app_nil_r; split; [exact L | constructor]].
  destruct (negb (Qle_bool idle (orNumber threshold 180))).
  - destruct (ActivityTracker.isAFK st) eqn:B; cbn [negb].
    + exists []. cbn [ActivityTracker.db ActivityTracker.isAFK].
      rewrite app_nil_r. split; [exact L | constructor].
    + eexists. cbn [ActivityTracker.db ActivityTracker.isAFK].
      destruct (logActivity_log db0 (ActivityTracker.markerTimestamp o)
                  None None true (Some (str "start")) None I) as [_ E].
      rewrite E, L. split; [reflexivity|].
      apply alternates_start; [split; reflexivity | constructor].
  - destruct (ActivityTracker.isAFK st) eqn:B.
    + destruct (logActivity_log db0 (ActivityTracker.markerTimestamp o)
                  None None true (Some (str "end")) None I) as [I1 E1].
      destruct (ActivityTracker.activeApp o) as [appName|].
      * cbn [ActivityTracker.db ActivityTracker.isAFK].
        match goal with |- context [logActivity ?d ?t ?a ?w false ?ty ?p] =>
          destruct (logActivity_log d t a w false ty p I1) as [_ E2] end.
        eexists. rewrite E2, E1, L, <- app_assoc. split; [reflexivity|].
        cbn [app]. apply alternates_end; [split; reflexivity|].
        apply alternates_sample; [reflexivity | constructor].
      * cbn [ActivityTracker.db ActivityTracker.isAFK].
        eexists. rewrite E1, L. split; [reflexivity|].
        apply alternates_end; [split; reflexivity | constructor].
    + destruct (ActivityTracker.activeApp o) as [appName|].
      * cbn [ActivityTracker.db ActivityTracker.isAFK].
        match goal with |- context [logActivity ?d ?t ?a ?w false ?ty ?p] =>
          destruct (logActivity_log d t a w false ty p I) as [_ E2] end.
        eexists. rewrite E2, L. split; [reflexivity|].
        apply alternates_sample; [reflexivity | constructor].
      * cbn [ActivityTracker.db ActivityTracker.isAFK].
        exists []. rewrite app_nil_r. split; [exact L | constructor].
Qed.

Lemma tracker_log_steps (toLowerCase : jsstring -> jsstring)
    (keywords : list (jsstring * list jsstring)) (threshold : Q)
    (obs : list ActivityTracker.Observation) (st : ActivityTracker.State) :
  let st' := fold_left
               (ActivityTracker.logActivity toLowerCase keywords threshold)
               obs st in
  exists rows,
    activity_log (ActivityTracker.db st')
    = activity_log (ActivityTracker.db st) ++ rows /\
    alternates (ActivityTracker.isAFK st) rows (ActivityTracker.isAFK st').
Proof.
  cbv zeta. revert st. induction obs as [|o obs IH]; intros st.
  - exists []. rewrite app_nil_r. split; [reflexivity | constructor].
  - cbn [fold_left].
    destruct (tracker_step toLowerCase keywords threshold st o)
      as (r1 & E1 & A1). cbv zeta in *.
    destruct (IH (ActivityTracker.logActivity toLowerCase keywords threshold
                    st o)) as (r2 & E2 & A2).
    exists (r1 ++ r2). rewrite E2, E1, app_assoc. split; [reflexivity|].
    eapply alternates_app; eassumption.
Qed.


Lemma afk_type_is_start (a : Activity) :
  isAfkStart a -> afk_type_is a "start" = true.
Proof. intros [_ E]. unfold afk_type_is. rewrite E. reflexivity. Qed.

Lemma afk_type_is_end (a : Activity) :
  isAfkEnd a -> afk_type_is a "start" = false /\ afk_type_is a "end" = true.
Proof. intros [_ E]. unfold afk_type_is. rewrite E. split; reflexivity. Qed.

Lemma isAfk_setLastTimestamp (v : Vars) (t : Z) :
  isAfk (setLastTimestamp v t) = isAfk v.
Proof. reflexivity. Qed.

Lemma alternates_isAfk (apps sites : list jsstring) (b b' : bool)
    (rows : list Activity) :
  alternates b rows b' ->
  forall v, isAfk v = b ->
  isAfk (fold_left (step apps sites) rows v) = b'.
Proof.
  induction 1 as [b | x l b S _ IH | x l b S _ IH | x l b S _ IH];
    intros v Hv; cbn [fold_left].
  - exact Hv.
  - apply IH. unfold step. rewrite S, Hv.
    destruct (isProductiveActivity _ _ _ _); destruct (sessionStart v);
      projections; assumption.
  - apply IH. unfold step. destruct S as [S1 S2].
    rewrite S1, (afk_type_is_start x (conj S1 S2)).
    destruct (sessionStart v); [destruct (negb (isAfk v))|];
      projections; reflexivity.
  - apply IH. unfold step.
    destruct (afk_type_is_end x S) as [E1 E2]. destruct S as [S1 S2].
    rewrite S1, E1, E2. reflexivity.
Qed.

Lemma closeOngoing_afk (d : jsstring) (now : Z) (v : Vars) :
  isAfk v = true -> closeOngoing d now v = v.
Proof.
  intros A. unfold closeOngoing. rewrite A.
  destruct (sessionStart v); reflexivity.
Qed.

(** X24: replaying a log that the tracker wrote from scratch, all on one
    date and in the order written, the reconstruction ends with the AFK
    flag of the tracker; and while the tracker holds the user for AFK, the
    result for that date does not depend on the clock: the total does not
    grow. *)
Theorem tracker_flag_matches_replay (toLowerCase : jsstring -> jsstring)
    (keywords : list (jsstring * list jsstring)) (threshold : Q)
    (obs : list ActivityTracker.Observation) (st : ActivityTracker.State)
    (d : jsstring) (apps sites : list jsstring) :
  ActivityTracker.isAFK st = false ->
  activity_log (ActivityTracker.db st) = [] ->
  let st' := fold_left
               (ActivityTracker.logActivity toLowerCase keywords threshold)
               obs st in
  getActivityForDate (ActivityTracker.db st') d
  = activity_log (ActivityTracker.db st') ->
  isAfk (fold_left (step apps sites)
           (getActivityForDate (ActivityTracker.db st') d) initialVars)
  = ActivityTracker.isAFK st' /\
  (ActivityTracker.isAFK st' = true ->
   forall now1 now2,
     calculateWorkTimeForDate (ActivityTracker.db st') now1 d apps sites
     = calculateWorkTimeForDate (ActivityTracker.db st') now2 d apps sites).
Proof.
  intros B L. cbv zeta. intros Q.
  destruct (tracker_log_steps toLowerCase keywords threshold obs st)
    as (rows & E & A).
  rewrite L in E. cbn [app] in E. rewrite B in A.
  assert (F : isAfk (fold_left (step apps sites)
                       (getActivityForDate
                          (ActivityTracker.db
                             (fold_left
                                (ActivityTracker.logActivity toLowerCase
                                   keywords threshold) obs st)) d)
                       initialVars)
              = ActivityTracker.isAFK
                  (fold_left
                     (ActivityTracker.logActivity toLowerCase keywords
                        threshold) obs st)).
  { rewrite Q, E. apply (alternates_isAfk apps sites false _ rows A).
    reflexivity. }
  split; [exact F|].
  intros T now1 now2. rewrite T in F.
  unfold calculateWorkTimeForDate, reconstruct.
  rewrite !(closeOngoing_afk d _ _ F). reflexivity.
Qed.

(** A sample at 09:00, then five idle minutes seen at 09:10: the tracker
    holds the user for AFK, and the total of the day stays at ten minutes
    whenever it is computed. *)
Lemma tracker_flag_matches_replay_witness :
  let st' :=
    fold_left (ActivityTracker.logActivity asciiToLowerCase [] 180)
      [ActivityTracker.mkObservation (Some 0%Q) (at_ 9 0) (Some (str "VSCode"))
         (Some (str "a.js")) (at_ 9 0);
       ActivityTracker.mkObservation (Some 300%Q) (at_ 9 10) None None (at_ 9 10)]
      (ActivityTracker.mkState false (dbOf [])) in
  calculateWorkTimeForDate (ActivityTracker.db st') (at_ 10 0)
    (str "2024-03-15") [str "VSCode"] []
  = calculateWorkTimeForDate (ActivityTracker.db st') (at_ 11 0)
      (str "2024-03-15") [str "VSCode"] [].
Proof.
  cbv zeta.
  apply (tracker_flag_matches_replay asciiToLowerCase [] 180
           [ActivityTracker.mkObservation (Some 0%Q) (at_ 9 0)
              (Some (str "VSCode")) (Some (str "a.js")) (at_ 9 0);
            ActivityTracker.mkObservation (Some 300%Q) (at_ 9 10) None None
              (at_ 9 10)]
           (ActivityTracker.mkState false (dbOf []))
           (str "2024-03-15") [str "VSCode"] []).
  - reflexivity.
  - reflexivity.
  - vm_compute. reflexivity.
  - vm_compute. reflexivity.
Defined.

(* ================================================================= *)
(** ** Notifications *)

Lemma trackWorkActivity_reminder (enabled : bool) (minutes : Q)
    (w : bool) (t1 t2 : Z) (m : Notifications.NotificationManager) :
  let r := Notifications.trackWorkActivity enabled minutes w t1 t2 m in
  (snd r = true ->
   Notifications.lastBreakReminder (fst r) = Some t2 /\
   w = true /\
   (orNumber minutes 60 <= Notifications.continuousWorkMinutes (fst r))%Q /\
   match Notifications.lastBreakReminder m with
   | Some p => (orNumber minutes 60 * 60 * 1000 <= inject_Z (t2 - p))%Q
   | None => True
   end) /\
  (snd r = false ->
   Notifications.lastBreakReminder (fst r)
   = Notifications.lastBreakReminder m).
Proof.
  cbv zeta. unfold Notifications.trackWorkActivity.
  destruct enabled; cbn [negb]; [|split; [discriminate | reflexivity]].
  destruct w; [|split; [discriminate | reflexivity]].
  destruct (Qle_bool (orNumber minutes 60) _) eqn:C;
    [|split; [discriminate | reflexivity]].
  cbn [Notifications.lastBreakReminder].
  destruct (Notifications.lastBreakReminder m) as [p|] eqn:L.
  - destruct (Qle_bool _ (inject_Z (t2 - p))) eqn:D;
      [|split; [discriminate | reflexivity]].
    split; [|discriminate]. intros _. cbn.
    apply Qle_bool_iff in C, D. auto.
  - split; [|discriminate]. intros _. cbn.
    apply Qle_bool_iff in C. auto.
Qed.

(** X25: under constant settings the break reminders issued by any
    sequence of calls are at least the reminder interval apart, the first
    of them from the reminder the manager remembered before. *)
Theorem break_reminders_spaced (enabled : bool) (minutes : Q)
    (calls : list WorkCall) (m : Notifications.NotificationManager) :
  spaced (orNumber minutes 60 * 60 * 1000)
         (Notifications.lastBreakReminder m)
         (fst (breakReminders enabled minutes calls m)).
Proof.
  revert m. induction calls as [|c calls IH]; intros m; [exact I|].
  cbn [breakReminders].
  pose proof (trackWorkActivity_reminder enabled minutes (isWorking c)
                (startRead c) (nowRead c) m) as [Y N]. cbv zeta in Y, N.
  destruct (Notifications.trackWorkActivity enabled minutes (isWorking c)
              (startRead c) (nowRead c) m) as [m1 shown].
  specialize (IH m1).
  destruct (breakReminders enabled minutes calls m1) as [l m'].
  cbn [fst snd] in *. destruct shown.
  - destruct (Y eq_refl) as (L & _ & _ & G). rewrite L in IH.
    cbn [spaced]. split; [|exact IH].
    destruct (Notifications.lastBreakReminder m); [exact G | exact I].
  - rewrite (N eq_refl) in IH. exact IH.
Qed.

Lemma goalNotifications_same_day (events : list GoalEvent) (d : jsstring) :
  (forall now, In (ResetDailyFlags now) events -> toISODate now = d) ->
  forall m,
    Notifications.lastNotificationDate m = Some d ->
    (Notifications.goalNotifiedToday m = true ->
     goalNotifications events m = 0%nat) /\
    (goalNotifications events m <= 1)%nat.
Proof.
  induction events as [|e events IH]; intros R m D; [cbn; auto|].
  assert (R' : forall now, In (ResetDailyFlags now) events -> toISODate now = d)
    by (intros now Hn; apply R; right; exact Hn).
  destruct e as [enabled | now]; cbn [goalNotifications].
  - unfold Notifications.showGoalReached.
    destruct enabled; cbn [negb]; [|apply IH; assumption].
    destruct (Notifications.goalNotifiedToday m) eqn:G.
    + destruct (IH R' m D) as [Z _]. rewrite (Z G). auto.
    + split; [discriminate|].
      match goal with |- context [goalNotifications events ?m1] =>
        destruct (IH R' m1 D) as [Z _]; rewrite (Z eq_refl) end.
      cbn. lia.
  - assert (E : Notifications.resetDailyFlags now m = m).
    { unfold Notifications.resetDailyFlags. rewrite D.
      rewrite (R now (or_introl eq_refl)), jseqb_refl. reflexivity. }
    rewrite E. apply IH; assumption.
Qed.

(** X26: as long as the daily reset runs on the date the manager has
    noted, it does not re-arm the goal notification: any sequence of
    requests and such resets issues the notification at most once, and
    not at all when it was issued before. *)
Theorem goal_notified_once_a_day
    (events : list GoalEvent) (d : jsstring)
    (m : Notifications.NotificationManager) :
  Notifications.lastNotificationDate m = Some d ->
  (forall now, In (ResetDailyFlags now) events -> toISODate now = d) ->
  (goalNotifications events m <= 1)%nat /\
  (Notifications.goalNotifiedToday m = true ->
   goalNotifications events m = 0%nat).
Proof.
  intros D R. destruct (goalNotifications_same_day events d R m D).
  split; assumption.
Qed.

(** The settings are saved at 13:00 of the day on which the goal was
    announced: the second request stays silent. *)
Lemma goal_notified_once_a_day_witness :
  (goalNotifications
     [ShowGoalReached true; ResetDailyFlags (at_ 13 0); ShowGoalReached true]
     (Notifications.resetDailyFlags (at_ 9 0)
        Notifications.newNotificationManager) <= 1)%nat.
Proof.
  apply (goal_notified_once_a_day
           [ShowGoalReached true; ResetDailyFlags (at_ 13 0);
            ShowGoalReached true]
           (str "2024-03-15")
           (Notifications.resetDailyFlags (at_ 9 0)
              Notifications.newNotificationManager)).
  - vm_compute. reflexivity.
  - intros now [H | [H | [H | []]]]; try discriminate.
    injection H as <-. vm_compute. reflexivity.
Defined.

(* ================================================================= *)
(** ** The CSV export *)

Lemma includes_single (s : jsstring) (c : N) :
  includes s [c] = existsb (N.eqb c) s.
Proof.
  induction s as [|d s IH]; [reflexivity|].
  cbn [includes startsWith existsb]. rewrite IH.
  destruct s; rewrite andb_true_r; reflexivity.
Qed.

Lemma readQuoted_doubled (s rest : jsstring) :
  endsField rest ->
  readQuoted (doubleQuotes s ++ quote :: rest) = (s, rest).
Proof.
  intros E. induction s as [|c s IH]; cbn [doubleQuotes flat_map app].
  - cbn [readQuoted]. rewrite N.eqb_refl.
    destruct rest as [|d rest]; [reflexivity|].
    destruct E as [-> | [-> | ->]]; reflexivity.
  - fold (doubleQuotes s). destruct (N.eqb_spec c quote) as [-> | N].
    + cbn [app readQuoted]. rewrite !N.eqb_refl, IH. reflexivity.
    + cbn [app readQuoted]. apply N.eqb_neq in N. rewrite N, IH. reflexivity.
Qed.

Lemma readPlain_plain (s rest : jsstring) :
  endsField rest ->
  existsb (N.eqb comma) s = false -> existsb (N.eqb newline) s = false ->
  existsb (N.eqb carriageReturn) s = false ->
  readPlain (s ++ rest) = (s, rest).
Proof.
  intros E. induction s as [|c s IH]; cbn [existsb app]; intros C L R.
  - destruct rest as [|d rest]; [reflexivity|].
    destruct E as [-> | [-> | ->]]; reflexivity.
  - apply orb_false_iff in C, L, R.
    destruct C as [C1 C2], L as [L1 L2], R as [R1 R2].
    cbn [readPlain].
    rewrite (N.eqb_sym c comma), (N.eqb_sym c newline),
      (N.eqb_sym c carriageReturn), C1, L1, R1.
    cbn [orb]. rewrite IH by assumption. reflexivity.
Qed.

(** A field read without quotes holds no carriage return. *)
Lemma readPlain_no_carriageReturn (t : jsstring) :
  existsb (N.eqb carriageReturn) (fst (readPlain t)) = false.
Proof.
  induction t as [|c t IH]; [reflexivity|]. cbn [readPlain].
  destruct (N.eqb c comma || N.eqb c newline || N.eqb c carriageReturn)
    eqn:X; [reflexivity|].
  destruct (readPlain t) as [f r]. cbn [fst existsb] in *.
  apply orb_false_iff in X. destruct X as [_ X].
  rewrite (N.eqb_sym carriageReturn c), X, IH. reflexivity.
Qed.

Lemma doubleQuotes_injective (s1 s2 : jsstring) :
  doubleQuotes s1 = doubleQuotes s2 -> s1 = s2.
Proof.
  revert s2; induction s1 as [|c1 s1 IH]; intros [|c2 s2];
    cbn [doubleQuotes flat_map]; fold doubleQuotes.
  - reflexivity.
  - destruct (N.eqb c2 quote); discriminate.
  - destruct (N.eqb c1 quote); discriminate.
  - destruct (N.eqb_spec c1 quote) as [-> | N1];
      destruct (N.eqb_spec c2 quote) as [-> | N2]; cbn [app]; intros H.
    + injection H as H. f_equal. apply IH, H.
    + injection H as H _. congruence.
    + injection H as H _. congruence.
    + injection H as -> H. f_equal. apply IH, H.
Qed.

(** X27: a field written by [escapeCSV] is read back unchanged by a reader
    of CSV, the reader stopping exactly at the text that follows the
    field, if and only if the field holds no carriage return or is written
    in quotes (it holds a comma, a quote or a line feed): a field whose
    only special character is a carriage return is written bare and is
    cut at it.  And two different strings are never written as the same
    field. *)
Theorem escapeCSV_read_back (s rest : jsstring) :
  endsField rest ->
  (readField (escapeCSV (Some s) ++ rest) = (s, rest) <->
   existsb (N.eqb carriageReturn) s = false \/
   includes s [comma] || includes s [quote] || includes s [newline] = true) /\
  (forall s', escapeCSV (Some s') = escapeCSV (Some s) -> s' = s).
Proof.
  intros E. split.
  - unfold escapeCSV. rewrite !includes_single.
    destruct (existsb (N.eqb comma) s || existsb (N.eqb quote) s
              || existsb (N.eqb newline) s) eqn:X.
    + split; [intros _; right; reflexivity|]. intros _.
      cbn [app readField]. rewrite N.eqb_refl, <- app_assoc.
      apply readQuoted_doubled, E.
    + apply orb_false_iff in X. destruct X as [X L].
      apply orb_false_iff in X. destruct X as [C Q].
      destruct s as [|c s].
      * split; [intros _; left; reflexivity|]. intros _.
        cbn [app]. destruct rest as [|d rest]; [reflexivity|].
        destruct E as [-> | [-> | ->]]; reflexivity.
      * cbn [existsb] in Q. apply orb_false_iff in Q. destruct Q as [Q _].
        cbn [app readField]. rewrite (N.eqb_sym c quote), Q.
        change (c :: s ++ rest) with ((c :: s) ++ rest). split.
        -- intros H. left.
           pose proof (readPlain_no_carriageReturn ((c :: s) ++ rest)) as R.
           rewrite H in R. exact R.
        -- intros [R | R]; [|discriminate].
           apply (readPlain_plain (c :: s) rest E C L R).
  - intros s'. unfold escapeCSV. rewrite !includes_single.
    destruct (existsb (N.eqb comma) s' || existsb (N.eqb quote) s'
              || existsb (N.eqb newline) s') eqn:X';
      destruct (existsb (N.eqb comma) s || existsb (N.eqb quote) s
                || existsb (N.eqb newline) s) eqn:X.
    + cbn [app]. intros H. injection H as H.
      apply app_inv_tail in H. apply doubleQuotes_injective, H.
    + cbn [app]. intros H. rewrite <- H in X. cbn [existsb] in X.
      rewrite N.eqb_refl in X.
      rewrite orb_true_r in X. discriminate.
    + cbn [app]. intros H. rewrite H in X'. cbn [existsb] in X'.
      rewrite N.eqb_refl in X'.
      rewrite orb_true_r in X'. discriminate.
    + auto.
Qed.

(** A name with a comma is written in quotes and read back whole; a name
    whose only special character is a carriage return is not. *)
Lemma escapeCSV_read_back_witness :
  readField (escapeCSV (Some (str "Acme, Inc")) ++ str ",120,2h 0m")
  = (str "Acme, Inc", str ",120,2h 0m") /\
  readField (escapeCSV (Some [65; carriageReturn; 66]%N) ++ str ",120,2h 0m")
  <> ([65; carriageReturn; 66]%N, str ",120,2h 0m").
Proof.
  split.
  - apply (escapeCSV_read_back (str "Acme, Inc") (str ",120,2h 0m"));
      [left; reflexivity | right; reflexivity].
  - intros H.
    apply (escapeCSV_read_back [65; carriageReturn; 66]%N
             (str ",120,2h 0m")) in H; [|left; reflexivity].
    destruct H as [H | H]; discriminate H.
Defined.

(* ================================================================= *)
(** ** Writing and reading the log *)

Lemma insertByTimestamp_app_last (x a : Activity) (m : list Activity) :
  timestamp x <= timestamp a ->
  insertByTimestamp x (m ++ [a]) = insertByTimestamp x m ++ [a].
Proof.
  intros H. induction m as [|b m IH]; cbn [app insertByTimestamp].
  - apply Z.leb_le in H. rewrite H. reflexivity.
  - destruct (timestamp x <=? timestamp b); [reflexivity|].
    rewrite IH. reflexivity.
Qed.

Lemma orderByTimestamp_app_last (l : list Activity) (a : Activity) :
  Forall (fun x => timestamp x <= timestamp a) l ->
  orderByTimestamp (l ++ [a]) = orderByTimestamp l ++ [a].
Proof.
  induction 1 as [|x l Hx _ IH]; [reflexivity|].
  cbn [app]. unfold orderByTimestamp in *. cbn [fold_right].
  rewrite IH. apply insertByTimestamp_app_last, Hx.
Qed.

Lemma getActivityForDate_logActivity (db : WorkTrackerDB) (d : jsstring)
    (t : Z) (a w : option jsstring) (k : bool) (ty p : option jsstring) :
  ready db = true ->
  getActivityForDate (logActivity db t a w k ty p) d
  = orderByTimestamp
      (filter (fun x => jseqb (toISODate (timestamp x)) d) (activity_log db)
       ++ (if jseqb (toISODate t) d then [mkActivity t a w k ty p] else [])).
Proof.
  intros R. unfold logActivity. rewrite R. cbn [negb].
  unfold getActivityForDate, ready. cbn [initialized negb andb activity_log].
  rewrite filter_app. cbn [filter timestamp]. reflexivity.
Qed.

(** X28: a row written to the log with an instant of the years 0000 to
    9999 is returned by the query for its date, and when it is newer than
    every row stored it is returned last, after the rows returned before;
    the rows and the computed result of every other date stay as they
    were, whatever the instant. *)
Theorem logActivity_then_read (db : WorkTrackerDB) (now : Z) (d : jsstring)
    (apps sites : list jsstring)
    (t : Z) (a w : option jsstring) (k : bool) (ty p : option jsstring) :
  ready db = true ->
  let row := mkActivity t a w k ty p in
  let db' := logActivity db t a w k ty p in
  (d <> toISODate t ->
   getActivityForDate db' d = getActivityForDate db d /\
   calculateWorkTimeForDate db' now d apps sites
   = calculateWorkTimeForDate db now d apps sites) /\
  (sqlDateRange t -> In row (getActivityForDate db' (toISODate t))) /\
  (sqlDateRange t ->
   Forall (fun x => timestamp x < t) (activity_log db) ->
   getActivityForDate db' (toISODate t)
   = getActivityForDate db (toISODate t) ++ [row]).
Proof.
  intros R. cbv zeta.
  assert (R' : ready (logActivity db t a w k ty p) = true).
  { unfold logActivity. rewrite R. reflexivity. }
  split; [|split].
  - intros N.
    assert (E : getActivityForDate (logActivity db t a w k ty p) d
                = getActivityForDate db d).
    { rewrite getActivityForDate_logActivity by exact R.
      assert (J : jseqb (toISODate t) d = false)
        by (apply jseqb_neq; congruence).
      rewrite J, app_nil_r. unfold getActivityForDate. rewrite R.
      reflexivity. }
    split; [exact E|].
    unfold calculateWorkTimeForDate. rewrite E, R, R'. reflexivity.
  - intros _. rewrite getActivityForDate_logActivity by exact R.
    rewrite jseqb_refl. apply orderByTimestamp_In, in_or_app.
    right. left. reflexivity.
  - intros _ F. rewrite getActivityForDate_logActivity by exact R.
    rewrite jseqb_refl. unfold getActivityForDate. rewrite R. cbn [negb].
    apply orderByTimestamp_app_last.
    apply Forall_forall. intros x Hx. apply filter_In in Hx.
    rewrite Forall_forall in F. cbn [timestamp].
    apply Z.lt_le_incl, F, Hx.
Qed.

Lemma logActivity_then_read_witness :
  getActivityForDate
    (logActivity (dbOf scenarioPlain) (at_ 11 30) (Some (str "Slack"))
       (Some (str "chat")) false None None)
    (toISODate (at_ 11 30))
  = getActivityForDate (dbOf scenarioPlain) (toISODate (at_ 11 30))
    ++ [sample (at_ 11 30) "Slack" "chat"].
Proof.
  apply (logActivity_then_read (dbOf scenarioPlain) 0 [] [] []
           (at_ 11 30) (Some (str "Slack")) (Some (str "chat")) false
           None None).
  - reflexivity.
  - unfold sqlDateRange. vm_compute. split; discriminate.
  - repeat constructor.
Defined.

(* ================================================================= *)
(** ** Project detection: the editor pattern and the keyword cache *)

(** X29: a window title [<name> - Visual Studio Code] whose name holds no
    hyphen and, trimmed, is not empty, holds no dot and is shorter than 50
    is assigned to the project of the trimmed name, when no configured
    keyword occurs in the text searched. *)
Theorem detectProject_editor_folder
    (toLowerCase : jsstring -> jsstring)
    (keywords : list (jsstring * list jsstring))
    (name : jsstring) (appName : option jsstring) :
  let title := name ++ str " - Visual Studio Code" in
  Forall (fun x => x <> chr "-") name ->
  trim name <> [] ->
  ~ contains (trim name) (str ".") ->
  (length (trim name) < 50)%nat ->
  noKeywordIn toLowerCase (searchTextOf toLowerCase (Some title) appName)
              keywords ->
  detectProject toLowerCase keywords (Some title) appName = trim name.
Proof. apply detectProject_editor_title. Qed.

Lemma detectProject_editor_folder_witness :
  detectProject asciiToLowerCase [] (Some (str "worktracker - Visual Studio Code"))
    (Some (str "Code"))
  = str "worktracker".
Proof.
  apply (detectProject_editor_folder asciiToLowerCase [] (str "worktracker")
           (Some (str "Code"))).
  - repeat constructor; vm_compute; discriminate.
  - vm_compute. discriminate.
  - intros (pre & post & E). vm_compute in E.
    repeat (destruct pre as [|? pre]; [discriminate|];
            injection E as _ E).
    destruct pre; discriminate.
  - vm_compute. lia.
  - intros q ks k [].
Defined.

Lemma getKeywords_cacheFrom
    (history : list (list (jsstring * list jsstring) * Z))
    (K : list (jsstring * list jsstring)) (t : Z) (pm : ProjectManager) :
  cacheFrom history pm ->
  cacheFrom (history ++ [(K, t)]) (snd (getKeywords K t pm)).
Proof.
  assert (N : cacheFrom (history ++ [(K, t)])
                (mkProjectManager (Some K) (Some t))).
  { right. exists K, t. repeat split. apply in_or_app. right. left.
    reflexivity. }
  intros [H | (K' & t' & HK & HT & HI)]; unfold getKeywords.
  - rewrite H. exact N.
  - rewrite HK, HT.
    destruct (negb (truthyNumber (Some t')) || (30000 <? t - t'));
      [exact N|].
    right. exists K', t'. repeat split; try assumption.
    apply in_or_app. left. exact HI.
Qed.

Lemma afterKeywordCalls_cacheFrom
    (calls history : list (list (jsstring * list jsstring) * Z))
    (pm : ProjectManager) :
  cacheFrom history pm ->
  cacheFrom (history ++ calls) (afterKeywordCalls calls pm).
Proof.
  revert history pm. induction calls as [|[K t] calls IH]; intros history pm H.
  - rewrite app_nil_r. exact H.
  - unfold afterKeywordCalls. cbn [fold_left fst snd].
    replace (history ++ (K, t) :: calls)
      with ((history ++ [(K, t)]) ++ calls)
      by (rewrite <- app_assoc; reflexivity).
    apply IH, getKeywords_cacheFrom, H.
Qed.

(** X30: whatever calls came before, the keywords that [getKeywords()]
    returns are those configured now or those that a call at most 30
    seconds earlier found configured: a change of the configuration is
    seen after 30 seconds at the latest, and at once after
    [invalidateCache()]. *)
Theorem getKeywords_bounded_staleness
    (earlier : list (list (jsstring * list jsstring) * Z))
    (configured : list (jsstring * list jsstring)) (now : Z) :
  let pm := afterKeywordCalls earlier newProjectManager in
  let returned := fst (getKeywords configured now pm) in
  (returned = configured \/
   exists t, In (returned, t) earlier /\ now - t <= 30000) /\
  fst (getKeywords configured now (invalidateCache pm)) = configured.
Proof.
  cbv zeta. split; [|reflexivity].
  pose proof (afterKeywordCalls_cacheFrom earlier [] newProjectManager
                (or_introl eq_refl)) as H.
  cbn [app] in H. unfold getKeywords.
  destruct H as [H | (K & t & HK & HT & HI)].
  - rewrite H. left. reflexivity.
  - rewrite HK, HT.
    destruct (negb (truthyNumber (Some t))); cbn [orb fst];
      [left; reflexivity|].
    destruct (Z.ltb_spec 30000 (now - t)); cbn [fst];
      [left; reflexivity|].
    right. exists t. split; assumption.
Qed.

